(** * triangle.py: a call-level model of the Vulkan triangle demo

    The demo is a sequence of calls into the Vulkan driver and the window
    system.  The model keeps exactly that: every method of [triangle.py] is a
    computation in a state-and-exception monad over the attributes of the
    application object, and every call that leaves the Python program (a
    Vulkan entry point, the window, the file system, the clock) is recorded in
    a trace together with the answer it got.  The answers come from an oracle
    carried by the world, so a statement quantified over worlds holds for
    every behaviour of the driver. *)

From Stdlib Require Import ZArith QArith List String Bool Lia.
From stdpp Require Import base list gmap.

Open Scope string_scope.
Open Scope list_scope.
Open Scope Z_scope.

(** ** Values *)

(** Python floats are never computed with by [triangle.py] itself: they are
    literals, quotients of two ints, or contents of a [c_float] array, and
    they are only handed on to [xmath] and to the driver.  A float is kept as
    the expression that built it. *)
#[local] Unset Elimination Schemes.

Inductive Num : Type :=
| Lit (q : Q)               (* a literal, e.g. 60.0 or 0.1 *)
| TrueDiv (a b : Z)         (* a / b on two ints, b <> 0 *)
| OfInt (z : Z).            (* float(z) *)

Definition Vec3 : Type := (Num * Num * Num)%type.

(** [xmath] is imported by [triangle.py] but is not part of the sources.  Its
    three functions used here stay uninterpreted: a matrix is the term that
    built it.  [Mat4_new] is the value of a fresh [Mat4()]. *)
Inductive Mat : Type :=
| Mat4_new
| perspective (fovy aspect near far : Num)
| rotate (m : option Mat) (angle : Num) (axis : Vec3)
| translate (m : option Mat) (v : Vec3).

(** Python values held in attributes and passed to calls.  [VInt] is a Python
    int, [VC] a ctypes scalar object (a [c_uint], a handle) with its value. *)
Inductive Val : Type :=
| VNone
| VBool (b : bool)
| VInt (z : Z)
| VC (z : Z)
| VNum (x : Num)
| VMat (m : Mat)
| VList (l : list Val)
| VObj.                     (* a reference to some other object *)

#[local] Set Elimination Schemes.

Definition is_none (v : Val) : bool :=
  match v with VNone => true | _ => false end.

(** Truth value of an object in a condition: ctypes scalars are true when
    their value is non-zero, sequences when they are not empty. *)
Definition truthy (v : Val) : bool :=
  match v with
  | VNone => false
  | VBool b => b
  | VInt z | VC z => negb (z =? 0)
  | VNum _ | VMat _ | VObj => true
  | VList l => negb (Nat.eqb (length l) 0)
  end.

(** [v == n] for a Python int [n].  An int is equal to ints only; ctypes
    objects define no [__eq__], so comparing one with an int compares
    identities and is false. *)
Definition eq_int (v : Val) (n : Z) : bool :=
  match v with VInt z => z =? n | _ => false end.

(** The value of a [c_uint]: 32 bits, unsigned. *)
Definition c_uint (z : Z) : Z := z mod 2 ^ 32.

Definition ints (l : list Z) : Val := VList (map VInt l).

(** ** Exceptions *)

Inductive Exn : Type :=
| RuntimeError (msg : string)
| OSError (msg : string)
| Exception (msg : string)
| TypeError
| AssertionError
| IndexError
| KeyError
| ZeroDivisionError
| AttributeError
| SegmentationFault
| ExternalError.   (* raised inside the window or surface modules *)

Inductive Res (A : Type) : Type :=
| Ok (a : A)
| Raise (e : Exn).
Arguments Ok {A} a.
Arguments Raise {A} e.

Definition raised {A} (r : Res A) : bool :=
  match r with Ok _ => false | Raise _ => true end.

(** ** Calls that leave the program *)

Inductive Api : Type :=
(* instance and device *)
| CreateInstance | load_instance_functions | DestroyInstance
| CreateDebugReportCallbackEXT | DestroyDebugReportCallbackEXT
| EnumeratePhysicalDevices | GetPhysicalDeviceQueueFamilyProperties
| GetPhysicalDeviceSurfaceSupportKHR | CreateDevice | load_device_functions
| DestroyDevice | GetPhysicalDeviceMemoryProperties | GetDeviceQueue
| GetPhysicalDeviceFormatProperties
(* surface and swapchain *)
| GetPhysicalDeviceSurfaceCapabilitiesKHR
| GetPhysicalDeviceSurfacePresentModesKHR
| GetPhysicalDeviceSurfaceFormatsKHR
| CreateSwapchainKHR | DestroySwapchainKHR | GetSwapchainImagesKHR
| DestroySurfaceKHR | AcquireNextImageKHR | QueuePresentKHR
(* command pools and buffers *)
| CreateCommandPool | DestroyCommandPool
| AllocateCommandBuffers | FreeCommandBuffers
| BeginCommandBuffer | EndCommandBuffer
| QueueSubmit | QueueWaitIdle | DeviceWaitIdle
(* recorded commands *)
| CmdPipelineBarrier | CmdCopyBuffer | CmdBeginRenderPass | CmdEndRenderPass
| CmdSetViewport | CmdSetScissor | CmdBindDescriptorSets | CmdBindPipeline
| CmdBindVertexBuffers | CmdBindIndexBuffer | CmdDrawIndexed
(* images, buffers, memory *)
| CreateImage | DestroyImage | GetImageMemoryRequirements | BindImageMemory
| CreateImageView | DestroyImageView
| CreateBuffer | DestroyBuffer | GetBufferMemoryRequirements
| BindBufferMemory | AllocateMemory | FreeMemory | MapMemory | UnmapMemory
| memmove
(* render pass, pipeline, descriptors *)
| CreateRenderPass | DestroyRenderPass
| CreateFramebuffer | DestroyFramebuffer
| CreatePipelineCache | DestroyPipelineCache
| CreateShaderModule | DestroyShaderModule
| CreateDescriptorSetLayout | DestroyDescriptorSetLayout
| CreatePipelineLayout | DestroyPipelineLayout
| CreateGraphicsPipelines | DestroyPipeline
| CreateDescriptorPool | DestroyDescriptorPool
| AllocateDescriptorSets | UpdateDescriptorSets
| CreateSemaphore | DestroySemaphore
(* the window, the surface wrapper, files, the event loop clock *)
| Window_init | Window_dimensions | Window_show | Window_set_title
| BaseSwapchain_init | open_read | loop_time.

(** What a call gives back: the return code and the values written through
    its out-parameters, in the order the model reads them. *)
Record Reply : Type := mkReply { rc : Z; outs : list Z }.

Definition out (r : Reply) (i : nat) : Z := nth i (outs r) 0.

(** An out-parameter that is a variable living across several calls keeps its
    old value when the callee writes nothing. *)
Definition out_or (old : Z) (r : Reply) (i : nat) : Z :=
  match nth_error (outs r) i with Some z => z | None => old end.

(** A ctypes array of [n] scalars is created zeroed; the callee fills at most
    [n] entries. *)
Definition filled (n : nat) (written : list Z) : list Z :=
  firstn n (written ++ repeat 0 n).

Record Event : Type := mkEvent { fn : Api; args : list Val; reply : Reply }.

(** ** Attributes of the application object

    One name per attribute; the entries of the small dicts with fixed keys
    ([depth_stencil], [formats], [render_semaphores], [uniform_data],
    [triangle]) and the attributes of the [Swapchain] and [Debugger] objects
    are listed with the dict or object name in front. *)
Module self.
Inductive Attr : Type :=
  | initialized | running | zoom | rotation | shaders_modules | debugger
  | rendering_done | window
  | gpu | gpu_mem | instance | device | queue | swapchain | cmd_pool
  | setup_buffer | draw_buffers | post_present_buffers | render_pass
  | pipeline_cache | framebuffers | main_queue_family
  | depth_stencil_image | depth_stencil_mem | depth_stencil_view
  | formats_color | formats_depth
  | pipeline_layout | pipeline | descriptor_set | descriptor_set_layout
  | descriptor_pool | render_semaphores_present | render_semaphores_render
  | matrices
  | uniform_data_buffer | uniform_data_memory
  | uniform_data_descriptor_buffer | uniform_data_descriptor_offset
  | uniform_data_descriptor_range
  | triangle_buffer | triangle_memory | triangle_indices_buffer
  | triangle_indices_memory | triangle_bindings | triangle_attributes
  | triangle_input_state
  | swapchain_surface | swapchain_swapchain | swapchain_images
  | swapchain_views
  | debugger_callback_fn | debugger_debug_report_callback.

Definition id (a : Attr) : positive :=
    match a with
    | initialized => 1 | running => 2 | zoom => 3 | rotation => 4
    | shaders_modules => 5 | debugger => 6 | rendering_done => 7
    | window => 8 | gpu => 9 | gpu_mem => 10 | instance => 11 | device => 12
    | queue => 13 | swapchain => 14 | cmd_pool => 15 | setup_buffer => 16
    | draw_buffers => 17 | post_present_buffers => 18 | render_pass => 19
    | pipeline_cache => 20 | framebuffers => 21 | main_queue_family => 22
    | depth_stencil_image => 23 | depth_stencil_mem => 24
    | depth_stencil_view => 25 | formats_color => 26 | formats_depth => 27
    | pipeline_layout => 28 | pipeline => 29 | descriptor_set => 30
    | descriptor_set_layout => 31 | descriptor_pool => 32
    | render_semaphores_present => 33 | render_semaphores_render => 34
    | matrices => 35 | uniform_data_buffer => 36 | uniform_data_memory => 37
    | uniform_data_descriptor_buffer => 38
    | uniform_data_descriptor_offset => 39
    | uniform_data_descriptor_range => 40
    | triangle_buffer => 41 | triangle_memory => 42
    | triangle_indices_buffer => 43 | triangle_indices_memory => 44
    | triangle_bindings => 45 | triangle_attributes => 46
    | triangle_input_state => 47
    | swapchain_surface => 48 | swapchain_swapchain => 49
    | swapchain_images => 50 | swapchain_views => 51
    | debugger_callback_fn => 52 | debugger_debug_report_callback => 53
    end%positive.
End self.

Definition Attrs : Type := self.Attr -> Val.

Definition upd (a : self.Attr) (v : Val) (s : Attrs) : Attrs :=
  fun b => if Pos.eqb (self.id a) (self.id b) then v else s b.

(** ** The world and the monad *)

Record World : Type := mkWorld {
  attrs : Attrs;              (* the attributes of the objects *)
  trace : list Event;         (* the calls made so far, oldest first *)
  tick : nat;                 (* how many calls were made *)
  driver : nat -> Api -> list Val -> Reply
                              (* the answer to the n-th call, given what
                                 is called and with which arguments *)
}.

Definition M (A : Type) : Type := World -> Res A * World.

Definition ret {A} (a : A) : M A := fun w => (Ok a, w).

Definition raise {A} (e : Exn) : M A := fun w => (Raise e, w).

Definition bind {A B} (m : M A) (k : A -> M B) : M B :=
  fun w => match m w with
           | (Ok a, w1) => k a w1
           | (Raise e, w1) => (Raise e, w1)
           end.

Declare Scope prog_scope.
Delimit Scope prog_scope with prog.
Notation "x <- m ;; k" := (bind m (fun x => k))
  (at level 100, m at next level, right associativity) : prog_scope.
Notation "m ;; k" := (bind m (fun _ => k))
  (at level 100, right associativity) : prog_scope.
Open Scope prog_scope.

Definition get (a : self.Attr) : M Val := fun w => (Ok (attrs w a), w).

Definition set (a : self.Attr) (v : Val) : M unit :=
  fun w => (Ok tt, mkWorld (upd a v (attrs w)) (trace w) (tick w) (driver w)).

Definition call (f : Api) (a : list Val) : M Reply :=
  fun w =>
    let r := driver w (tick w) f a in
    (Ok r, mkWorld (attrs w) (trace w ++ [mkEvent f a r]) (S (tick w))
             (driver w)).

Definition when (b : bool) (m : M unit) : M unit := if b then m else ret tt.

(** [assert(b)] *)
Definition assert (b : bool) : M unit :=
  if b then ret tt else raise AssertionError.

(** [for index, x in enumerate(l): body] *)
Fixpoint for_each {A} (body : nat -> A -> M unit) (index : nat) (l : list A)
  : M unit :=
  match l with
  | [] => ret tt
  | x :: l' => body index x ;; for_each body (S index) l'
  end.

(** Iterating over an attribute: [None] is not iterable. *)
Definition iter (v : Val) : M (list Val) :=
  match v with
  | VList l => ret l
  | _ => raise TypeError
  end.

(** [len(v)] *)
Definition len (v : Val) : M nat :=
  match v with
  | VList l => ret (length l)
  | _ => raise TypeError
  end.

(** [a[i]] on a ctypes array or a list. *)
Definition item (v : Val) (i : nat) : M Val :=
  match v with
  | VList l => match nth_error l i with
               | Some x => ret x
               | None => raise IndexError
               end
  | _ => raise TypeError
  end.

(** [a[i] = x] on a ctypes array. *)
Definition set_item (v : Val) (i : nat) (x : Val) : M Val :=
  match v with
  | VList l => if (i <? length l)%nat then ret (VList (<[i := x]> l))
               else raise IndexError
  | _ => raise TypeError
  end.

(** ** Constants of the [vk] binding

    The [vk] module is not part of the sources.  The constants the program
    names are parameters of the model; [vulkan_1_0] below gives them the
    values of the Vulkan 1.0 headers, for running the model. *)
Class VkConst : Type := {
  SUCCESS : Z;
  MAX_MEMORY_TYPES : nat;
  PRESENT_MODE_IMMEDIATE_KHR : Z;
  PRESENT_MODE_MAILBOX_KHR : Z;
  PRESENT_MODE_FIFO_KHR : Z;
  SURFACE_TRANSFORM_IDENTITY_BIT_KHR : Z;
  FORMAT_UNDEFINED : Z;
  FORMAT_B8G8R8A8_UNORM : Z;
  FORMAT_R32G32B32_SFLOAT : Z;
  FORMAT_D32_SFLOAT_S8_UINT : Z;
  FORMAT_D32_SFLOAT : Z;
  FORMAT_D24_UNORM_S8_UINT : Z;
  FORMAT_D16_UNORM_S8_UINT : Z;
  FORMAT_D16_UNORM : Z;
  FORMAT_FEATURE_DEPTH_STENCIL_ATTACHMENT_BIT : Z;
  QUEUE_GRAPHICS_BIT : Z;
  QUEUE_FAMILY_IGNORED : Z;
  MEMORY_PROPERTY_DEVICE_LOCAL_BIT : Z;
  MEMORY_PROPERTY_HOST_VISIBLE_BIT : Z;
  IMAGE_ASPECT_COLOR_BIT : Z;
  IMAGE_ASPECT_DEPTH_BIT : Z;
  IMAGE_ASPECT_STENCIL_BIT : Z;
  IMAGE_LAYOUT_UNDEFINED : Z;
  IMAGE_LAYOUT_PREINITIALIZED : Z;
  IMAGE_LAYOUT_COLOR_ATTACHMENT_OPTIMAL : Z;
  IMAGE_LAYOUT_DEPTH_STENCIL_ATTACHMENT_OPTIMAL : Z;
  IMAGE_LAYOUT_SHADER_READ_ONLY_OPTIMAL : Z;
  IMAGE_LAYOUT_TRANSFER_SRC_OPTIMAL : Z;
  IMAGE_LAYOUT_TRANSFER_DST_OPTIMAL : Z;
  IMAGE_LAYOUT_PRESENT_SRC_KHR : Z;
  ACCESS_HOST_WRITE_BIT : Z;
  ACCESS_TRANSFER_WRITE_BIT : Z;
  ACCESS_TRANSFER_READ_BIT : Z;
  ACCESS_SHADER_READ_BIT : Z;
  ACCESS_MEMORY_READ_BIT : Z;
  ACCESS_COLOR_ATTACHMENT_WRITE_BIT : Z;
  ACCESS_DEPTH_STENCIL_ATTACHMENT_WRITE_BIT : Z;
  PIPELINE_STAGE_TOP_OF_PIPE_BIT : Z;
  PIPELINE_STAGE_BOTTOM_OF_PIPE_BIT : Z;
  PIPELINE_STAGE_ALL_COMMANDS_BIT : Z;
  PIPELINE_BIND_POINT_GRAPHICS : Z;
  SUBPASS_CONTENTS_INLINE : Z;
  INDEX_TYPE_UINT32 : Z;
  VERTEX_INPUT_RATE_VERTEX : Z;
  SHADER_STAGE_VERTEX_BIT : Z;
  SHADER_STAGE_FRAGMENT_BIT : Z;
  BUFFER_USAGE_TRANSFER_SRC_BIT : Z;
  BUFFER_USAGE_TRANSFER_DST_BIT : Z;
  BUFFER_USAGE_UNIFORM_BUFFER_BIT : Z;
  BUFFER_USAGE_INDEX_BUFFER_BIT : Z;
  BUFFER_USAGE_VERTEX_BUFFER_BIT : Z;
  sizeof_Mat4 : Z             (* [vk.sizeof(Mat4)], [Mat4] being [xmath]'s *)
}.

Definition vulkan_1_0 : VkConst := {|
  SUCCESS := 0;
  MAX_MEMORY_TYPES := 32;
  PRESENT_MODE_IMMEDIATE_KHR := 0;
  PRESENT_MODE_MAILBOX_KHR := 1;
  PRESENT_MODE_FIFO_KHR := 2;
  SURFACE_TRANSFORM_IDENTITY_BIT_KHR := 1;
  FORMAT_UNDEFINED := 0;
  FORMAT_B8G8R8A8_UNORM := 44;
  FORMAT_R32G32B32_SFLOAT := 106;
  FORMAT_D32_SFLOAT_S8_UINT := 130;
  FORMAT_D32_SFLOAT := 126;
  FORMAT_D24_UNORM_S8_UINT := 129;
  FORMAT_D16_UNORM_S8_UINT := 128;
  FORMAT_D16_UNORM := 124;
  FORMAT_FEATURE_DEPTH_STENCIL_ATTACHMENT_BIT := 512;
  QUEUE_GRAPHICS_BIT := 1;
  QUEUE_FAMILY_IGNORED := 4294967295;
  MEMORY_PROPERTY_DEVICE_LOCAL_BIT := 1;
  MEMORY_PROPERTY_HOST_VISIBLE_BIT := 2;
  IMAGE_ASPECT_COLOR_BIT := 1;
  IMAGE_ASPECT_DEPTH_BIT := 2;
  IMAGE_ASPECT_STENCIL_BIT := 4;
  IMAGE_LAYOUT_UNDEFINED := 0;
  IMAGE_LAYOUT_PREINITIALIZED := 8;
  IMAGE_LAYOUT_COLOR_ATTACHMENT_OPTIMAL := 2;
  IMAGE_LAYOUT_DEPTH_STENCIL_ATTACHMENT_OPTIMAL := 3;
  IMAGE_LAYOUT_SHADER_READ_ONLY_OPTIMAL := 5;
  IMAGE_LAYOUT_TRANSFER_SRC_OPTIMAL := 6;
  IMAGE_LAYOUT_TRANSFER_DST_OPTIMAL := 7;
  IMAGE_LAYOUT_PRESENT_SRC_KHR := 1000001002;
  ACCESS_HOST_WRITE_BIT := 16384;
  ACCESS_TRANSFER_WRITE_BIT := 4096;
  ACCESS_TRANSFER_READ_BIT := 2048;
  ACCESS_SHADER_READ_BIT := 32;
  ACCESS_MEMORY_READ_BIT := 32768;
  ACCESS_COLOR_ATTACHMENT_WRITE_BIT := 256;
  ACCESS_DEPTH_STENCIL_ATTACHMENT_WRITE_BIT := 1024;
  PIPELINE_STAGE_TOP_OF_PIPE_BIT := 1;
  PIPELINE_STAGE_BOTTOM_OF_PIPE_BIT := 8192;
  PIPELINE_STAGE_ALL_COMMANDS_BIT := 65536;
  PIPELINE_BIND_POINT_GRAPHICS := 0;
  SUBPASS_CONTENTS_INLINE := 0;
  INDEX_TYPE_UINT32 := 1;
  VERTEX_INPUT_RATE_VERTEX := 0;
  SHADER_STAGE_VERTEX_BIT := 1;
  SHADER_STAGE_FRAGMENT_BIT := 16;
  BUFFER_USAGE_TRANSFER_SRC_BIT := 1;
  BUFFER_USAGE_TRANSFER_DST_BIT := 2;
  BUFFER_USAGE_UNIFORM_BUFFER_BIT := 16;
  BUFFER_USAGE_INDEX_BUFFER_BIT := 64;
  BUFFER_USAGE_VERTEX_BUFFER_BIT := 128;
  sizeof_Mat4 := 64
|}.

(** [vk.NULL] and the typed null pointers. *)
Definition NULL : Val := VNone.

(** Whether to enable validation layer or not (line 26). *)
Definition ENABLE_VALIDATION : bool := false.

(** [vk.sizeof(c_float)], [vk.sizeof(c_uint)] and [vk.sizeof(Vertex)], the
    latter being two arrays of three [c_float] (line 29). *)
Definition sizeof_c_float : Z := 4.
Definition sizeof_c_uint : Z := 4.
Definition sizeof_Vertex : Z := sizeof_c_float * 3 + sizeof_c_float * 3.

(** ** The program *)

Section Program.

Context `{vk : VkConst}.

(** The recurring shape [result = f(...)] followed at once by a test of
    [result] against [vk.SUCCESS] that raises [e] when they differ; it also
    stands for [assert(f(...) == vk.SUCCESS)], with [e] the assertion
    error. *)
Definition call_checked (f : Api) (a : list Val) (e : Exn) : M Reply :=
  r <- call f a ;;
  if rc r =? SUCCESS then ret r else raise e.

(** The same shape when the out-parameter of the call is an object held in
    an attribute (the handles of the [triangle] and [uniform_data] dicts):
    the callee writes into the attribute before the result is tested. *)
Definition call_checked_into (a : self.Attr) (f : Api) (l : list Val)
    (e : Exn) : M Reply :=
  r <- call f l ;;
  old <- get a ;;
  set a (VC (out_or (match old with VInt z | VC z => z | _ => 0 end) r 0)) ;;
  if rc r =? SUCCESS then ret r else raise e.

(** A call into the window or surface module, which are not part of the
    sources: it may raise. *)
Definition call_external (f : Api) (a : list Val) : M Reply :=
  r <- call f a ;;
  if rc r =? 0 then ret r else raise ExternalError.

(** [self.window.dimensions()] *)
Definition dimensions : M (Z * Z) :=
  r <- call_external Window_dimensions [] ;;
  ret (out r 0, out r 1).

(** [vk.memmove(data, src, size)]: writing through a null pointer kills the
    process. *)
Definition py_memmove (data : Z) (src : Val) (size : Z) : M unit :=
  if data =? 0 then raise SegmentationFault
  else (call memmove [VInt data; src; VInt size] ;; ret tt).

(** [byref(obj)]: ctypes takes the address of a ctypes instance only, and
    refuses [None] with [TypeError]. *)
Definition byref (obj : Val) : M Val :=
  if is_none obj then raise TypeError else ret obj.

(** *** Debugger (lines 31-73) *)

Definition Debugger_start : M unit :=
  instance <- get self.instance ;;
  r <- call CreateDebugReportCallbackEXT [instance] ;;
  set self.debugger_callback_fn (VBool true) ;;
  set self.debugger_debug_report_callback (VC (out r 0)).

Definition Debugger_stop : M unit :=
  instance <- get self.instance ;;
  cb <- get self.debugger_debug_report_callback ;;
  call DestroyDebugReportCallbackEXT [instance; cb; NULL] ;;
  ret tt.

(** *** Application.set_image_layout (lines 661-716) *)

(** The dict literal of lines 678-683; a later entry of a literal replaces an
    earlier one with the same key. *)
Definition old_map : gmap Z Z :=
  <[IMAGE_LAYOUT_SHADER_READ_ONLY_OPTIMAL := ACCESS_SHADER_READ_BIT]>
  (<[IMAGE_LAYOUT_TRANSFER_SRC_OPTIMAL := ACCESS_TRANSFER_READ_BIT]>
  (<[IMAGE_LAYOUT_DEPTH_STENCIL_ATTACHMENT_OPTIMAL :=
       ACCESS_DEPTH_STENCIL_ATTACHMENT_WRITE_BIT]>
  (<[IMAGE_LAYOUT_PREINITIALIZED :=
       Z.lor ACCESS_HOST_WRITE_BIT ACCESS_TRANSFER_WRITE_BIT]> ∅))).

Definition set_image_layout (cmd image : Val)
    (aspect_mask old_layout new_layout : Z) : M unit :=
  src_access_mask <-
    (if bool_decide (old_layout ∈ (map_to_list old_map).*2)
     then match old_map !! old_layout with
          | Some m => ret m
          | None => raise KeyError
          end
     else ret 0) ;;
  let dst_access_mask := 0 in
  let '(src_access_mask, dst_access_mask) :=
    if new_layout =? IMAGE_LAYOUT_TRANSFER_DST_OPTIMAL then
      (src_access_mask, ACCESS_TRANSFER_WRITE_BIT)
    else if new_layout =? IMAGE_LAYOUT_TRANSFER_SRC_OPTIMAL then
      (Z.lor src_access_mask ACCESS_TRANSFER_READ_BIT,
       ACCESS_TRANSFER_READ_BIT)
    else if new_layout =? IMAGE_LAYOUT_COLOR_ATTACHMENT_OPTIMAL then
      (ACCESS_TRANSFER_READ_BIT, ACCESS_COLOR_ATTACHMENT_WRITE_BIT)
    else if new_layout =? IMAGE_LAYOUT_DEPTH_STENCIL_ATTACHMENT_OPTIMAL then
      (src_access_mask,
       Z.lor dst_access_mask ACCESS_DEPTH_STENCIL_ATTACHMENT_WRITE_BIT)
    else if new_layout =? IMAGE_LAYOUT_SHADER_READ_ONLY_OPTIMAL then
      (Z.lor ACCESS_HOST_WRITE_BIT ACCESS_TRANSFER_WRITE_BIT,
       ACCESS_SHADER_READ_BIT)
    else (src_access_mask, dst_access_mask) in
  call CmdPipelineBarrier
    [cmd; VInt PIPELINE_STAGE_TOP_OF_PIPE_BIT;
     VInt PIPELINE_STAGE_TOP_OF_PIPE_BIT; VInt 0; VInt 0; NULL; VInt 0; NULL;
     VInt 1;
     VList [VInt src_access_mask; VInt dst_access_mask; VInt old_layout;
            VInt new_layout; image; VInt aspect_mask]] ;;
  ret tt.

(** *** Swapchain (lines 75-228) *)

Definition Swapchain_init : M unit :=
  r <- call_external BaseSwapchain_init [] ;;
  set self.swapchain_surface (VC (out r 0)) ;;
  set self.swapchain_swapchain VNone ;;
  set self.swapchain_images VNone ;;
  set self.swapchain_views VNone.

(** Lines 113-118: prefer mailbox mode if present. *)
Definition select_present_mode (prez : list Z) : Z :=
  if bool_decide (PRESENT_MODE_MAILBOX_KHR ∈ prez)
  then PRESENT_MODE_MAILBOX_KHR
  else if bool_decide (PRESENT_MODE_IMMEDIATE_KHR ∈ prez)
       then PRESENT_MODE_IMMEDIATE_KHR
       else PRESENT_MODE_FIFO_KHR.

(** Lines 120-123: the number of images. *)
Definition select_image_count (min_image_count max_image_count : Z) : Z :=
  let swapchain_image_count := min_image_count + 1 in
  if (0 <? max_image_count) && (max_image_count <? swapchain_image_count)
  then max_image_count
  else swapchain_image_count.

(** Lines 125-128: the image transformation. *)
Definition select_transform (current_transform supported_transforms : Z)
  : Z :=
  if negb (Z.land supported_transforms SURFACE_TRANSFORM_IDENTITY_BIT_KHR
           =? 0)
  then SURFACE_TRANSFORM_IDENTITY_BIT_KHR
  else current_transform.

(** An array of [n] [SurfaceFormatKHR], a pair (format, color space) each,
    zeroed and then filled from the flat list of values written. *)
Fixpoint pairs (l : list Z) : list (Z * Z) :=
  match l with
  | a :: b :: l' => (a, b) :: pairs l'
  | _ => []
  end.

Definition filled_formats (n : nat) (written : list Z) : list (Z * Z) :=
  firstn n (pairs written ++ repeat (0, 0) n).

(** Lines 139-145.  [format_count] is the [c_uint] object itself, not its
    value; [and] evaluates [formats[0]] only when its left side is true. *)
Definition select_color_format (format_count : Val) (formats : list (Z * Z))
  : M Z :=
  if eq_int format_count 1 then
    match formats with
    | [] => raise IndexError
    | f0 :: _ =>
        if fst f0 =? FORMAT_UNDEFINED then ret FORMAT_B8G8R8A8_UNORM
        else ret (fst f0)
    end
  else
    match formats with
    | [] => raise IndexError
    | f0 :: _ => ret (fst f0)
    end.

Definition Swapchain_create_images (req_image_count color_format : Z)
  : M unit :=
  device <- get self.device ;;
  swapchain <- get self.swapchain_swapchain ;;
  r <- call GetSwapchainImagesKHR [device; swapchain; NULL] ;;
  let image_count := c_uint (out r 0) in
  when (negb (rc r =? SUCCESS) && negb (req_image_count =? image_count))
       (raise (RuntimeError "Failed to get the swapchain images")) ;;
  set self.swapchain_images (ints (repeat 0 (Z.to_nat image_count))) ;;
  set self.swapchain_views (ints (repeat 0 (Z.to_nat image_count))) ;;
  r <- call GetSwapchainImagesKHR [device; swapchain; VInt image_count] ;;
  set self.swapchain_images
      (ints (filled (Z.to_nat image_count) (outs r))) ;;
  assert (rc r =? SUCCESS) ;;
  images <- get self.swapchain_images ;;
  images <- iter images ;;
  for_each (fun index image =>
      setup_buffer <- get self.setup_buffer ;;
      set_image_layout setup_buffer image IMAGE_ASPECT_COLOR_BIT
        IMAGE_LAYOUT_UNDEFINED IMAGE_LAYOUT_PRESENT_SRC_KHR ;;
      r <- call_checked CreateImageView
             [device; image; VInt color_format]
             (RuntimeError "Failed to create an image view.") ;;
      views <- get self.swapchain_views ;;
      views <- set_item views index (VC (out r 0)) ;;
      set self.swapchain_views views)
    0%nat images.

Definition Swapchain_destroy_swapchain : M unit :=
  device <- get self.device ;;
  views <- get self.swapchain_views ;;
  views <- iter views ;;
  for_each (fun _ view => call DestroyImageView [device; view; NULL] ;; ret tt)
    0%nat views ;;
  swapchain <- get self.swapchain_swapchain ;;
  call DestroySwapchainKHR [device; swapchain; NULL] ;;
  ret tt.

(** Lines 85-148 of [Swapchain.create]: what is asked of the surface.  The
    result is the content of the create-info: image count, format, color
    space, extent, transform and present mode. *)
Definition Swapchain_create_query : M (Z * Z * Z * (Z * Z) * Z * Z) :=
  gpu <- get self.gpu ;;
  surface <- get self.swapchain_surface ;;
  cap <- call_checked GetPhysicalDeviceSurfaceCapabilitiesKHR [gpu; surface]
           (RuntimeError "Failed to get surface capabilities") ;;
  let current_extent := (c_uint (out cap 0), c_uint (out cap 1)) in
  let min_image_count := c_uint (out cap 2) in
  let max_image_count := c_uint (out cap 3) in
  let current_transform := c_uint (out cap 4) in
  let supported_transforms := c_uint (out cap 5) in
  r <- call GetPhysicalDeviceSurfacePresentModesKHR [gpu; surface; NULL] ;;
  let prez_count := c_uint (out r 0) in
  when (negb (rc r =? SUCCESS) && (0 <? prez_count))
       (raise (RuntimeError "Failed to get surface presenting mode")) ;;
  r <- call GetPhysicalDeviceSurfacePresentModesKHR
         [gpu; surface; VInt prez_count] ;;
  let prez := filled (Z.to_nat prez_count) (map c_uint (outs r)) in
  swapchain_extent <-
    (if eq_int (VInt (fst current_extent)) (-1) then
       d <- dimensions ;;
       ret (c_uint (fst d), c_uint (snd d))
     else ret current_extent) ;;
  let present_mode := select_present_mode prez in
  let swapchain_image_count :=
    select_image_count min_image_count max_image_count in
  let transform := select_transform current_transform supported_transforms in
  r <- call GetPhysicalDeviceSurfaceFormatsKHR [gpu; surface; NULL] ;;
  let format_count := c_uint (out r 0) in
  when (negb (rc r =? SUCCESS) && (0 <? format_count))
       (raise (RuntimeError "Failed to get surface available image format")) ;;
  r <- call GetPhysicalDeviceSurfaceFormatsKHR
         [gpu; surface; VInt format_count] ;;
  let formats :=
    filled_formats (Z.to_nat format_count) (map c_uint (outs r)) in
  color_format <- select_color_format (VC format_count) formats ;;
  set self.formats_color (VInt color_format) ;;
  color_space <- match formats with
                 | [] => raise IndexError
                 | f0 :: _ => ret (snd f0)
                 end ;;
  ret (swapchain_image_count, color_format, color_space, swapchain_extent,
       transform, present_mode).

(** [Swapchain.create] (lines 84-172). *)
Definition Swapchain_create : M unit :=
  q <- Swapchain_create_query ;;
  let '(swapchain_image_count, color_format, color_space, swapchain_extent,
        transform, present_mode) := q in
  device <- get self.device ;;
  surface <- get self.swapchain_surface ;;
  old <- get self.swapchain_swapchain ;;
  let old_swapchain := if truthy old then old else VC 0 in
  r <- call_checked CreateSwapchainKHR
         [device; surface; VInt (c_uint swapchain_image_count);
          VInt color_format; VInt color_space;
          VInt (fst swapchain_extent); VInt (snd swapchain_extent);
          VInt transform; VInt present_mode; old_swapchain]
         (RuntimeError "Failed to create the swapchain") ;;
  old <- get self.swapchain_swapchain ;;
  when (negb (is_none old)) Swapchain_destroy_swapchain ;;
  set self.swapchain_swapchain (VC (out r 0)) ;;
  Swapchain_create_images swapchain_image_count color_format.

Definition Swapchain_destroy : M unit :=
  swapchain <- get self.swapchain_swapchain ;;
  when (negb (is_none swapchain)) Swapchain_destroy_swapchain ;;
  instance <- get self.instance ;;
  surface <- get self.swapchain_surface ;;
  call DestroySurfaceKHR [instance; surface; NULL] ;;
  ret tt.

(** *** Application (lines 232-882) *)

Definition create_instance : M unit :=
  let extensions := if ENABLE_VALIDATION then 3 else 2 in
  let layer_count := if ENABLE_VALIDATION then 1 else 0 in
  r <- call_checked CreateInstance [VInt layer_count; VInt extensions]
         (RuntimeError "Instance creation failed. Error code: {}") ;;
  call load_instance_functions [VC (out r 0)] ;;
  set self.instance (VC (out r 0)) ;;
  when ENABLE_VALIDATION Debugger_start.

(** The loop of lines 323-327; [supported] is one [c_uint] written by every
    call. *)
Fixpoint find_queue_family (gpu surface : Val) (supported : Z) (index : nat)
    (queue_families : list Z) : M (option nat) :=
  match queue_families with
  | [] => ret None
  | queue_flags :: rest =>
      r <- call GetPhysicalDeviceSurfaceSupportKHR
             [gpu; VInt (Z.of_nat index); surface] ;;
      let supported := c_uint (out_or supported r 0) in
      if negb (Z.land queue_flags QUEUE_GRAPHICS_BIT =? 0)
         && (supported =? 1)
      then ret (Some index)
      else find_queue_family gpu surface supported (S index) rest
  end.

Definition create_device : M unit :=
  set self.gpu VNone ;;
  set self.main_queue_family VNone ;;
  instance <- get self.instance ;;
  r <- call EnumeratePhysicalDevices [instance; NULL] ;;
  let gpu_count := c_uint (out r 0) in
  when (negb (rc r =? SUCCESS) || (gpu_count =? 0))
       (raise (RuntimeError
          "Could not fetch the physical devices or there are no devices available")) ;;
  r <- call EnumeratePhysicalDevices [instance; VInt gpu_count] ;;
  let buf := filled (Z.to_nat gpu_count) (outs r) in
  let gpu := VC (nth 0 buf 0) in
  set self.gpu gpu ;;
  r <- call GetPhysicalDeviceQueueFamilyProperties [gpu; NULL] ;;
  let queue_families_count := c_uint (out r 0) in
  when (queue_families_count =? 0)
       (raise (RuntimeError "No queues families found for the default GPU")) ;;
  r <- call GetPhysicalDeviceQueueFamilyProperties
         [gpu; VInt queue_families_count] ;;
  let queue_families :=
    filled (Z.to_nat queue_families_count) (map c_uint (outs r)) in
  surface <- get self.swapchain_surface ;;
  found <- find_queue_family gpu surface 0 0%nat queue_families ;;
  match found with
  | Some index => set self.main_queue_family (VInt (Z.of_nat index))
  | None => ret tt
  end ;;
  main_queue_family <- get self.main_queue_family ;;
  when (is_none main_queue_family)
       (raise (OSError
          "Could not find a queue that supports graphics and presenting")) ;;
  let layer_count := if ENABLE_VALIDATION then 1 else 0 in
  r <- call_checked CreateDevice
         [gpu; main_queue_family; VInt layer_count; VInt 1]
         (RuntimeError "Could not create device.") ;;
  let device := VC (out r 0) in
  call load_device_functions [device] ;;
  set self.device device ;;
  r <- call GetPhysicalDeviceMemoryProperties [gpu] ;;
  set self.gpu_mem (ints (filled MAX_MEMORY_TYPES (map c_uint (outs r)))) ;;
  r <- call GetDeviceQueue [device; main_queue_family; VInt 0] ;;
  if negb (out r 0 =? 0) then set self.queue (VC (out r 0))
  else raise (RuntimeError "Could not get device queue").

Definition create_swapchain : M unit :=
  Swapchain_init ;;
  set self.swapchain VObj.

Definition create_command_pool : M unit :=
  device <- get self.device ;;
  main_queue_family <- get self.main_queue_family ;;
  r <- call_checked CreateCommandPool [device; main_queue_family]
         (RuntimeError "Could not create command pool") ;;
  set self.cmd_pool (VC (out r 0)).

Definition create_setup_buffer : M unit :=
  device <- get self.device ;;
  cmd_pool <- get self.cmd_pool ;;
  setup_buffer <- get self.setup_buffer ;;
  when (negb (is_none setup_buffer))
       (call FreeCommandBuffers [device; cmd_pool; VInt 1; setup_buffer] ;;
        set self.setup_buffer VNone) ;;
  r <- call_checked AllocateCommandBuffers [device; cmd_pool; VInt 1]
         (RuntimeError "Failed to create setup buffer") ;;
  let buffer := VC (out r 0) in
  set self.setup_buffer buffer ;;
  call_checked BeginCommandBuffer [buffer]
    (RuntimeError "Failed to start recording in the setup buffer") ;;
  ret tt.

Definition create_command_buffers : M unit :=
  images <- get self.swapchain_images ;;
  image_count <- len images ;;
  device <- get self.device ;;
  cmd_pool <- get self.cmd_pool ;;
  r <- call_checked AllocateCommandBuffers
         [device; cmd_pool; VInt (Z.of_nat image_count)]
         (RuntimeError "Failed to drawing buffers") ;;
  set self.draw_buffers (ints (filled image_count (outs r))) ;;
  r <- call_checked AllocateCommandBuffers
         [device; cmd_pool; VInt (Z.of_nat image_count)]
         (RuntimeError "Failed to present buffers") ;;
  set self.post_present_buffers (ints (filled image_count (outs r))).

(** [Application.get_memory_type] (lines 718-725), on the array
    [self.gpu_mem.memory_types] given by the property flags of its
    entries. *)
Fixpoint get_memory_type_from (index : nat) (memory_types : list Z)
    (bits properties : Z) : bool * option nat :=
  match memory_types with
  | [] => (false, None)
  | property_flags :: rest =>
      if (Z.land bits 1 =? 1)
         && (Z.land property_flags properties =? properties)
      then (true, Some index)
      else get_memory_type_from (S index) rest (Z.shiftr bits 1) properties
  end.

Definition get_memory_type (memory_types : list Z) (bits properties : Z)
  : bool * option nat :=
  get_memory_type_from 0 memory_types bits properties.

Definition as_int (v : Val) : Z :=
  match v with VInt z | VC z => z | _ => 0 end.

(** [x = self.get_memory_type(bits, properties)[1]] stored in the [c_uint]
    field [memory_type_index]: a ctypes integer field refuses [None]. *)
Definition memory_type_index (bits properties : Z) : M Z :=
  gpu_mem <- get self.gpu_mem ;;
  memory_types <- match gpu_mem with
                  | VList l => ret (map as_int l)
                  | _ => raise AttributeError
                  end ;;
  match snd (get_memory_type memory_types bits properties) with
  | Some index => ret (Z.of_nat index)
  | None => raise TypeError
  end.

(** The loop of lines 479-483; [format_props] is one structure written by
    every call. *)
Fixpoint find_depth_format (gpu : Val) (optimal_tiling_features : Z)
    (depth_formats : list Z) : M (option Z) :=
  match depth_formats with
  | [] => ret None
  | format :: rest =>
      r <- call GetPhysicalDeviceFormatProperties [gpu; VInt format] ;;
      let optimal_tiling_features :=
        c_uint (out_or optimal_tiling_features r 0) in
      if negb (Z.land optimal_tiling_features
                 FORMAT_FEATURE_DEPTH_STENCIL_ATTACHMENT_BIT =? 0)
      then ret (Some format)
      else find_depth_format gpu optimal_tiling_features rest
  end.

Definition create_depth_stencil : M unit :=
  d <- dimensions ;;
  let '(width, height) := d in
  gpu <- get self.gpu ;;
  device <- get self.device ;;
  depth_format <-
    find_depth_format gpu 0
      [FORMAT_D32_SFLOAT_S8_UINT; FORMAT_D32_SFLOAT;
       FORMAT_D24_UNORM_S8_UINT; FORMAT_D16_UNORM_S8_UINT;
       FORMAT_D16_UNORM] ;;
  depth_format <- match depth_format with
                  | Some f => ret f
                  | None => raise (RuntimeError
                                     "Could not find a valid depth format")
                  end ;;
  r <- call_checked CreateImage
         [device; VInt depth_format; VInt (c_uint width);
          VInt (c_uint height); VInt 1]
         (RuntimeError "Failed to create depth stencil image") ;;
  let depthstencil_image := VC (out r 0) in
  r <- call GetImageMemoryRequirements [device; depthstencil_image] ;;
  let size := out r 0 in
  let memory_type_bits := c_uint (out r 1) in
  index <- memory_type_index memory_type_bits
             MEMORY_PROPERTY_DEVICE_LOCAL_BIT ;;
  r <- call_checked AllocateMemory [device; VInt size; VInt index]
         (RuntimeError "Could not allocate depth stencil image memory") ;;
  let depthstencil_mem := VC (out r 0) in
  call_checked BindImageMemory
    [device; depthstencil_image; depthstencil_mem; VInt 0]
    (RuntimeError "Could not bind the depth stencil memory to the image") ;;
  setup_buffer <- get self.setup_buffer ;;
  set_image_layout setup_buffer depthstencil_image
    (Z.lor IMAGE_ASPECT_DEPTH_BIT IMAGE_ASPECT_STENCIL_BIT)
    IMAGE_LAYOUT_UNDEFINED IMAGE_LAYOUT_DEPTH_STENCIL_ATTACHMENT_OPTIMAL ;;
  r <- call_checked CreateImageView
         [device; depthstencil_image; VInt depth_format]
         (RuntimeError "Could not create image view for depth stencil") ;;
  set self.formats_depth (VInt depth_format) ;;
  set self.depth_stencil_image depthstencil_image ;;
  set self.depth_stencil_mem depthstencil_mem ;;
  set self.depth_stencil_view (VC (out r 0)).

Definition create_renderpass : M unit :=
  color_format <- get self.formats_color ;;
  depth_format <- get self.formats_depth ;;
  device <- get self.device ;;
  r <- call_checked CreateRenderPass
         [device; VInt 2; color_format; depth_format; VInt 1; VInt 0]
         (RuntimeError "Could not create renderpass") ;;
  set self.render_pass (VC (out r 0)).

Definition create_pipeline_cache : M unit :=
  device <- get self.device ;;
  r <- call_checked CreatePipelineCache [device; VInt 0; NULL]
         (RuntimeError "Failed to create pipeline cache") ;;
  set self.pipeline_cache (VC (out r 0)).

Definition create_framebuffers : M unit :=
  depth_view <- get self.depth_stencil_view ;;
  d <- dimensions ;;
  let '(width, height) := d in
  render_pass <- get self.render_pass ;;
  device <- get self.device ;;
  images <- get self.swapchain_images ;;
  n <- len images ;;
  set self.framebuffers (ints (repeat 0 n)) ;;
  views <- get self.swapchain_views ;;
  views <- iter views ;;
  for_each (fun index view =>
      r <- call_checked CreateFramebuffer
             [device; render_pass; VInt 2; view; depth_view;
              VInt (c_uint width); VInt (c_uint height); VInt 1]
             (RuntimeError "Could not create the framebuffers") ;;
      framebuffers <- get self.framebuffers ;;
      framebuffers <- set_item framebuffers index (VC (out r 0)) ;;
      set self.framebuffers framebuffers)
    0%nat views.

Definition flush_setup_buffer : M unit :=
  setup_buffer <- get self.setup_buffer ;;
  call_checked EndCommandBuffer [setup_buffer]
    (RuntimeError "Failed to end setup command buffer") ;;
  queue <- get self.queue ;;
  call_checked QueueSubmit [queue; VInt 1; setup_buffer; VInt 0]
    (RuntimeError "Setup buffer sumbit failed") ;;
  call_checked QueueWaitIdle [queue]
    (RuntimeError "Setup execution failed") ;;
  device <- get self.device ;;
  cmd_pool <- get self.cmd_pool ;;
  call FreeCommandBuffers [device; cmd_pool; VInt 1; setup_buffer] ;;
  set self.setup_buffer VNone.

(** The shader file is read from disk; the read may fail. *)
Definition load_shader (name : string) (stage : Z) : M Val :=
  f <- call open_read [] ;;
  when (negb (rc f =? 0)) (raise (OSError name)) ;;
  let shader_bin_size := Z.of_nat (length (outs f)) in
  device <- get self.device ;;
  r <- call_checked CreateShaderModule [device; VInt shader_bin_size]
         (RuntimeError "Could not compile shader at {}") ;;
  let module := VC (out r 0) in
  shaders_modules <- get self.shaders_modules ;;
  l <- match shaders_modules with
       | VList l => ret l
       | _ => raise AttributeError
       end ;;
  set self.shaders_modules (VList (l ++ [module])) ;;
  ret (VList [VInt stage; module]).

Definition Application_resize_display (width height : Z) : M unit :=
  initialized <- get self.initialized ;;
  if negb (truthy initialized) then ret tt else
  create_setup_buffer ;;
  Swapchain_create ;;
  device <- get self.device ;;
  view <- get self.depth_stencil_view ;;
  call DestroyImageView [device; view; NULL] ;;
  image <- get self.depth_stencil_image ;;
  call DestroyImage [device; image; NULL] ;;
  mem <- get self.depth_stencil_mem ;;
  call FreeMemory [device; mem; NULL] ;;
  create_depth_stencil ;;
  framebuffers <- get self.framebuffers ;;
  framebuffers <- iter framebuffers ;;
  for_each (fun _ fb => call DestroyFramebuffer [device; fb; NULL] ;; ret tt)
    0%nat framebuffers ;;
  create_framebuffers ;;
  flush_setup_buffer ;;
  draw_buffers <- get self.draw_buffers ;;
  len_draw_buffers <- len draw_buffers ;;
  cmd_pool <- get self.cmd_pool ;;
  call FreeCommandBuffers
    [device; cmd_pool; VInt (Z.of_nat len_draw_buffers); draw_buffers] ;;
  post_present_buffers <- get self.post_present_buffers ;;
  call FreeCommandBuffers
    [device; cmd_pool; VInt (Z.of_nat len_draw_buffers);
     post_present_buffers] ;;
  create_command_buffers.

Definition Application_init : M unit :=
  set self.initialized (VBool false) ;;
  set self.running (VBool false) ;;
  set self.zoom (VNum (Lit (-2.5))) ;;
  set self.rotation (VList [VNum (Lit 0); VNum (Lit 0); VNum (Lit 0)]) ;;
  set self.shaders_modules (VList []) ;;
  set self.debugger VObj ;;
  set self.debugger_callback_fn VNone ;;
  set self.debugger_debug_report_callback VNone ;;
  set self.rendering_done (VBool false) ;;
  call_external Window_init [] ;;
  set self.window VObj ;;
  set self.gpu VNone ;;
  set self.gpu_mem VNone ;;
  set self.instance VNone ;;
  set self.device VNone ;;
  set self.queue VNone ;;
  set self.swapchain VNone ;;
  set self.cmd_pool VNone ;;
  set self.setup_buffer VNone ;;
  set self.draw_buffers (VList []) ;;
  set self.post_present_buffers (VList []) ;;
  set self.render_pass VNone ;;
  set self.pipeline_cache VNone ;;
  set self.framebuffers VNone ;;
  set self.depth_stencil_image VNone ;;
  set self.depth_stencil_mem VNone ;;
  set self.depth_stencil_view VNone ;;
  set self.formats_color VNone ;;
  set self.formats_depth VNone ;;
  create_instance ;;
  create_swapchain ;;
  create_device ;;
  create_command_pool ;;
  create_setup_buffer ;;
  Swapchain_create ;;
  create_command_buffers ;;
  create_depth_stencil ;;
  create_renderpass ;;
  create_pipeline_cache ;;
  create_framebuffers ;;
  flush_setup_buffer ;;
  call_external Window_show [] ;;
  ret tt.

Definition Application_del : M unit :=
  instance <- get self.instance ;;
  if is_none instance then ret tt else
  dev <- get self.device ;;
  when (negb (is_none dev))
    (swapchain <- get self.swapchain ;;
     when (negb (is_none swapchain)) Swapchain_destroy ;;
     cmd_pool <- get self.cmd_pool ;;
     setup_buffer <- get self.setup_buffer ;;
     when (negb (is_none setup_buffer))
          (call FreeCommandBuffers [dev; cmd_pool; VInt 1; setup_buffer] ;;
           ret tt) ;;
     draw_buffers <- get self.draw_buffers ;;
     len_draw_buffers <- len draw_buffers ;;
     when (0 <? len_draw_buffers)%nat
          (call FreeCommandBuffers
             [dev; cmd_pool; VInt (Z.of_nat len_draw_buffers);
              draw_buffers] ;;
           post_present_buffers <- get self.post_present_buffers ;;
           call FreeCommandBuffers
             [dev; cmd_pool; VInt (Z.of_nat len_draw_buffers);
              post_present_buffers] ;;
           ret tt) ;;
     render_pass <- get self.render_pass ;;
     when (negb (is_none render_pass))
          (call DestroyRenderPass [dev; render_pass; NULL] ;; ret tt) ;;
     shaders_modules <- get self.shaders_modules ;;
     shaders_modules <- iter shaders_modules ;;
     for_each (fun _ shader =>
                 call DestroyShaderModule [dev; shader; NULL] ;; ret tt)
       0%nat shaders_modules ;;
     framebuffers <- get self.framebuffers ;;
     when (negb (is_none framebuffers))
          (fbs <- iter framebuffers ;;
           for_each (fun _ fb =>
                       call DestroyFramebuffer [dev; fb; NULL] ;; ret tt)
             0%nat fbs) ;;
     view <- get self.depth_stencil_view ;;
     when (negb (is_none view))
          (call DestroyImageView [dev; view; NULL] ;; ret tt) ;;
     image <- get self.depth_stencil_image ;;
     when (negb (is_none image))
          (call DestroyImage [dev; image; NULL] ;; ret tt) ;;
     mem <- get self.depth_stencil_mem ;;
     when (negb (is_none mem))
          (call FreeMemory [dev; mem; NULL] ;; ret tt) ;;
     pipeline_cache <- get self.pipeline_cache ;;
     when (truthy pipeline_cache)
          (call DestroyPipelineCache [dev; pipeline_cache; NULL] ;; ret tt) ;;
     when (truthy cmd_pool)
          (call DestroyCommandPool [dev; cmd_pool; NULL] ;; ret tt) ;;
     call DestroyDevice [dev; NULL] ;;
     ret tt) ;;
  when ENABLE_VALIDATION Debugger_stop ;;
  call DestroyInstance [instance; NULL] ;;
  ret tt.

(** *** TriangleApplication (lines 885-1667) *)

Record Vertex : Type := mkVertex { pos : Vec3; col : Vec3 }.

Definition VERTEX_BUFFER_BIND_ID : Z := 0.

(** Lines 942-946 and 951. *)
Definition vertices_data : list Vertex :=
  [ mkVertex (Lit 1.0, Lit 1.0, Lit 0.0) (Lit 1.0, Lit 0.0, Lit 0.0);
    mkVertex (Lit (-1.0), Lit 1.0, Lit 0.0) (Lit 0.0, Lit 1.0, Lit 0.0);
    mkVertex (Lit 0.0, Lit (-1.0), Lit 0.0) (Lit 0.0, Lit 0.0, Lit 1.0) ].

Definition indices_data : list Z := [0; 1; 2].

Definition vertices_size : Z := sizeof_Vertex * 3.

Definition indices_size : Z := sizeof_c_uint * Z.of_nat (length indices_data).

Definition val_of_vec3 (v : Vec3) : Val :=
  let '(x, y, z) := v in VList [VNum x; VNum y; VNum z].

Definition val_of_vertex (v : Vertex) : Val :=
  VList [val_of_vec3 (pos v); val_of_vec3 (col v)].

Definition create_semaphores : M unit :=
  device <- get self.device ;;
  r1 <- call CreateSemaphore [device] ;;
  r2 <- call CreateSemaphore [device] ;;
  when (negb (bool_decide (SUCCESS ∈ [rc r1; rc r2])))
       (raise (RuntimeError "Failed to create the semaphores")) ;;
  set self.render_semaphores_present (VC (out r1 0)) ;;
  set self.render_semaphores_render (VC (out r2 0)).

Definition describe_bindings : M unit :=
  set self.triangle_bindings
      (VList [VList [VInt VERTEX_BUFFER_BIND_ID; VInt sizeof_Vertex;
                     VInt VERTEX_INPUT_RATE_VERTEX]]) ;;
  set self.triangle_attributes
      (VList [VList [VInt VERTEX_BUFFER_BIND_ID; VInt 0;
                     VInt FORMAT_R32G32B32_SFLOAT; VInt 0];
              VList [VInt VERTEX_BUFFER_BIND_ID; VInt 1;
                     VInt FORMAT_R32G32B32_SFLOAT;
                     VInt (sizeof_c_float * 3)]]).

(** [GetBufferMemoryRequirements] into the one [memreq] structure of the
    method: (size, memory_type_bits). *)
Definition buffer_memory_requirements (buffer : Val) (memreq : Z * Z)
  : M (Z * Z) :=
  device <- get self.device ;;
  r <- call GetBufferMemoryRequirements [device; buffer] ;;
  ret (out_or (fst memreq) r 0, c_uint (out_or (snd memreq) r 1)).

Definition create_triangle : M unit :=
  let data := 0 in
  let memreq := (0, 0) in
  device <- get self.device ;;
  (* 2 Create the vertex buffer *)
  r <- call_checked CreateBuffer
         [device; VInt vertices_size; VInt BUFFER_USAGE_TRANSFER_SRC_BIT]
         TypeError ;;
  let vertex_buffer := VC (out r 0) in
  (* 3 Allocate memory for the vertex buffer *)
  memreq <- buffer_memory_requirements vertex_buffer memreq ;;
  let allocation_size := fst memreq in
  index <- memory_type_index (snd memreq) MEMORY_PROPERTY_HOST_VISIBLE_BIT ;;
  r <- call_checked AllocateMemory
         [device; VInt allocation_size; VInt index] TypeError ;;
  let vertex_memory := VC (out r 0) in
  (* 4 Map the buffer memory and write the data *)
  r <- call_checked MapMemory
         [device; vertex_memory; VInt 0; VInt allocation_size; VInt 0]
         TypeError ;;
  let data := out_or data r 0 in
  py_memmove data (VList (map val_of_vertex vertices_data)) vertices_size ;;
  call UnmapMemory [device; vertex_memory] ;;
  (* 5 Bind the memory and the buffer together *)
  call_checked BindBufferMemory
    [device; vertex_buffer; vertex_memory; VInt 0] TypeError ;;
  (* 6 Create a destination buffer with device only visibility *)
  call_checked_into self.triangle_buffer CreateBuffer
    [device; VInt vertices_size;
     VInt (Z.lor BUFFER_USAGE_VERTEX_BUFFER_BIT
             BUFFER_USAGE_TRANSFER_DST_BIT)]
    TypeError ;;
  (* 7 Allocate the buffer memory and bind it to the buffer *)
  triangle_buffer <- get self.triangle_buffer ;;
  memreq <- buffer_memory_requirements triangle_buffer memreq ;;
  let allocation_size := fst memreq in
  index <- memory_type_index (snd memreq) MEMORY_PROPERTY_DEVICE_LOCAL_BIT ;;
  call_checked_into self.triangle_memory AllocateMemory
    [device; VInt allocation_size; VInt index] TypeError ;;
  triangle_memory <- get self.triangle_memory ;;
  call_checked BindBufferMemory
    [device; triangle_buffer; triangle_memory; VInt 0] TypeError ;;
  (* Store the indices in the device memory: same steps as 1,2,3,4,5 *)
  r <- call_checked CreateBuffer
         [device; VInt indices_size; VInt BUFFER_USAGE_TRANSFER_SRC_BIT]
         AssertionError ;;
  let indices_buffer := VC (out r 0) in
  memreq <- buffer_memory_requirements indices_buffer memreq ;;
  let allocation_size := fst memreq in
  index <- memory_type_index (snd memreq) MEMORY_PROPERTY_HOST_VISIBLE_BIT ;;
  r <- call_checked AllocateMemory
         [device; VInt allocation_size; VInt index] AssertionError ;;
  let indices_memory := VC (out r 0) in
  r <- call_checked MapMemory
         [device; indices_memory; VInt 0; VInt indices_size; VInt 0]
         AssertionError ;;
  let data := out_or data r 0 in
  py_memmove data (ints indices_data) indices_size ;;
  call UnmapMemory [device; indices_memory] ;;
  call_checked BindBufferMemory
    [device; indices_buffer; indices_memory; VInt 0] AssertionError ;;
  (* Same steps as 5, 7 (with the exception for the usage flags) *)
  call_checked_into self.triangle_indices_buffer CreateBuffer
    [device; VInt indices_size;
     VInt (Z.lor BUFFER_USAGE_INDEX_BUFFER_BIT
             BUFFER_USAGE_TRANSFER_DST_BIT)]
    AssertionError ;;
  triangle_indices_buffer <- get self.triangle_indices_buffer ;;
  memreq <- buffer_memory_requirements triangle_indices_buffer memreq ;;
  let allocation_size := fst memreq in
  index <- memory_type_index (snd memreq) MEMORY_PROPERTY_DEVICE_LOCAL_BIT ;;
  call_checked_into self.triangle_indices_memory AllocateMemory
    [device; VInt allocation_size; VInt index] AssertionError ;;
  triangle_indices_memory <- get self.triangle_indices_memory ;;
  call_checked BindBufferMemory
    [device; triangle_indices_buffer; triangle_indices_memory; VInt 0]
    AssertionError ;;
  (* Copy the staging buffer memory into the final buffers *)
  cmd_pool <- get self.cmd_pool ;;
  r <- call_checked AllocateCommandBuffers [device; cmd_pool; VInt 1]
         AssertionError ;;
  let copy_command := VC (out r 0) in
  call_checked BeginCommandBuffer [copy_command] AssertionError ;;
  call CmdCopyBuffer
    [copy_command; vertex_buffer; triangle_buffer; VInt 1;
     VList [VInt 0; VInt 0; VInt vertices_size]] ;;
  call CmdCopyBuffer
    [copy_command; indices_buffer; triangle_indices_buffer; VInt 1;
     VList [VInt 0; VInt 0; VInt indices_size]] ;;
  call_checked EndCommandBuffer [copy_command] AssertionError ;;
  (* Submit commands to the queue *)
  queue <- get self.queue ;;
  call_checked QueueSubmit [queue; VInt 1; copy_command; VInt 0]
    AssertionError ;;
  call_checked QueueWaitIdle [queue] AssertionError ;;
  (* Free temporary ressources *)
  call FreeCommandBuffers [device; cmd_pool; VInt 1; copy_command] ;;
  call DestroyBuffer [device; vertex_buffer; NULL] ;;
  call FreeMemory [device; vertex_memory; NULL] ;;
  call DestroyBuffer [device; indices_buffer; NULL] ;;
  call FreeMemory [device; indices_memory; NULL] ;;
  describe_bindings.

Definition as_num (v : Val) : M Num :=
  match v with
  | VNum x => ret x
  | VInt z => ret (OfInt z)
  | _ => raise TypeError
  end.

(** [self.matrices[i].set_data(m)] *)
Definition set_matrix (i : nat) (m : Mat) : M unit :=
  matrices <- get self.matrices ;;
  item matrices i ;;
  matrices <- set_item matrices i (VMat m) ;;
  set self.matrices matrices.

Definition update_uniform_buffers : M unit :=
  let matsize := sizeof_Mat4 * 3 in
  (* Projection *)
  d <- dimensions ;;
  let '(width, height) := d in
  aspect <- (if height =? 0 then raise ZeroDivisionError
             else ret (TrueDiv width height)) ;;
  set_matrix 0 (perspective (Lit 60.0) aspect (Lit 0.1) (Lit 256.0)) ;;
  (* Model *)
  rotation <- get self.rotation ;;
  r0 <- item rotation 0 ;;
  r0 <- as_num r0 ;;
  let mod_mat := rotate None r0 (Lit 1.0, Lit 0.0, Lit 0.0) in
  r1 <- item rotation 1 ;;
  r1 <- as_num r1 ;;
  let mod_mat := rotate (Some mod_mat) r1 (Lit 0.0, Lit 1.0, Lit 0.0) in
  r2 <- item rotation 2 ;;
  r2 <- as_num r2 ;;
  set_matrix 1 (rotate (Some mod_mat) r2 (Lit 0.0, Lit 0.0, Lit 1.0)) ;;
  (* View *)
  zoom <- get self.zoom ;;
  zoom <- as_num zoom ;;
  set_matrix 2 (translate None (Lit 0.0, Lit 0.0, zoom)) ;;
  device <- get self.device ;;
  memory <- get self.uniform_data_memory ;;
  r <- call MapMemory [device; memory; VInt 0; VInt matsize; VInt 0] ;;
  let data := out r 0 in
  matrices <- get self.matrices ;;
  py_memmove data matrices matsize ;;
  call UnmapMemory [device; memory] ;;
  ret tt.

Definition create_uniform_buffers : M unit :=
  device <- get self.device ;;
  call_checked_into self.uniform_data_buffer CreateBuffer
    [device; VInt (sizeof_Mat4 * 3); VInt BUFFER_USAGE_UNIFORM_BUFFER_BIT]
    (RuntimeError "Could not create the uniform buffer") ;;
  buffer <- get self.uniform_data_buffer ;;
  memreq <- buffer_memory_requirements buffer (0, 0) ;;
  index <- memory_type_index (snd memreq) MEMORY_PROPERTY_HOST_VISIBLE_BIT ;;
  call_checked_into self.uniform_data_memory AllocateMemory
    [device; VInt (fst memreq); VInt index]
    (RuntimeError "Failed to allocate the uniform buffer memory") ;;
  memory <- get self.uniform_data_memory ;;
  call_checked BindBufferMemory [device; buffer; memory; VInt 0]
    (RuntimeError "Failed to bind the uniform buffer memory") ;;
  set self.uniform_data_descriptor_buffer buffer ;;
  set self.uniform_data_descriptor_offset (VInt 0) ;;
  set self.uniform_data_descriptor_range (VInt (sizeof_Mat4 * 3)) ;;
  update_uniform_buffers.

Definition create_descriptor_set_layout : M unit :=
  device <- get self.device ;;
  r <- call_checked CreateDescriptorSetLayout
         [device; VInt 1; VInt SHADER_STAGE_VERTEX_BIT]
         (RuntimeError "Could not create descriptor set layout") ;;
  let ds_layout := VC (out r 0) in
  r <- call CreatePipelineLayout [device; VInt 1; ds_layout; VInt 0] ;;
  let pipeline_layout := VC (out r 0) in
  set self.pipeline_layout pipeline_layout ;;
  set self.descriptor_set_layout ds_layout.

Definition create_pipeline : M unit :=
  set self.triangle_input_state (VList [VInt 1; VInt 2]) ;;
  vert <- load_shader "triangle.vert.spv" SHADER_STAGE_VERTEX_BIT ;;
  frag <- load_shader "triangle.frag.spv" SHADER_STAGE_FRAGMENT_BIT ;;
  device <- get self.device ;;
  pipeline_cache <- get self.pipeline_cache ;;
  pipeline_layout <- get self.pipeline_layout ;;
  render_pass <- get self.render_pass ;;
  r <- call_checked CreateGraphicsPipelines
         [device; pipeline_cache; VInt 1;
          VList [VInt 2; vert; frag; pipeline_layout; render_pass; VInt 0];
          NULL]
         (RuntimeError "Failed to create the graphics pipeline") ;;
  set self.pipeline (VC (out r 0)).

Definition create_descriptor_pool : M unit :=
  device <- get self.device ;;
  r <- call CreateDescriptorPool [device; VInt 1; VInt 1] ;;
  set self.descriptor_pool (VC (out r 0)).

Definition create_descriptor_set : M unit :=
  device <- get self.device ;;
  descriptor_pool <- get self.descriptor_pool ;;
  descriptor_set_layout <- get self.descriptor_set_layout ;;
  r <- call_checked AllocateDescriptorSets
         [device; descriptor_pool; VInt 1; descriptor_set_layout]
         (RuntimeError "Could not allocate descriptor set") ;;
  let descriptor_set := VC (out r 0) in
  buffer <- get self.uniform_data_descriptor_buffer ;;
  call UpdateDescriptorSets
    [device; VInt 1; VList [descriptor_set; buffer; VInt 0]; VInt 0; NULL] ;;
  set self.descriptor_set descriptor_set.

(** The barrier of lines 1377-1396 and 1443-1462. *)
Definition present_barrier (cmdbuf image : Val)
    (src_access_mask dst_access_mask old_layout new_layout : Z) : M unit :=
  call CmdPipelineBarrier
    [cmdbuf; VInt PIPELINE_STAGE_ALL_COMMANDS_BIT;
     VInt PIPELINE_STAGE_BOTTOM_OF_PIPE_BIT; VInt 0; VInt 0; NULL; VInt 0;
     NULL; VInt 1;
     VList [VInt src_access_mask; VInt dst_access_mask; VInt old_layout;
            VInt new_layout; image; VInt IMAGE_ASPECT_COLOR_BIT]] ;;
  ret tt.

Definition init_command_buffers : M unit :=
  d <- dimensions ;;
  let '(width, height) := d in
  let render_area := VList [VInt 0; VInt 0; VInt (c_uint width);
                            VInt (c_uint height)] in
  render_pass <- get self.render_pass ;;
  post_present_buffers <- get self.post_present_buffers ;;
  post_present_buffers <- iter post_present_buffers ;;
  for_each (fun index cmdbuf =>
      call_checked BeginCommandBuffer [cmdbuf] AssertionError ;;
      images <- get self.swapchain_images ;;
      image <- item images index ;;
      present_barrier cmdbuf image 0 ACCESS_COLOR_ATTACHMENT_WRITE_BIT
        IMAGE_LAYOUT_PRESENT_SRC_KHR IMAGE_LAYOUT_COLOR_ATTACHMENT_OPTIMAL ;;
      call_checked EndCommandBuffer [cmdbuf] AssertionError ;;
      ret tt)
    0%nat post_present_buffers ;;
  draw_buffers <- get self.draw_buffers ;;
  draw_buffers <- iter draw_buffers ;;
  for_each (fun index cmdbuf =>
      call_checked BeginCommandBuffer [cmdbuf] AssertionError ;;
      framebuffers <- get self.framebuffers ;;
      framebuffer <- item framebuffers index ;;
      call CmdBeginRenderPass
        [cmdbuf; VList [render_pass; render_area; VInt 2; framebuffer];
         VInt SUBPASS_CONTENTS_INLINE] ;;
      call CmdSetViewport
        [cmdbuf; VInt 0; VInt 1;
         VList [VNum (Lit 0.0); VNum (Lit 0.0); VNum (OfInt width);
                VNum (OfInt height); VNum (Lit 0.0); VNum (Lit 1.0)]] ;;
      call CmdSetScissor [cmdbuf; VInt 0; VInt 1; render_area] ;;
      pipeline_layout <- get self.pipeline_layout ;;
      descriptor_set <- get self.descriptor_set ;;
      descriptor_set <- byref descriptor_set ;;
      call CmdBindDescriptorSets
        [cmdbuf; VInt PIPELINE_BIND_POINT_GRAPHICS; pipeline_layout; VInt 0;
         VInt 1; descriptor_set; VInt 0; NULL] ;;
      pipeline <- get self.pipeline ;;
      call CmdBindPipeline
        [cmdbuf; VInt PIPELINE_BIND_POINT_GRAPHICS; pipeline] ;;
      triangle_buffer <- get self.triangle_buffer ;;
      call CmdBindVertexBuffers
        [cmdbuf; VInt VERTEX_BUFFER_BIND_ID; VInt 1; triangle_buffer;
         VInt 0] ;;
      triangle_indices_buffer <- get self.triangle_indices_buffer ;;
      call CmdBindIndexBuffer
        [cmdbuf; triangle_indices_buffer; VInt 0; VInt INDEX_TYPE_UINT32] ;;
      call CmdDrawIndexed
        [cmdbuf; VInt 3; VInt 1; VInt 0; VInt 0; VInt 1] ;;
      call CmdEndRenderPass [cmdbuf] ;;
      images <- get self.swapchain_images ;;
      image <- item images index ;;
      present_barrier cmdbuf image ACCESS_COLOR_ATTACHMENT_WRITE_BIT
        ACCESS_MEMORY_READ_BIT IMAGE_LAYOUT_COLOR_ATTACHMENT_OPTIMAL
        IMAGE_LAYOUT_PRESENT_SRC_KHR ;;
      call_checked EndCommandBuffer [cmdbuf] AssertionError ;;
      ret tt)
    0%nat draw_buffers.

Definition TriangleApplication_resize_display (width height : Z) : M unit :=
  initialized <- get self.initialized ;;
  if negb (truthy initialized) then ret tt else
  Application_resize_display width height ;;
  init_command_buffers ;;
  queue <- get self.queue ;;
  call QueueWaitIdle [queue] ;;
  device <- get self.device ;;
  call DeviceWaitIdle [device] ;;
  update_uniform_buffers.

(** [run] hands the [render] coroutine to the event loop; it starts when the
    loop runs. *)
Definition run : M unit :=
  set self.initialized (VBool true).

Definition draw : M unit :=
  device <- get self.device ;;
  swapchain <- get self.swapchain_swapchain ;;
  present <- get self.render_semaphores_present ;;
  r <- call_checked AcquireNextImageKHR
         [device; swapchain; VC (2 ^ 64 - 1); present; VC 0]
         (Exception "Could not aquire next image from swapchain") ;;
  let cb := Z.to_nat (c_uint (out r 0)) in
  post_present_buffers <- get self.post_present_buffers ;;
  prebuf <- item post_present_buffers cb ;;
  queue <- get self.queue ;;
  call_checked QueueSubmit [queue; VInt 1; VList [prebuf]; VC 0]
    AssertionError ;;
  call_checked QueueWaitIdle [queue] AssertionError ;;
  draw_buffers <- get self.draw_buffers ;;
  drawbuf <- item draw_buffers cb ;;
  render <- get self.render_semaphores_render ;;
  call_checked QueueSubmit
    [queue; VInt 1;
     VList [VInt PIPELINE_STAGE_BOTTOM_OF_PIPE_BIT; present; render; drawbuf];
     VC 0]
    AssertionError ;;
  (* [raise "Could not render the scene"]: a str is not an exception *)
  call_checked QueuePresentKHR
    [queue; VList [swapchain; VInt (Z.of_nat cb); render]] TypeError ;;
  ret tt.

(** One turn of the loop of [render] (lines 1586-1601), up to the [await].
    The two local counters are threaded; the clock is read in
    microseconds. *)
Definition render_iteration (st : Z * Z) : M (Z * Z) :=
  let '(frame_counter, fps_timer) := st in
  t_start <- call loop_time [] ;;
  device <- get self.device ;;
  call DeviceWaitIdle [device] ;;
  draw ;;
  device <- get self.device ;;
  call DeviceWaitIdle [device] ;;
  let frame_counter := frame_counter + 1 in
  t_end <- call loop_time [] ;;
  let delta := out t_end 0 - out t_start 0 in
  let fps_timer := fps_timer + delta in
  if 1000000 <? fps_timer then
    call_external Window_set_title [VInt frame_counter] ;;
    ret (0, 0)
  else ret (frame_counter, fps_timer).

(** The loop of [render].  What runs during [await asyncio.sleep(0)] is
    outside the sources; of its effects the model keeps the one the loop
    looks at: [stop n] tells whether [self.running] is cleared during the
    [n]-th await.  With no fuel left the loop is reported as still running
    ([None]). *)
Fixpoint render_loop (fuel : nat) (stop : nat -> bool) (n : nat)
    (st : Z * Z) (w : World) : option (Res unit) * World :=
  if truthy (attrs w self.running) then
    match fuel with
    | O => (None, w)
    | S fuel' =>
        match render_iteration st w with
        | (Ok st', w1) =>
            let w2 := if stop n then snd (set self.running (VBool false) w1)
                      else w1 in
            render_loop fuel' stop (S n) st' w2
        | (Raise e, w1) => (Some (Raise e), w1)
        end
    end
  else
    let '(r, w') := set self.rendering_done (VBool true) w in (Some r, w').

Definition render (fuel : nat) (stop : nat -> bool) (w : World)
  : option (Res unit) * World :=
  render_loop fuel stop 0 (0, 0) (snd (set self.running (VBool true) w)).

Definition TriangleApplication_init : M unit :=
  Application_init ;;
  set self.pipeline_layout VNone ;;
  set self.pipeline VNone ;;
  set self.descriptor_set VNone ;;
  set self.descriptor_set_layout VNone ;;
  set self.descriptor_pool VNone ;;
  set self.render_semaphores_present VNone ;;
  set self.render_semaphores_render VNone ;;
  set self.matrices (VList [VMat Mat4_new; VMat Mat4_new; VMat Mat4_new]) ;;
  set self.uniform_data_buffer (VC 0) ;;
  set self.uniform_data_memory (VC 0) ;;
  set self.uniform_data_descriptor_buffer (VC 0) ;;
  set self.uniform_data_descriptor_offset (VInt 0) ;;
  set self.uniform_data_descriptor_range (VInt 0) ;;
  set self.triangle_buffer (VC 0) ;;
  set self.triangle_memory (VC 0) ;;
  set self.triangle_indices_buffer (VC 0) ;;
  set self.triangle_indices_memory (VC 0) ;;
  set self.triangle_bindings VNone ;;
  set self.triangle_attributes VNone ;;
  set self.triangle_input_state VNone ;;
  create_semaphores ;;
  create_triangle ;;
  create_uniform_buffers ;;
  create_descriptor_set_layout ;;
  create_pipeline ;;
  create_descriptor_pool ;;
  create_descriptor_set ;;
  init_command_buffers.

Definition TriangleApplication_del : M unit :=
  device <- get self.device ;;
  when (negb (is_none device))
    (descriptor_pool <- get self.descriptor_pool ;;
     call DestroyDescriptorPool [device; descriptor_pool; NULL] ;;
     pipeline <- get self.pipeline ;;
     call DestroyPipeline [device; pipeline; NULL] ;;
     pipeline_layout <- get self.pipeline_layout ;;
     call DestroyPipelineLayout [device; pipeline_layout; NULL] ;;
     descriptor_set_layout <- get self.descriptor_set_layout ;;
     call DestroyDescriptorSetLayout [device; descriptor_set_layout; NULL] ;;
     buffer <- get self.triangle_buffer ;;
     call DestroyBuffer [device; buffer; NULL] ;;
     memory <- get self.triangle_memory ;;
     call FreeMemory [device; memory; NULL] ;;
     buffer <- get self.triangle_indices_buffer ;;
     call DestroyBuffer [device; buffer; NULL] ;;
     memory <- get self.triangle_indices_memory ;;
     call FreeMemory [device; memory; NULL] ;;
     buffer <- get self.uniform_data_buffer ;;
     call DestroyBuffer [device; buffer; NULL] ;;
     memory <- get self.uniform_data_memory ;;
     call FreeMemory [device; memory; NULL] ;;
     present <- get self.render_semaphores_present ;;
     call DestroySemaphore [device; present; NULL] ;;
     render <- get self.render_semaphores_render ;;
     call DestroySemaphore [device; render; NULL] ;;
     ret tt) ;;
  Application_del.

(** [main] (lines 1669-1674): build the application, schedule [render], run
    the event loop. *)
Definition main (fuel : nat) (stop : nat -> bool) (w : World)
  : option (Res unit) * World :=
  match (TriangleApplication_init ;; run) w with
  | (Ok _, w1) => render fuel stop w1
  | (Raise e, w1) => (Some (Raise e), w1)
  end.

End Program.

(** * Reasoning about runs

    Everything below is about what a computation appends to the trace.  The
    judgment [traces Qok Qex m] says that [m], run from any world, appends
    some events [evs] with [Qok evs] when it returns and [Qex evs] when it
    raises. *)

Definition traces {A} (Qok Qex : list Event -> Prop) (m : M A) : Prop :=
  forall w, exists evs,
    trace (snd (m w)) = trace w ++ evs /\
    if raised (fst (m w)) then Qex evs else Qok evs.

(** Every event appended satisfies [P]. *)
Definition emits {A} (P : Event -> Prop) (m : M A) : Prop :=
  traces (Forall P) (Forall P) m.

(** The appended events, seen through [π], are the list [L] when [m] returns
    and a prefix of [L] when it raises. *)
Definition projects {X A} (π : Event -> option X) (m : M A) (L : list X)
  : Prop :=
  traces (fun evs => omap π evs = L) (fun evs => omap π evs `prefix_of` L) m.

Lemma traces_ret {A} (Qok Qex : list Event -> Prop) (a : A) :
  Qok [] -> traces Qok Qex (ret a).
Proof. intros H w. exists []. cbn. by rewrite app_nil_r. Qed.

Lemma traces_raise {A} (Qok Qex : list Event -> Prop) (e : Exn) :
  Qex [] -> traces Qok Qex (@raise A e).
Proof. intros H w. exists []. cbn. by rewrite app_nil_r. Qed.

Lemma traces_get (Qok Qex : list Event -> Prop) a :
  Qok [] -> traces Qok Qex (get a).
Proof. intros H w. exists []. cbn. by rewrite app_nil_r. Qed.

Lemma traces_set (Qok Qex : list Event -> Prop) a v :
  Qok [] -> traces Qok Qex (set a v).
Proof. intros H w. exists []. cbn. by rewrite app_nil_r. Qed.

Lemma traces_call (Qok Qex : list Event -> Prop) f a :
  (forall r, Qok [mkEvent f a r]) -> traces Qok Qex (call f a).
Proof. intros H w. eexists. cbn. split; [reflexivity | apply H]. Qed.

Lemma traces_bind {A B} (Q1ok Q1ex Q2ok Q2ex Qok Qex : list Event -> Prop)
    (m : M A) (k : A -> M B) :
  traces Q1ok Q1ex m ->
  (forall a, traces Q2ok Q2ex (k a)) ->
  (forall e1, Q1ex e1 -> Qex e1) ->
  (forall e1 e2, Q1ok e1 -> Q2ok e2 -> Qok (e1 ++ e2)) ->
  (forall e1 e2, Q1ok e1 -> Q2ex e2 -> Qex (e1 ++ e2)) ->
  traces Qok Qex (bind m k).
Proof.
  intros Hm Hk Hex Hok Hmix w. unfold bind.
  destruct (Hm w) as (e1 & Ht1 & H1).
  destruct (m w) as [[a | e] w1]; cbn in *.
  - destruct (Hk a w1) as (e2 & Ht2 & H2).
    exists (e1 ++ e2). split.
    + by rewrite Ht2, Ht1, app_assoc.
    + destruct (raised (fst (k a w1))); auto.
  - exists e1. auto.
Qed.

Lemma traces_weaken {A} (Qok Qex Qok' Qex' : list Event -> Prop) (m : M A) :
  traces Qok Qex m ->
  (forall evs, Qok evs -> Qok' evs) -> (forall evs, Qex evs -> Qex' evs) ->
  traces Qok' Qex' m.
Proof.
  intros Hm Hok Hex w. destruct (Hm w) as (evs & Ht & H).
  exists evs. split; [done |]. destruct (raised (fst (m w))); auto.
Qed.

Lemma emits_run {A} (P : Event -> Prop) (m : M A) w :
  emits P m ->
  exists evs, trace (snd (m w)) = trace w ++ evs /\ Forall P evs.
Proof.
  intros H. destruct (H w) as (evs & Ht & Hf). exists evs.
  split; [done |]. by destruct (raised (fst (m w))).
Qed.

(** ** Rules for [emits] *)

Section Emits.

Context {vk : VkConst} (P : Event -> Prop).

Lemma emits_ret {A} (a : A) : emits P (ret a).
Proof. by apply traces_ret. Qed.

Lemma emits_raise {A} e : emits P (@raise A e).
Proof. by apply traces_raise. Qed.

Lemma emits_get a : emits P (get a).
Proof. by apply traces_get. Qed.

Lemma emits_set a v : emits P (set a v).
Proof. by apply traces_set. Qed.

Lemma emits_call f a : (forall r, P (mkEvent f a r)) -> emits P (call f a).
Proof. intros H. apply traces_call. intros r. by constructor. Qed.

Lemma emits_bind {A B} (m : M A) (k : A -> M B) :
  emits P m -> (forall a, emits P (k a)) -> emits P (bind m k).
Proof.
  intros Hm Hk. eapply traces_bind; [exact Hm | exact Hk | ..]; cbn;
    intros; try apply Forall_app; auto.
Qed.

Lemma emits_for_each {A} (body : nat -> A -> M unit) l :
  (forall i x, emits P (body i x)) -> forall i, emits P (for_each body i l).
Proof.
  intros Hb. induction l as [| x l IH]; intros i; cbn.
  - apply emits_ret.
  - apply emits_bind; auto.
Qed.

Lemma emits_find_queue_family gpu surface l :
  (forall a r, P (mkEvent GetPhysicalDeviceSurfaceSupportKHR a r)) ->
  forall supported index,
    emits P (find_queue_family gpu surface supported index l).
Proof.
  intros Hc. induction l as [| q l IH]; intros supported index; cbn.
  - apply emits_ret.
  - apply emits_bind; [by apply emits_call |]. intros r.
    destruct (_ && _); [apply emits_ret | apply IH].
Qed.

Lemma emits_find_depth_format gpu l :
  (forall a r, P (mkEvent GetPhysicalDeviceFormatProperties a r)) ->
  forall features, emits P (find_depth_format gpu features l).
Proof.
  intros Hc. induction l as [| q l IH]; intros features; cbn.
  - apply emits_ret.
  - apply emits_bind; [by apply emits_call |]. intros r.
    destruct (negb _); [apply emits_ret | apply IH].
Qed.

End Emits.

(** Program terms are taken apart along their syntax; a method is unfolded
    when it is met. *)
Ltac head_of t :=
  lazymatch t with
  | ?f _ => head_of f
  | _ => t
  end.

Ltac emits_step :=
  lazymatch goal with
  | |- emits _ (bind _ _) => apply emits_bind; [ | intros ? ]
  | |- emits _ (ret _) => apply emits_ret
  | |- emits _ (raise _) => apply emits_raise
  | |- emits _ (get _) => apply emits_get
  | |- emits _ (set _ _) => apply emits_set
  | |- emits _ (call _ _) => apply emits_call; intros; cbn; solve [auto | done]
  | |- emits _ (for_each _ _ _) => apply emits_for_each; intros ? ?
  | |- emits _ (find_queue_family _ _ _ _ _) =>
      apply emits_find_queue_family; intros; cbn; solve [auto | done]
  | |- emits _ (find_depth_format _ _ _) =>
      apply emits_find_depth_format; intros; cbn; solve [auto | done]
  | |- emits _ (if ?b then _ else _) => destruct b
  | |- emits _ (match ?x with _ => _ end) => destruct x
  | |- emits _ ?m => let h := head_of m in unfold h
  end.

Ltac emits_auto := repeat emits_step.

(** ** Rules for [projects] *)

Section Projects.

Context {vk : VkConst} {X : Type} (π : Event -> option X).

Lemma omap_silent (evs : list Event) :
  Forall (fun e => π e = None) evs -> omap π evs = [].
Proof. induction 1 as [| e evs He _ IH]; cbn; [done |]. by rewrite He. Qed.

Lemma projects_silent {A} (m : M A) :
  emits (fun e => π e = None) m -> projects π m [].
Proof.
  intros H. eapply traces_weaken; [exact H | ..]; cbn; intros evs Hf;
    by rewrite omap_silent.
Qed.

Lemma projects_raise {A} e L : projects π (@raise A e) L.
Proof. apply traces_raise. apply prefix_nil. Qed.

Lemma projects_call f a x :
  (forall r, π (mkEvent f a r) = Some x) -> projects π (call f a) [x].
Proof. intros H. apply traces_call. intros r. cbn. by rewrite H. Qed.

Lemma projects_bind {A B} (m : M A) (k : A -> M B) L1 L2 :
  projects π m L1 -> (forall a, projects π (k a) L2) ->
  projects π (bind m k) (L1 ++ L2).
Proof.
  intros Hm Hk. eapply traces_bind; [exact Hm | exact Hk | ..]; cbn.
  - intros e1 H. by apply prefix_app_r.
  - intros e1 e2 <- <-. apply omap_app.
  - intros e1 e2 <- H. rewrite omap_app. by apply prefix_app.
Qed.

End Projects.

Ltac projects_auto :=
  lazymatch goal with
  | |- projects _ _ [] => apply projects_silent; emits_auto
  | |- projects _ (bind ?m ?k) (?x :: ?L) =>
      first
        [ apply (projects_bind _ m k [] (x :: L));
          [ solve [apply projects_silent; emits_auto]
          | intros ?; projects_auto ]
        | apply (projects_bind _ m k [x] L);
          [ projects_auto | intros ?; projects_auto ] ]
  | |- projects _ (call _ _) [_] => apply projects_call; intros; reflexivity
  | |- projects _ (raise _) _ => apply projects_raise
  | |- projects _ (if ?b then _ else _) _ => destruct b; projects_auto
  | |- projects _ (match ?x with _ => _ end) _ => destruct x; projects_auto
  | |- projects _ (for_each _ _ _) _ => fail
  | |- projects _ ?m _ => let h := head_of m in unfold h; projects_auto
  end.

(** ** Attributes a computation leaves alone *)

Definition keeps {A} (a : self.Attr) (m : M A) : Prop :=
  forall w, attrs (snd (m w)) a = attrs w a.

Section Keeps.

Context {vk : VkConst} (a : self.Attr).

Lemma keeps_ret {A} (x : A) : keeps a (ret x).
Proof. done. Qed.

Lemma keeps_raise {A} e : keeps a (@raise A e).
Proof. done. Qed.

Lemma keeps_get b : keeps a (get b).
Proof. done. Qed.

Lemma keeps_call f l : keeps a (call f l).
Proof. done. Qed.

Lemma keeps_set b v :
  Pos.eqb (self.id b) (self.id a) = false -> keeps a (set b v).
Proof. intros H w. cbn. unfold upd. by rewrite H. Qed.

Lemma keeps_bind {A B} (m : M A) (k : A -> M B) :
  keeps a m -> (forall x, keeps a (k x)) -> keeps a (bind m k).
Proof.
  intros Hm Hk w. unfold bind. specialize (Hm w).
  destruct (m w) as [[x | e] w1]; cbn in *; [| done].
  by rewrite Hk.
Qed.

Lemma keeps_for_each {A} (body : nat -> A -> M unit) l :
  (forall i x, keeps a (body i x)) -> forall i, keeps a (for_each body i l).
Proof.
  intros Hb. induction l as [| x l IH]; intros i; cbn [for_each].
  - apply keeps_ret.
  - apply keeps_bind; auto.
Qed.

End Keeps.

Ltac keeps_step :=
  lazymatch goal with
  | |- keeps _ (bind _ _) => apply keeps_bind; [ | intros ? ]
  | |- keeps _ (ret _) => apply keeps_ret
  | |- keeps _ (raise _) => apply keeps_raise
  | |- keeps _ (get _) => apply keeps_get
  | |- keeps _ (set _ _) => apply keeps_set; reflexivity
  | |- keeps _ (call _ _) => apply keeps_call
  | |- keeps _ (for_each _ _ _) => apply keeps_for_each; intros ? ?
  | |- keeps _ (if ?b then _ else _) => destruct b
  | |- keeps _ (match ?x with _ => _ end) => destruct x
  | |- keeps _ ?m => let h := head_of m in unfold h
  end.

Ltac keeps_auto := repeat keeps_step.

(** ** Running a computation symbolically

    [wp m Q w]: running [m] from [w] ends with a result and a world that
    satisfy [Q].  A call is answered by an arbitrary reply. *)

Definition wp {A} (m : M A) (Q : Res A -> World -> Prop) (w : World) : Prop :=
  Q (fst (m w)) (snd (m w)).

Lemma wp_bind {A B} (m : M A) (k : A -> M B) Q w :
  wp m (fun r w1 => match r with
                    | Ok a => wp (k a) Q w1
                    | Raise e => Q (Raise e) w1
                    end) w ->
  wp (bind m k) Q w.
Proof. unfold wp, bind. by destruct (m w) as [[a | e] w1]. Qed.

Lemma wp_ret {A} (a : A) Q w : Q (Ok a) w -> wp (ret a) Q w.
Proof. done. Qed.

Lemma wp_raise {A} e (Q : Res A -> World -> Prop) w :
  Q (Raise e) w -> wp (raise e) Q w.
Proof. done. Qed.

Lemma wp_get a Q w : Q (Ok (attrs w a)) w -> wp (get a) Q w.
Proof. done. Qed.

Lemma wp_set a v Q w :
  Q (Ok tt) (mkWorld (upd a v (attrs w)) (trace w) (tick w) (driver w)) ->
  wp (set a v) Q w.
Proof. done. Qed.

Lemma wp_call f a Q w :
  (forall r, Q (Ok r) (mkWorld (attrs w) (trace w ++ [mkEvent f a r])
                         (S (tick w)) (driver w))) ->
  wp (call f a) Q w.
Proof. intros H. apply H. Qed.

Lemma wp_mono {A} (m : M A) (Q1 Q2 : Res A -> World -> Prop) w :
  wp m Q1 w -> (forall r w', Q1 r w' -> Q2 r w') -> wp m Q2 w.
Proof. unfold wp. auto. Qed.

Lemma wp_run {A} (m : M A) Q w r w' : wp m Q w -> m w = (r, w') -> Q r w'.
Proof. unfold wp. intros H E. by rewrite E in H. Qed.

(** A loop with an invariant over the index, the items left and the world. *)
Lemma wp_for_each {A} (body : nat -> A -> M unit)
    (Inv : nat -> list A -> World -> Prop) Q :
  (forall i x rest w,
      Inv i (x :: rest) w ->
      wp (body i x) (fun r w' => match r with
                                 | Ok _ => Inv (S i) rest w'
                                 | Raise e => Q (Raise e) w'
                                 end) w) ->
  (forall i w, Inv i [] w -> Q (Ok tt) w) ->
  forall l i w, Inv i l w -> wp (for_each body i l) Q w.
Proof.
  intros Hbody Hend. induction l as [| x l IH]; intros i w HI;
    cbn [for_each].
  - exact (Hend i w HI).
  - apply wp_bind. eapply wp_mono; [exact (Hbody i x l w HI) |].
    intros [[] | e] w' H; [by apply IH | done].
Qed.

Ltac wp_simpl := cbn [attrs trace tick driver fst snd upd self.id Pos.eqb].

Ltac wp_simpl_in H :=
  cbn [attrs trace tick driver fst snd upd self.id Pos.eqb] in H.

Ltac wp_step :=
  lazymatch goal with
  | |- wp (bind _ _) _ _ => apply wp_bind
  | |- wp (ret _) _ _ => apply wp_ret; wp_simpl
  | |- wp (raise _) _ _ => apply wp_raise; wp_simpl
  | |- wp (get _) _ _ => apply wp_get; wp_simpl
  | |- wp (set _ _) _ _ => apply wp_set; wp_simpl
  | |- wp (call _ _) _ _ => apply wp_call; intros ?r; wp_simpl
  | |- wp (if ?b then _ else _) _ _ => destruct b eqn:?
  | |- wp (match ?x with _ => _ end) _ _ => destruct x eqn:?
  | |- wp (for_each _ _ _) _ _ => fail
  | |- wp ?m _ _ => let h := head_of m in unfold h
  end.

Lemma c_uint_range z : 0 <= c_uint z < 2 ^ 32.
Proof. unfold c_uint. apply Z.mod_pos_bound. lia. Qed.

(** A [c_uint] never equals [-1]. *)
Lemma eq_int_c_uint_m1 z : eq_int (VInt (c_uint z)) (-1) = false.
Proof. cbn. apply Z.eqb_neq. pose proof (c_uint_range z). lia. Qed.

(** * [get_memory_type] *)

Section GetMemoryType.

Context {vk : VkConst}.

(** Index [i] suits the request: bit [i] of [bits] is set and the memory type
    at [i] has all the flags of [properties]. *)
Definition suitable (memory_types : list Z) (bits properties : Z) (i : nat)
  : Prop :=
  Z.testbit bits (Z.of_nat i) = true /\
  exists flags, memory_types !! i = Some flags /\
                Z.land flags properties = properties.

Lemma land_1_testbit bits : (Z.land bits 1 =? 1) = Z.testbit bits 0.
Proof.
  change 1 with (Z.ones 1) at 1. rewrite Z.land_ones by lia.
  change (2 ^ 1) with 2. rewrite <- Z.bit0_mod.
  by destruct (Z.testbit bits 0).
Qed.

Lemma testbit_shiftr_1 bits (j : nat) :
  Z.testbit (Z.shiftr bits 1) (Z.of_nat j) = Z.testbit bits (Z.of_nat (S j)).
Proof. rewrite Z.shiftr_spec by lia. f_equal. lia. Qed.

Lemma suitable_cons flags l bits properties j :
  suitable (flags :: l) bits properties (S j) <->
  suitable l (Z.shiftr bits 1) properties j.
Proof. unfold suitable. rewrite testbit_shiftr_1. reflexivity. Qed.

Lemma get_memory_type_from_spec properties l :
  forall k bits,
    match get_memory_type_from k l bits properties with
    | (true, Some i) =>
        exists j, i = (k + j)%nat /\ suitable l bits properties j /\
                  forall j', (j' < j)%nat -> ~ suitable l bits properties j'
    | (false, None) => forall j, ~ suitable l bits properties j
    | _ => False
    end.
Proof.
  induction l as [| flags l IH]; intros k bits; cbn [get_memory_type_from].
  - intros j (_ & f & Hf & _). by rewrite lookup_nil in Hf.
  - rewrite land_1_testbit.
    destruct (Z.testbit bits 0) eqn:Hbit; cbn [andb];
      [destruct (Z.land flags properties =? properties) eqn:Hfl |].
    + exists 0%nat. split; [lia |]. split; [| lia].
      split; [done |]. exists flags. split; [done | by apply Z.eqb_eq].
    + specialize (IH (S k) (Z.shiftr bits 1)).
      destruct (get_memory_type_from _ _ _ _) as [[|] [i|]]; try done.
      * destruct IH as (j & -> & Hs & Hmin). exists (S j).
        split; [lia |]. split; [by apply suitable_cons |].
        intros [| j'] Hlt.
        -- intros (_ & f & Hf & Hland). cbn in Hf. injection Hf as <-.
           apply Z.eqb_neq in Hfl. done.
        -- rewrite suitable_cons. apply Hmin. lia.
      * intros [| j].
        -- intros (_ & f & Hf & Hland). cbn in Hf. injection Hf as <-.
           apply Z.eqb_neq in Hfl. done.
        -- rewrite suitable_cons. apply IH.
    + specialize (IH (S k) (Z.shiftr bits 1)).
      destruct (get_memory_type_from _ _ _ _) as [[|] [i|]]; try done.
      * destruct IH as (j & -> & Hs & Hmin). exists (S j).
        split; [lia |]. split; [by apply suitable_cons |].
        intros [| j'] Hlt.
        -- intros (Hb & _). change (Z.of_nat 0) with 0 in Hb. congruence.
        -- rewrite suitable_cons. apply Hmin. lia.
      * intros [| j].
        -- intros (Hb & _). change (Z.of_nat 0) with 0 in Hb. congruence.
        -- rewrite suitable_cons. apply IH.
Qed.

(** C8.  For every bitmask [bits] and flags [properties],
    [get_memory_type] returns [(True, i)] with [i] the smallest index whose
    bit is set in [bits] and whose memory type has all of [properties], and
    [(False, None)] when there is no such index; in that case element [1] of
    the result, which the callers take unchecked, is [None]. *)
Theorem get_memory_type_smallest_suitable (memory_types : list Z)
    (bits properties : Z) :
  match get_memory_type memory_types bits properties with
  | (true, Some i) =>
      suitable memory_types bits properties i /\
      forall j, (j < i)%nat -> ~ suitable memory_types bits properties j
  | (false, None) =>
      (forall i, ~ suitable memory_types bits properties i) /\
      snd (get_memory_type memory_types bits properties) = None
  | _ => False
  end.
Proof.
  unfold get_memory_type.
  pose proof (get_memory_type_from_spec properties memory_types 0 bits) as H.
  destruct (get_memory_type_from _ _ _ _) as [[|] [i|]]; try done.
  destruct H as (j & -> & Hs & Hmin). done.
Qed.

(** What the callers do with element [1]: it goes into the [c_uint] field
    [memory_type_index], which refuses [None]. *)
Lemma memory_type_index_none w l bits properties :
  attrs w self.gpu_mem = ints l ->
  (forall i, ~ suitable l bits properties i) ->
  memory_type_index bits properties w = (Raise TypeError, w).
Proof.
  intros Hmem Hnone. unfold memory_type_index, bind, get. cbn.
  rewrite Hmem. cbn.
  assert (map as_int (map VInt l) = l) as ->.
  { rewrite map_map. cbn. apply map_id. }
  unfold get_memory_type.
  pose proof (get_memory_type_from_spec properties l 0 bits) as H.
  destruct (get_memory_type_from _ _ _ _) as [[|] [i|]]; try done.
  destruct H as (j & _ & H & _). by apply Hnone in H.
Qed.

End GetMemoryType.

(** * [Swapchain.create] *)

Section SwapchainCreate.

Context {vk : VkConst}.

(** The five calls that [Swapchain.create] makes before it creates the
    swapchain, with the replies they got. *)
Definition query_events (w : World) (cap pc pf fc ff : Reply) : list Event :=
  let gpu := attrs w self.gpu in
  let surface := attrs w self.swapchain_surface in
  [ mkEvent GetPhysicalDeviceSurfaceCapabilitiesKHR [gpu; surface] cap;
    mkEvent GetPhysicalDeviceSurfacePresentModesKHR [gpu; surface; NULL] pc;
    mkEvent GetPhysicalDeviceSurfacePresentModesKHR
      [gpu; surface; VInt (c_uint (out pc 0))] pf;
    mkEvent GetPhysicalDeviceSurfaceFormatsKHR [gpu; surface; NULL] fc;
    mkEvent GetPhysicalDeviceSurfaceFormatsKHR
      [gpu; surface; VInt (c_uint (out fc 0))] ff ].

(** The array [prez] after the second present-mode call, and the array
    [formats] after the second format call. *)
Definition present_modes (pc pf : Reply) : list Z :=
  filled (Z.to_nat (c_uint (out pc 0))) (map c_uint (outs pf)).

Definition surface_formats (fc ff : Reply) : list (Z * Z) :=
  filled_formats (Z.to_nat (c_uint (out fc 0))) (map c_uint (outs ff)).

(** The three attributes of the [Swapchain] object that [create] is to
    replace. *)
Definition same_swapchain (w w' : World) : Prop :=
  attrs w' self.swapchain_swapchain = attrs w self.swapchain_swapchain /\
  attrs w' self.swapchain_images = attrs w self.swapchain_images /\
  attrs w' self.swapchain_views = attrs w self.swapchain_views.

Definition is_call (f : Api) (e : Event) : Prop := fn e = f.

Lemma Swapchain_create_query_spec w :
  wp Swapchain_create_query (fun r w' =>
    match r with
    | Ok (swapchain_image_count, color_format, color_space, swapchain_extent,
          transform, present_mode) =>
        exists cap pc pf fc ff rest,
          w' = mkWorld (upd self.formats_color (VInt color_format) (attrs w))
                 (trace w ++ query_events w cap pc pf fc ff)
                 (5 + tick w) (driver w) /\
          rc cap = SUCCESS /\
          swapchain_image_count =
            select_image_count (c_uint (out cap 2)) (c_uint (out cap 3)) /\
          present_mode = select_present_mode (present_modes pc pf) /\
          transform =
            select_transform (c_uint (out cap 4)) (c_uint (out cap 5)) /\
          swapchain_extent = (c_uint (out cap 0), c_uint (out cap 1)) /\
          surface_formats fc ff = (color_format, color_space) :: rest
    | Raise _ =>
        same_swapchain w w' /\
        exists evs, trace w' = trace w ++ evs /\
                    Forall (fun e => ~ is_call CreateSwapchainKHR e) evs
    end) w.
Proof.
  unfold Swapchain_create_query.
  repeat wp_step;
    try match goal with
        | H : eq_int (VInt (c_uint _)) (-1) = true |- _ =>
            by rewrite eq_int_c_uint_m1 in H
        | H : eq_int (VC _) _ = true |- _ => discriminate H
        end.
  all: try (split; [done |]; eexists;
            split; [rewrite <- ?app_assoc; reflexivity |];
            repeat constructor; done).
  exists r, r0, r1, r2, r3, l. rewrite <- !app_assoc.
  apply Z.eqb_eq in Heqb. destruct p as [format color_space].
  repeat split; done.
Qed.

(** What [destroy_swapchain] does: one [DestroyImageView] per stored view,
    then [DestroySwapchainKHR] on the stored handle. *)
Definition destroys_view (w : World) (view : Val) (e : Event) : Prop :=
  fn e = DestroyImageView /\ args e = [attrs w self.device; view; NULL].

Definition destroys_swapchain (w : World) (e : Event) : Prop :=
  fn e = DestroySwapchainKHR /\
  args e = [attrs w self.device; attrs w self.swapchain_swapchain; NULL].

(** An attribute read as a sequence, when it is one. *)
Definition sequence (v : Val) : option (list Val) :=
  match v with VList l => Some l | _ => None end.

Lemma Swapchain_destroy_swapchain_spec w :
  wp Swapchain_destroy_swapchain (fun r w' =>
    attrs w' = attrs w /\
    match sequence (attrs w self.swapchain_views) with
    | Some views =>
        r = Ok tt /\
        exists ds d, trace w' = trace w ++ ds ++ [d] /\
                     Forall2 (destroys_view w) views ds /\
                     destroys_swapchain w d
    | None => r = Raise TypeError /\ trace w' = trace w
    end) w.
Proof.
  unfold Swapchain_destroy_swapchain.
  repeat wp_step; try done. cbn [sequence].
  apply (wp_for_each _
           (fun _ rest w1 =>
              attrs w1 = attrs w /\
              exists seen ds, l = seen ++ rest /\ trace w1 = trace w ++ ds /\
                              Forall2 (destroys_view w) seen ds)).
  - intros i view rest w1 (Ha & seen & ds & -> & Ht & Hds).
    repeat wp_step. split; [done |].
    exists (seen ++ [view]), (ds ++ [mkEvent DestroyImageView
                                      [attrs w self.device; view; NULL] r]).
    rewrite <- app_assoc, Ht, <- app_assoc. repeat split; try done.
    apply Forall2_app; [done |]. by repeat constructor.
  - intros i w1 (Ha & seen & ds & -> & Ht & Hds).
    rewrite app_nil_r. repeat wp_step. rewrite Ha, Ht.
    repeat split; try done.
    eexists ds, _. rewrite <- app_assoc. repeat split; done.
  - split; [done |]. exists [], []. by rewrite app_nil_r.
Qed.

Lemma Swapchain_create_images_keeps n cf :
  keeps self.swapchain_swapchain (Swapchain_create_images n cf).
Proof. keeps_auto. Qed.

Lemma Swapchain_create_images_emits n cf :
  emits (fun e => ~ is_call CreateSwapchainKHR e /\
                  ~ is_call DestroySwapchainKHR e)
    (Swapchain_create_images n cf).
Proof. emits_auto. Qed.

(** The two ways [Swapchain.create] can go.  Refused: the driver is not
    asked for a swapchain, or it answers with another code than success;
    [create] raises and the three attributes are as before. *)
Definition create_refused (w : World) (res : Res unit) (w' : World) : Prop :=
  raised res = true /\ same_swapchain w w' /\
  exists evs,
    trace w' = trace w ++ evs /\
    (Forall (fun e => ~ is_call CreateSwapchainKHR e) evs \/
     exists pre e,
       evs = pre ++ [e] /\ is_call CreateSwapchainKHR e /\
       rc (reply e) <> SUCCESS /\
       Forall (fun e => ~ is_call CreateSwapchainKHR e) pre /\
       res = Raise (RuntimeError "Failed to create the swapchain")).

(** Accepted: the one [CreateSwapchainKHR] call [e] of the run succeeded.
    With no swapchain stored before, the handle written by the driver is
    stored and nothing is destroyed.  With one stored, the calls right after
    [e] destroy its views and then the old handle, and the new handle is
    stored after them; should the stored views not be a sequence, the
    destruction raises and the old handle stays. *)
Definition create_accepted (w : World) (res : Res unit) (w' : World) : Prop :=
  exists pre e post,
    trace w' = trace w ++ pre ++ e :: post /\
    is_call CreateSwapchainKHR e /\ rc (reply e) = SUCCESS /\
    Forall (fun e => ~ is_call CreateSwapchainKHR e) (pre ++ post) /\
    if is_none (attrs w self.swapchain_swapchain) then
      attrs w' self.swapchain_swapchain = VC (out (reply e) 0) /\
      Forall (fun d => ~ is_call DestroySwapchainKHR d) post
    else
      match sequence (attrs w self.swapchain_views) with
      | Some views =>
          attrs w' self.swapchain_swapchain = VC (out (reply e) 0) /\
          exists ds d post',
            post = ds ++ d :: post' /\
            Forall2 (destroys_view w) views ds /\
            destroys_swapchain w d /\
            Forall (fun d => ~ is_call DestroySwapchainKHR d) post'
      | None =>
          res = Raise TypeError /\ post = [] /\
          attrs w' self.swapchain_swapchain =
            attrs w self.swapchain_swapchain
      end.

Lemma wp_intro {A} (m : M A) Q w :
  (forall r w', m w = (r, w') -> Q r w') -> wp m Q w.
Proof. intros H. unfold wp. apply H. by destruct (m w). Qed.

Lemma query_events_no_create w cap pc pf fc ff :
  Forall (fun e => ~ is_call CreateSwapchainKHR e)
    (query_events w cap pc pf fc ff).
Proof. repeat constructor; done. Qed.

Lemma destroys_view_no_create w views ds :
  Forall2 (destroys_view w) views ds ->
  Forall (fun e => ~ is_call CreateSwapchainKHR e) ds.
Proof.
  induction 1 as [| v e vs es Hd _ IH]; constructor; [| done].
  destruct Hd as [Hfn _]. unfold is_call. by rewrite Hfn.
Qed.

(** C7.  [Swapchain.create] stores a swapchain handle only when the driver
    answered [CreateSwapchainKHR] with success, and then it is the handle the
    driver wrote.  When the call is refused (or is not reached), [create]
    raises and the attributes [swapchain], [images] and [views] are as
    before.  When it succeeds and a swapchain was stored, the views of the old
    one and then the old handle itself are destroyed, and the new handle is
    stored after that. *)
Theorem Swapchain_create_handle_from_driver (w : World) :
  wp Swapchain_create
    (fun res w' => create_refused w res w' \/ create_accepted w res w') w.
Proof.
  unfold Swapchain_create. apply wp_bind.
  eapply wp_mono; [apply Swapchain_create_query_spec |].
  intros [q | ex] w1 H.
  - destruct q as [[[[[image_count color_format] color_space] extent]
                      transform] present_mode].
    destruct H as (cap & pc & pf & fc & ff & rest & -> & H).
    pose proof (query_events_no_create w cap pc pf fc ff) as Hpre.
    remember Swapchain_destroy_swapchain as destroy eqn:Hdestroy.
    remember Swapchain_create_images as images eqn:Himages.
    repeat wp_step.
    + (* accepted, a swapchain was stored *)
      apply negb_true_iff in Heqb0. apply Z.eqb_eq in Heqb.
      subst destroy. eapply wp_mono; [apply Swapchain_destroy_swapchain_spec |].
      intros r0 w2 Hd. unfold destroys_view, destroys_swapchain in Hd.
      wp_simpl_in Hd. destruct Hd as [Ha Hd].
      destruct (sequence (attrs w self.swapchain_views)) as [views |]
        eqn:Hviews.
      * destruct Hd as (-> & ds & d & Ht & Hds & Hdd).
        repeat wp_step. subst images. apply wp_intro. intros res w3 E.
        match type of E with _ ?w2' = _ =>
          pose proof (Swapchain_create_images_keeps image_count color_format
                        w2') as Hk;
          destruct (emits_run _ _ w2'
                      (Swapchain_create_images_emits image_count color_format))
            as (evs & Hev & Hf)
        end.
        rewrite E in Hk, Hev. wp_simpl_in Hk. wp_simpl_in Hev.
        right. eexists (query_events w cap pc pf fc ff), _, (ds ++ d :: evs).
        rewrite Heqb0, Hviews, Hev, Ht, <- !app_assoc.
        split; [reflexivity |]. split; [done |]. split; [done |].
        assert (Forall (fun e => ~ is_call CreateSwapchainKHR e) evs) as Hf1
          by (eapply Forall_impl; [exact Hf | by intros ? []]).
        assert (Forall (fun e => ~ is_call DestroySwapchainKHR e) evs) as Hf2
          by (eapply Forall_impl; [exact Hf | by intros ? []]).
        split.
        { apply Forall_app; split; [done |]. apply Forall_app; split.
          - by eapply destroys_view_no_create.
          - constructor; [| done]. destruct Hdd as [Hfn _].
            unfold is_call. by rewrite Hfn. }
        split; [done |]. by exists ds, d, evs.
      * destruct Hd as [-> Ht]. right.
        eexists (query_events w cap pc pf fc ff), _, [].
        rewrite Heqb0, Hviews, Ht, <- !app_assoc, app_nil_r, Ha.
        wp_simpl. repeat split; done.
    + (* accepted, nothing was stored *)
      apply negb_false_iff in Heqb0. apply Z.eqb_eq in Heqb.
      subst images. apply wp_intro. intros res w3 E. right.
      match type of E with _ ?w2' = _ =>
        pose proof (Swapchain_create_images_keeps image_count color_format
                      w2') as Hk;
        destruct (emits_run _ _ w2'
                    (Swapchain_create_images_emits image_count color_format))
          as (evs & Hev & Hf)
      end.
      rewrite E in Hk, Hev. wp_simpl_in Hk. wp_simpl_in Hev.
      eexists (query_events w cap pc pf fc ff), _, evs.
      rewrite Heqb0, Hev, <- !app_assoc.
      split; [reflexivity |]. split; [done |]. split; [done |].
      split; [apply Forall_app; split; [done |];
              eapply Forall_impl; [exact Hf | by intros ? []] |].
      split; [done |]. eapply Forall_impl; [exact Hf | by intros ? []].
    + (* refused *)
      left. split; [done |]. split; [done |].
      eexists. split; [rewrite <- app_assoc; reflexivity |].
      right. eexists _, _. split; [reflexivity |].
      apply Z.eqb_neq in Heqb. repeat split; done.
  - (* the query raised *)
    destruct H as (Hsame & evs & Ht & Hf).
    left. split; [done |]. split; [done |]. exists evs. auto.
Qed.

Lemma Swapchain_create_query_run w q w' :
  Swapchain_create_query w = (Ok q, w') ->
  let '(swapchain_image_count, color_format, color_space, swapchain_extent,
        transform, present_mode) := q in
  exists cap pc pf fc ff rest,
    w' = mkWorld (upd self.formats_color (VInt color_format) (attrs w))
           (trace w ++ query_events w cap pc pf fc ff)
           (5 + tick w) (driver w) /\
    rc cap = SUCCESS /\
    swapchain_image_count =
      select_image_count (c_uint (out cap 2)) (c_uint (out cap 3)) /\
    present_mode = select_present_mode (present_modes pc pf) /\
    transform = select_transform (c_uint (out cap 4)) (c_uint (out cap 5)) /\
    swapchain_extent = (c_uint (out cap 0), c_uint (out cap 1)) /\
    surface_formats fc ff = (color_format, color_space) :: rest.
Proof.
  intros E. exact (wp_run _ _ _ _ _ (Swapchain_create_query_spec w) E).
Qed.

Lemma surface_formats_first fc ff format color_space written f0 rest :
  outs ff = format :: color_space :: written ->
  surface_formats fc ff = f0 :: rest ->
  f0 = (c_uint format, c_uint color_space).
Proof.
  unfold surface_formats, filled_formats. intros ->.
  destruct (Z.to_nat (c_uint (out fc 0))); cbn; [done |]. by intros [= <- _].
Qed.

(** C9.  The guard of the fallback compares the [c_uint] object
    [format_count] with the int 1 and is never true: with at least one entry
    in [formats] the selection is the format of the first entry, also when
    there is exactly one entry and its format is [FORMAT_UNDEFINED].  So
    whenever the selection is made, the color format (kept in
    [app.formats['color']] and handed to the swapchain) is the format field of
    the first entry of [formats], which is the first format the driver
    returned when it returned any. *)
Theorem Swapchain_create_selects_first_format :
  (forall format_count f0 rest w,
      select_color_format (VC format_count) (f0 :: rest) w
      = (Ok (fst f0), w)) /\
  (forall w q w',
      Swapchain_create_query w = (Ok q, w') ->
      let color_format := snd (fst (fst (fst (fst q)))) in
      exists cap pc pf fc ff color_space rest,
        trace w' = trace w ++ query_events w cap pc pf fc ff /\
        attrs w' self.formats_color = VInt color_format /\
        surface_formats fc ff = (color_format, color_space) :: rest /\
        forall format space written,
          outs ff = format :: space :: written ->
          color_format = c_uint format).
Proof.
  split; [done |].
  intros w q w' E. apply Swapchain_create_query_run in E.
  destruct q as [[[[[image_count color_format] color_space] extent]
                    transform] present_mode].
  destruct E as (cap & pc & pf & fc & ff & rest & -> & _ & _ & _ & _ & _ & Hf).
  exists cap, pc, pf, fc, ff, color_space, rest. cbn.
  repeat split; try done.
  intros format space written Hw.
  by injection (surface_formats_first _ _ _ _ _ _ _ Hw Hf) as ->.
Qed.

(** C10.  The present mode is MAILBOX when the supported modes contain it,
    else IMMEDIATE when they contain that, else FIFO; the image count asked
    for is [min_image_count + 1], or [max_image_count] when that is positive
    and smaller.  Both are computed from what the surface reported. *)
Theorem Swapchain_create_present_mode_and_image_count :
  (forall prez,
      (PRESENT_MODE_MAILBOX_KHR ∈ prez ->
       select_present_mode prez = PRESENT_MODE_MAILBOX_KHR) /\
      (PRESENT_MODE_MAILBOX_KHR ∉ prez ->
       PRESENT_MODE_IMMEDIATE_KHR ∈ prez ->
       select_present_mode prez = PRESENT_MODE_IMMEDIATE_KHR) /\
      (PRESENT_MODE_MAILBOX_KHR ∉ prez ->
       PRESENT_MODE_IMMEDIATE_KHR ∉ prez ->
       select_present_mode prez = PRESENT_MODE_FIFO_KHR)) /\
  (forall min_image_count max_image_count,
      (0 < max_image_count < min_image_count + 1 ->
       select_image_count min_image_count max_image_count
       = max_image_count) /\
      (~ 0 < max_image_count < min_image_count + 1 ->
       select_image_count min_image_count max_image_count
       = min_image_count + 1)) /\
  (forall w q w',
      Swapchain_create_query w = (Ok q, w') ->
      let swapchain_image_count := fst (fst (fst (fst (fst q)))) in
      let present_mode := snd q in
      exists cap pc pf fc ff,
        trace w' = trace w ++ query_events w cap pc pf fc ff /\
        swapchain_image_count =
          select_image_count (c_uint (out cap 2)) (c_uint (out cap 3)) /\
        present_mode = select_present_mode (present_modes pc pf)).
Proof.
  split; [| split].
  - intros prez. unfold select_present_mode.
    repeat case_bool_decide; repeat split; intros; done.
  - intros lo hi. unfold select_image_count. cbn zeta.
    destruct (0 <? hi) eqn:H0; destruct (hi <? lo + 1) eqn:H1; cbn [andb];
      split; intros; try done;
      (apply Z.ltb_lt in H0 || apply Z.ltb_ge in H0);
      (apply Z.ltb_lt in H1 || apply Z.ltb_ge in H1); lia.
  - intros w q w' E. apply Swapchain_create_query_run in E.
    destruct q as [[[[[image_count color_format] color_space] extent]
                      transform] present_mode].
    destruct E as (cap & pc & pf & fc & ff & rest & -> & _ & Hc & Hp & _).
    exists cap, pc, pf, fc, ff. cbn. done.
Qed.

End SwapchainCreate.

(** * The render loop and [main] *)

Section Loop.

Context {vk : VkConst} {X : Type} (π : Event -> option X).

(** [k] turns of the loop, each showing [turn] through [π]. *)
Definition rounds (turn : list X) (k : nat) : list X :=
  concat (replicate k turn).

Lemma rounds_S turn k : rounds turn (S k) = turn ++ rounds turn k.
Proof. done. Qed.

Lemma render_loop_rounds turn :
  (forall st, projects π (render_iteration st) turn) ->
  forall fuel stop i st w,
  exists evs k p,
    trace (snd (render_loop fuel stop i st w)) = trace w ++ evs /\
    omap π evs = rounds turn k ++ p /\ p `prefix_of` turn.
Proof.
  intros Hturn. induction fuel as [| fuel IH]; intros stop i st w;
    cbn [render_loop]; destruct (truthy _).
  - exists [], 0%nat, []. cbn. rewrite app_nil_r. auto using prefix_nil.
  - exists [], 0%nat, []. cbn. rewrite app_nil_r. auto using prefix_nil.
  - destruct (Hturn st w) as (e1 & Ht1 & H1).
    destruct (render_iteration st w) as [[st' | ex] w1]; cbn in Ht1, H1.
    + match goal with |- context [render_loop fuel stop (S i) st' ?w2] =>
        destruct (IH stop (S i) st' w2) as (e2 & k & p & Ht2 & H2 & Hp);
        assert (trace w2 = trace w1) as Hw2 by (by destruct (stop i))
      end.
      exists (e1 ++ e2), (S k), p. rewrite Ht2, Hw2, Ht1, app_assoc.
      split; [done |]. by rewrite omap_app, H1, H2, rounds_S, app_assoc.
    + exists e1, 0%nat, (omap π e1). done.
  - exists [], 0%nat, []. cbn. rewrite app_nil_r. auto using prefix_nil.
Qed.

Lemma main_rounds start turn :
  projects π (bind TriangleApplication_init (fun _ => run)) start ->
  (forall st, projects π (render_iteration st) turn) ->
  forall fuel stop w,
  exists evs,
    trace (snd (main fuel stop w)) = trace w ++ evs /\
    (omap π evs `prefix_of` start \/
     exists k p, omap π evs = start ++ rounds turn k ++ p /\
                 p `prefix_of` turn).
Proof.
  intros Hstart Hturn fuel stop w. unfold main.
  destruct (Hstart w) as (e1 & Ht1 & H1).
  destruct (bind TriangleApplication_init _ w) as [[[] | ex] w1];
    cbn in Ht1, H1.
  - unfold render. cbn [set snd].
    match goal with |- context [render_loop fuel stop 0 ?st ?w2] =>
      destruct (render_loop_rounds turn Hturn fuel stop 0%nat st w2)
        as (e2 & k & p & Ht2 & H2 & Hp)
    end.
    cbn [trace] in Ht2.
    exists (e1 ++ e2). rewrite Ht2, Ht1, app_assoc. split; [done |].
    right. exists k, p. by rewrite omap_app, H1, H2.
  - exists e1. cbn. auto.
Qed.

End Loop.

(** * The graphics pipeline *)

Section Pipeline.

Context {vk : VkConst}.

(** The create-info count of a [CreateGraphicsPipelines] call. *)
Definition pipeline_count (e : Event) : option Val :=
  match fn e with
  | CreateGraphicsPipelines => Some (nth 2 (args e) VNone)
  | _ => None
  end.

Lemma create_pipeline_stores w :
  wp create_pipeline (fun res w' =>
    res = Ok tt ->
    exists evs e,
      trace w' = trace w ++ evs /\ last evs = Some e /\
      is_call CreateGraphicsPipelines e /\
      attrs w' self.pipeline = VC (out (reply e) 0)) w.
Proof.
  unfold create_pipeline. repeat wp_step; try done.
  intros _. rewrite <- !app_assoc. cbn [app]. eexists _, _.
  split; [reflexivity |]. split; [reflexivity | done].
Qed.

(** What [create_pipeline] asks for the two shaders: each file is read and
    a module is made of it. *)
Definition shader_loads (w : World) (f1 m1 f2 m2 : Reply) : list Event :=
  let device := attrs w self.device in
  [ mkEvent open_read [] f1;
    mkEvent CreateShaderModule [device; VInt (Z.of_nat (length (outs f1)))]
      m1;
    mkEvent open_read [] f2;
    mkEvent CreateShaderModule [device; VInt (Z.of_nat (length (outs f2)))]
      m2 ].

(** The two files were read and the two modules made. *)
Definition shaders_loaded (f1 m1 f2 m2 : Reply) : bool :=
  (rc f1 =? 0) && (rc m1 =? SUCCESS) && (rc f2 =? 0) && (rc m2 =? SUCCESS).

(** How many of the four were asked for: up to the first refusal. *)
Definition loads_made (f1 m1 f2 m2 : Reply) : nat :=
  if negb (rc f1 =? 0) then 1
  else if negb (rc m1 =? SUCCESS) then 2
  else if negb (rc f2 =? 0) then 3
  else 4.

(** The one call that makes the pipeline (line 1289), with a create-info
    count of 1. *)
Definition pipeline_call (w : World) (m1 m2 created : Reply) : Event :=
  mkEvent CreateGraphicsPipelines
    [attrs w self.device; attrs w self.pipeline_cache; VInt 1;
     VList [VInt 2;
            VList [VInt SHADER_STAGE_VERTEX_BIT; VC (out m1 0)];
            VList [VInt SHADER_STAGE_FRAGMENT_BIT; VC (out m2 0)];
            attrs w self.pipeline_layout; attrs w self.render_pass; VInt 0];
     NULL] created.

Lemma create_pipeline_outcome w modules :
  attrs w self.shaders_modules = VList modules ->
  wp create_pipeline (fun res w' =>
    exists f1 m1 f2 m2,
      let loads := shader_loads w f1 m1 f2 m2 in
      if shaders_loaded f1 m1 f2 m2 then
        exists created,
          trace w' = trace w ++ loads ++ [pipeline_call w m1 m2 created] /\
          if rc created =? SUCCESS then
            res = Ok tt /\ attrs w' self.pipeline = VC (out created 0)
          else
            res = Raise (RuntimeError
                           "Failed to create the graphics pipeline") /\
            attrs w' self.pipeline = attrs w self.pipeline
      else
        raised res = true /\
        trace w' = trace w ++ take (loads_made f1 m1 f2 m2) loads /\
        attrs w' self.pipeline = attrs w self.pipeline) w.
Proof.
  intros Hm. unfold create_pipeline.
  repeat first [ rewrite Hm | wp_step ].
  all: rewrite <- ?app_assoc; cbn [app].
  all: rewrite ?negb_true_iff, ?negb_false_iff in *.
  1: exists r, r, r, r.
  2: exists r, r0, r1, r1.
  3: exists r, r0, r1, r2.
  4: exists r, r0, r1, r2.
  5: exists r, r0, r1, r2.
  6: exists r, r0, r, r.
  all: cbn zeta; unfold shaders_loaded, loads_made, shader_loads,
         pipeline_call.
  all: rewrite ?Heqb, ?Heqb0, ?Heqb1, ?Heqb2.
  all: cbn [negb andb take app raised]; try done.
  all: exists r3; by rewrite Heqb3.
Qed.

(** C4.  [create_pipeline] makes exactly one [CreateGraphicsPipelines]
    call, with a create-info count of 1, as soon as its two shaders are
    loaded, and none when one of them is not; it returns exactly when that
    call succeeds, and has then stored the handle the call wrote.  No other
    path makes such a call: the construction that returns shows exactly that
    one, a whole run of [main] at most that one, and the operations the
    window triggers ([resize_display], [update_uniform_buffers]) and
    [__del__] make none. *)
Theorem single_graphics_pipeline :
  (forall w modules,
      attrs w self.shaders_modules = VList modules ->
      wp create_pipeline (fun res w' =>
        exists f1 m1 f2 m2,
          let loads := shader_loads w f1 m1 f2 m2 in
          if shaders_loaded f1 m1 f2 m2 then
            exists created,
              trace w' = trace w ++ loads ++ [pipeline_call w m1 m2 created] /\
              if rc created =? SUCCESS then
                res = Ok tt /\ attrs w' self.pipeline = VC (out created 0)
              else
                res = Raise (RuntimeError
                               "Failed to create the graphics pipeline") /\
                attrs w' self.pipeline = attrs w self.pipeline
          else
            raised res = true /\
            trace w' = trace w ++ take (loads_made f1 m1 f2 m2) loads /\
            attrs w' self.pipeline = attrs w self.pipeline) w) /\
  projects pipeline_count create_pipeline [VInt 1] /\
  (forall w,
      wp create_pipeline (fun res w' =>
        res = Ok tt ->
        exists evs e,
          trace w' = trace w ++ evs /\ last evs = Some e /\
          is_call CreateGraphicsPipelines e /\
          attrs w' self.pipeline = VC (out (reply e) 0)) w) /\
  projects pipeline_count TriangleApplication_init [VInt 1] /\
  (forall fuel stop w,
      exists evs,
        trace (snd (main fuel stop w)) = trace w ++ evs /\
        omap pipeline_count evs `prefix_of` [VInt 1]) /\
  (forall width height,
      emits (fun e => ~ is_call CreateGraphicsPipelines e)
        (TriangleApplication_resize_display width height)) /\
  emits (fun e => ~ is_call CreateGraphicsPipelines e)
    update_uniform_buffers /\
  emits (fun e => ~ is_call CreateGraphicsPipelines e)
    TriangleApplication_del.
Proof.
  split; [exact create_pipeline_outcome |].
  split; [projects_auto |]. split; [exact create_pipeline_stores |].
  split; [projects_auto |]. split; [| split; [| split]].
  - intros fuel stop w.
    destruct (main_rounds pipeline_count [VInt 1] []) with
      (fuel := fuel) (stop := stop) (w := w) as (evs & Ht & H).
    + projects_auto.
    + intros st. projects_auto.
    + exists evs. split; [done |].
      destruct H as [H | (k & p & -> & Hp)]; [done |].
      apply prefix_nil_inv in Hp as ->.
      assert (rounds (X := Val) [] k = []) as ->.
      { unfold rounds. induction k; [done |]. done. }
      by rewrite !app_nil_r.
  - intros width height. emits_auto.
  - emits_auto.
  - emits_auto.
Qed.

End Pipeline.

(** * Startup order *)

Section Startup.

Context {vk : VkConst}.

Inductive Stage : Type :=
| stage_window       (* the platform window is created *)
| stage_instance     (* the Vulkan instance *)
| stage_device       (* the logical device *)
| stage_swapchain    (* the swapchain, by the driver *)
| stage_pipeline     (* the graphics pipeline *)
| stage_draw.        (* a frame is drawn: [draw] acquires an image *)

Definition stage (e : Event) : option Stage :=
  match fn e with
  | Window_init => Some stage_window
  | CreateInstance => Some stage_instance
  | CreateDevice => Some stage_device
  | CreateSwapchainKHR => Some stage_swapchain
  | CreateGraphicsPipelines => Some stage_pipeline
  | AcquireNextImageKHR => Some stage_draw
  | _ => None
  end.

Definition startup : list Stage :=
  [stage_window; stage_instance; stage_device; stage_swapchain;
   stage_pipeline].

Lemma Application_init_stages :
  projects stage Application_init
    [stage_window; stage_instance; stage_device; stage_swapchain].
Proof. projects_auto. Qed.

Lemma TriangleApplication_init_stages :
  projects stage TriangleApplication_init startup.
Proof.
  unfold TriangleApplication_init.
  apply (projects_bind stage Application_init _
           [stage_window; stage_instance; stage_device; stage_swapchain]
           [stage_pipeline]).
  - apply Application_init_stages.
  - intros _. projects_auto.
Qed.

Lemma render_iteration_stages st :
  projects stage (render_iteration st) [stage_draw].
Proof. projects_auto. Qed.

(** C2.  In every run of the program the stages come in the order window,
    instance, device, swapchain, pipeline, and frames are drawn only after
    all five: what a run shows of the stages is the five in that order
    followed by draws, or, when the construction raises, the beginning of the
    five and no draw.  The construction that returns went through all
    five. *)
Theorem startup_order :
  projects stage TriangleApplication_init startup /\
  forall fuel stop w,
  exists evs,
    trace (snd (main fuel stop w)) = trace w ++ evs /\
    (omap stage evs `prefix_of` startup \/
     exists k, omap stage evs = startup ++ replicate k stage_draw).
Proof.
  split; [apply TriangleApplication_init_stages |].
  intros fuel stop w.
  destruct (main_rounds stage startup [stage_draw]) with
    (fuel := fuel) (stop := stop) (w := w) as (evs & Ht & H).
  - rewrite <- (app_nil_r startup).
    apply projects_bind; [apply TriangleApplication_init_stages |].
    intros _. projects_auto.
  - apply render_iteration_stages.
  - exists evs. split; [done |].
    destruct H as [H | (k & p & -> & Hp)]; [by left | right].
    assert (rounds [stage_draw] k = replicate k stage_draw) as ->.
    { unfold rounds. induction k as [| k IH]; [done |]. cbn. by rewrite IH. }
    destruct Hp as [q Hq]. destruct p as [| s p].
    + exists k. by rewrite app_nil_r.
    + destruct p; [| done]. injection Hq as ->.
      exists (S k). f_equal. clear. induction k; [done |]. cbn. by f_equal.
Qed.

(** The [Swapchain] object of the program, a wrapper around the surface, is
    constructed between the instance and the device ([create_swapchain]);
    the driver's swapchain is created by [Swapchain.create], after the
    device. *)
Lemma swapchain_wrapper_after_instance :
  projects (fun e => match fn e with
                     | CreateInstance | BaseSwapchain_init | CreateDevice
                     | CreateSwapchainKHR => Some (fn e)
                     | _ => None
                     end)
    Application_init
    [CreateInstance; BaseSwapchain_init; CreateDevice; CreateSwapchainKHR].
Proof. projects_auto. Qed.

End Startup.

(** * The triangle *)

Section Triangle.

Context {vk : VkConst}.

Lemma render_loop_emits (P : Event -> Prop) :
  (forall st, emits P (render_iteration st)) ->
  forall fuel stop i st w,
  exists evs,
    trace (snd (render_loop fuel stop i st w)) = trace w ++ evs /\
    Forall P evs.
Proof.
  intros Hturn. induction fuel as [| fuel IH]; intros stop i st w;
    cbn [render_loop]; destruct (truthy _);
    try (exists []; cbn; by rewrite app_nil_r).
  destruct (emits_run P _ w (Hturn st)) as (e1 & Ht1 & H1).
  destruct (render_iteration st w) as [[st' | ex] w1]; cbn in Ht1.
  - match goal with |- context [render_loop fuel stop (S i) st' ?w2] =>
      destruct (IH stop (S i) st' w2) as (e2 & Ht2 & H2);
      assert (trace w2 = trace w1) as Hw2 by (by destruct (stop i))
    end.
    exists (e1 ++ e2). rewrite Ht2, Hw2, Ht1, app_assoc.
    split; [done |]. by apply Forall_app.
  - by exists e1.
Qed.

Lemma main_emits (P : Event -> Prop) :
  emits P TriangleApplication_init ->
  (forall st, emits P (render_iteration st)) ->
  forall fuel stop w,
  exists evs,
    trace (snd (main fuel stop w)) = trace w ++ evs /\ Forall P evs.
Proof.
  intros Hinit Hturn fuel stop w. unfold main.
  assert (emits P (bind TriangleApplication_init (fun _ => run))) as Hstart.
  { apply emits_bind; [done |]. intros _. emits_auto. }
  destruct (emits_run P _ w Hstart) as (e1 & Ht1 & H1).
  destruct (bind TriangleApplication_init _ w) as [[[] | ex] w1];
    cbn in Ht1.
  - unfold render. cbn [set snd].
    match goal with |- context [render_loop fuel stop 0 ?st ?w2] =>
      destruct (render_loop_emits P Hturn fuel stop 0%nat st w2)
        as (e2 & Ht2 & H2)
    end.
    cbn [trace] in Ht2. exists (e1 ++ e2). rewrite Ht2, Ht1, app_assoc.
    split; [done |]. by apply Forall_app.
  - by exists e1.
Qed.

(** What a [memmove] writes: the data and the number of bytes. *)
Definition uploaded (e : Event) : option (Val * Val) :=
  match fn e with
  | memmove => Some (nth 1 (args e) VNone, nth 2 (args e) VNone)
  | _ => None
  end.

(** A draw command records 3 indices of 1 instance (first index 0, vertex
    offset 0, first instance 1), in whatever command buffer. *)
Definition draws_triangle (e : Event) : Prop :=
  is_call CmdDrawIndexed e ->
  exists cmdbuf,
    args e = [cmdbuf; VInt 3; VInt 1; VInt 0; VInt 0; VInt 1].

Lemma draws_triangle_other f a r :
  match f with CmdDrawIndexed => False | _ => True end ->
  draws_triangle (mkEvent f a r).
Proof. intros H E. unfold is_call in E. cbn in E. by subst f. Qed.

Lemma draws_triangle_draw cmdbuf r :
  draws_triangle
    (mkEvent CmdDrawIndexed
       [cmdbuf; VInt 3; VInt 1; VInt 0; VInt 0; VInt 1] r).
Proof. intros _. by exists cmdbuf. Qed.

End Triangle.

#[export] Hint Resolve draws_triangle_draw : core.
#[export] Hint Extern 1 (draws_triangle _) =>
  apply draws_triangle_other; exact I : core.

Section TriangleClaim.

Context {vk : VkConst}.

(** C3.  The data of the triangle are three vertices, each a position and a
    color of three components: (1,1,0) red, (-1,1,0) green, (0,-1,0) blue,
    and the indices 0, 1, 2.  [create_triangle] uploads exactly these: its
    two [memmove] write the three vertices (72 bytes) and the three indices
    (12 bytes).  Every draw command recorded, by [init_command_buffers]
    and so in any run of the program and in any [resize_display], draws 3
    indices of 1 instance. *)
Theorem triangle_uploaded_and_drawn :
  vertices_data =
    [ mkVertex (Lit 1.0, Lit 1.0, Lit 0.0) (Lit 1.0, Lit 0.0, Lit 0.0);
      mkVertex (Lit (-1.0), Lit 1.0, Lit 0.0) (Lit 0.0, Lit 1.0, Lit 0.0);
      mkVertex (Lit 0.0, Lit (-1.0), Lit 0.0) (Lit 0.0, Lit 0.0, Lit 1.0) ] /\
  indices_data = [0; 1; 2] /\
  projects uploaded create_triangle
    [ (VList (map val_of_vertex vertices_data), VInt 72);
      (ints indices_data, VInt 12) ] /\
  emits draws_triangle init_command_buffers /\
  (forall fuel stop w,
      exists evs,
        trace (snd (main fuel stop w)) = trace w ++ evs /\
        Forall draws_triangle evs) /\
  (forall width height,
      emits draws_triangle (TriangleApplication_resize_display width height)).
Proof.
  split; [done |]. split; [done |]. split; [projects_auto |].
  split; [emits_auto |]. split.
  - apply main_emits; [| intros st]; emits_auto.
  - intros width height. emits_auto.
Qed.

End TriangleClaim.


(** * The render loop *)

Section Render.

Context {vk : VkConst}.

(** The Vulkan calls of a frame, by name. *)
Definition frame_call (e : Event) : option Api :=
  match fn e with
  | DeviceWaitIdle | AcquireNextImageKHR | QueueSubmit | QueueWaitIdle
  | QueuePresentKHR => Some (fn e)
  | _ => None
  end.

(** What one call of [draw] shows, and what one turn of the loop shows. *)
Definition draw_calls : list Api :=
  [AcquireNextImageKHR; QueueSubmit; QueueWaitIdle; QueueSubmit;
   QueuePresentKHR].

Definition frame : list Api :=
  DeviceWaitIdle :: draw_calls ++ [DeviceWaitIdle].


















End Render.

(** * The uniform buffer *)

Section Uniform.

Context {vk : VkConst}.

(** The three matrices of a frame, from the window dimensions, the rotation
    and the zoom. *)
Definition projection_matrix (width height : Z) : Mat :=
  perspective (Lit 60.0) (TrueDiv width height) (Lit 0.1) (Lit 256.0).

Definition model_matrix (rx ry rz : Num) : Mat :=
  rotate
    (Some (rotate (Some (rotate None rx (Lit 1.0, Lit 0.0, Lit 0.0)))
             ry (Lit 0.0, Lit 1.0, Lit 0.0)))
    rz (Lit 0.0, Lit 0.0, Lit 1.0).

Definition view_matrix (zoom : Num) : Mat :=
  translate None (Lit 0.0, Lit 0.0, zoom).

Definition frame_matrices (width height : Z) (rx ry rz zoom : Num) : Val :=
  VList [VMat (projection_matrix width height);
         VMat (model_matrix rx ry rz); VMat (view_matrix zoom)].

(** How [update_uniform_buffers] ends, [d] being the answer of the window to
    [dimensions()] and [mp] the answer to [MapMemory].  Unless the window
    raises or reports a height of 0, the three matrices are set; unless the
    mapped pointer is null, they are then written through it, all three in
    one [memmove] of three times the size of a [Mat4]. *)
Definition uniform_outcome (w : World) (rx ry rz zoom : Num)
    (res : Res unit) (w' : World) : Prop :=
  exists d,
    let dims := mkEvent Window_dimensions [] d in
    if negb (rc d =? 0) then
      res = Raise ExternalError /\ trace w' = trace w ++ [dims] /\
      attrs w' = attrs w
    else if out d 1 =? 0 then
      res = Raise ZeroDivisionError /\ trace w' = trace w ++ [dims] /\
      attrs w' = attrs w
    else
      let matrices := frame_matrices (out d 0) (out d 1) rx ry rz zoom in
      let matsize := sizeof_Mat4 * 3 in
      attrs w' self.matrices = matrices /\
      exists mp,
        let map := mkEvent MapMemory
                     [attrs w self.device; attrs w self.uniform_data_memory;
                      VInt 0; VInt matsize; VInt 0] mp in
        if out mp 0 =? 0 then
          res = Raise SegmentationFault /\ trace w' = trace w ++ [dims; map]
        else
          exists mm um,
            res = Ok tt /\
            trace w' =
              trace w ++
              [dims; map;
               mkEvent memmove [VInt (out mp 0); matrices; VInt matsize] mm;
               mkEvent UnmapMemory
                 [attrs w self.device; attrs w self.uniform_data_memory]
                 um].

(** C6.  With the rotation [(rx, ry, rz)] and the zoom [zoom],
    [update_uniform_buffers] sets and writes exactly three matrices: the
    perspective projection of 60 degrees with the aspect ratio width/height
    of the window, near 0.1 and far 256; the model matrix that rotates by
    [rx] about the x axis, then by [ry] about the y axis, then by [rz] about
    the z axis; and the view matrix that translates by (0, 0, zoom).  They
    are written into the memory of the uniform buffer, mapped for that. *)
Theorem update_uniform_buffers_writes_matrices
    (w : World) (rx ry rz zoom : Num) (m0 m1 m2 : Val) :
  attrs w self.rotation = VList [VNum rx; VNum ry; VNum rz] ->
  attrs w self.zoom = VNum zoom ->
  attrs w self.matrices = VList [m0; m1; m2] ->
  wp update_uniform_buffers (uniform_outcome w rx ry rz zoom) w.
Proof.
  intros Hrot Hzoom Hmat. unfold update_uniform_buffers.
  repeat first
    [ rewrite Hrot | rewrite Hzoom | rewrite Hmat
    | progress cbn [nth_error length Nat.ltb Nat.leb insert list_insert]
    | wp_step ].
  all: exists r; cbn zeta; rewrite ?Heqb, ?Heqb0; cbn [negb];
    rewrite <- ?app_assoc; cbn [app]; try done.
  all: split; [done |]; exists r0; rewrite ?Heqb1; try done.
  eexists _, _. done.
Qed.

End Uniform.

(** * Return codes *)

Section ReturnCodes.

Context {vk : VkConst}.

(** The entry points whose return code is tested at every place the program
    calls them, with nothing between the call and the test. *)
Definition strictly_checked (f : Api) : bool :=
  match f with
  | CreateInstance | CreateDevice | CreateCommandPool
  | AllocateCommandBuffers | BeginCommandBuffer | EndCommandBuffer
  | QueueSubmit | CreateImage | CreateImageView | CreateBuffer
  | AllocateMemory | BindImageMemory | BindBufferMemory
  | CreateRenderPass | CreatePipelineCache | CreateFramebuffer
  | CreateShaderModule | CreateDescriptorSetLayout
  | CreateGraphicsPipelines | AllocateDescriptorSets
  | GetPhysicalDeviceSurfaceCapabilitiesKHR | CreateSwapchainKHR
  | AcquireNextImageKHR | QueuePresentKHR => true
  | _ => false
  end.

(** The call sites whose return code is tested, as far as the entry point
    and the arguments tell them apart: besides the entry points above, the
    count query for the physical devices (line 292) and the query that
    fetches the swapchain images (line 185). *)
Definition tested (f : Api) (a : list Val) : bool :=
  match f, a with
  | EnumeratePhysicalDevices, [_; VNone] => true
  | GetSwapchainImagesKHR, [_; _; VInt _] => true
  | _, _ => strictly_checked f
  end.



Section Sites.

(** The call sites looked at. *)
Variable site : Api -> list Val -> bool.


















End Sites.

End ReturnCodes.




Section ReturnCodesClaim.

Context {vk : VkConst}.



(** The two sites that [tested] tells apart by the arguments. *)
Lemma tested_sites (x y : Val) (n : Z) :
  tested EnumeratePhysicalDevices [x; NULL] = true /\
  tested EnumeratePhysicalDevices [x; VInt n] = false /\
  tested GetSwapchainImagesKHR [x; y; VInt n] = true /\
  tested GetSwapchainImagesKHR [x; y; NULL] = false.
Proof. done. Qed.

(** Three places where the return code is kept and not tested, or tested
    wrongly: they return whatever the driver answers. *)
Lemma create_descriptor_pool_returns w :
  fst (create_descriptor_pool w) = Ok tt.
Proof. done. Qed.

Lemma create_descriptor_set_layout_ignores_pipeline_layout w :
  rc (driver w (tick w) CreateDescriptorSetLayout
        [attrs w self.device; VInt 1; VInt SHADER_STAGE_VERTEX_BIT])
  = SUCCESS ->
  fst (create_descriptor_set_layout w) = Ok tt.
Proof.
  intros H. unfold create_descriptor_set_layout, call_checked, bind, call,
    get, set, ret. cbn. apply Z.eqb_eq in H. rewrite H. done.
Qed.

Lemma create_semaphores_one_success_is_enough w :
  rc (driver w (tick w) CreateSemaphore [attrs w self.device]) = SUCCESS ->
  fst (create_semaphores w) = Ok tt.
Proof.
  intros H. unfold create_semaphores, when, bind, call, get, set, ret. cbn.
  rewrite H. rewrite bool_decide_true by (apply list_elem_of_here). done.
Qed.

End ReturnCodesClaim.

(** * Runs against a concrete driver *)

Section Runs.

#[local] Existing Instance vulkan_1_0.

Definition demo_driver (n : nat) (f : Api) (a : list Val) : Reply :=
  match f with
  | GetPhysicalDeviceFormatProperties => mkReply 0 [512]
  | EnumeratePhysicalDevices =>
      match a with [_; VNone] => mkReply 0 [1] | _ => mkReply 0 [77] end
  | GetPhysicalDeviceQueueFamilyProperties =>
      match a with [_; VNone] => mkReply 0 [2] | _ => mkReply 0 [4; 1] end
  | GetPhysicalDeviceSurfaceSupportKHR => mkReply 0 [1]
  | GetPhysicalDeviceMemoryProperties => mkReply 0 [1; 3]
  | GetBufferMemoryRequirements | GetImageMemoryRequirements =>
      mkReply 0 [64; 3]
  | GetPhysicalDeviceSurfaceCapabilitiesKHR =>
      mkReply 0 [640; 480; 2; 3; 1; 1]
  | GetPhysicalDeviceSurfacePresentModesKHR =>
      match a with [_; _; VNone] => mkReply 0 [2] | _ => mkReply 0 [2; 1] end
  | GetPhysicalDeviceSurfaceFormatsKHR =>
      match a with [_; _; VNone] => mkReply 0 [1] | _ => mkReply 0 [44; 0] end
  | GetSwapchainImagesKHR =>
      match a with
      | [_; _; VNone] => mkReply 0 [3]
      | _ => mkReply 0 [101; 102; 103]
      end
  | AllocateCommandBuffers => mkReply 0 [201; 202; 203]
  | Window_dimensions => mkReply 0 [640; 480]
  | MapMemory => mkReply 0 [4096]
  | AcquireNextImageKHR => mkReply 0 [Z.of_nat n mod 3]
  | loop_time => mkReply 0 [Z.of_nat n * 1000]
  | open_read => mkReply 0 [3; 2; 35; 7]
  | _ => mkReply 0 [Z.of_nat n + 1000]
  end.

Definition boot (d : nat -> Api -> list Val -> Reply) : World :=
  mkWorld (fun _ => VNone) [] 0 d.

Definition ready (d : nat -> Api -> list Val -> Reply) : World :=
  snd (TriangleApplication_init (boot d)).

Definition closes_second (n : nat) : bool := Nat.eqb n 1.

Definition ERROR_INITIALIZATION_FAILED : Z := -3.


Definition refused (e : Event) : bool := negb (rc (reply e) =? SUCCESS).




(** The results of the waits in the render loop are not looked at. *)
Definition never_idle (n : nat) (f : Api) (a : list Val) : Reply :=
  match f with
  | DeviceWaitIdle => mkReply (-4) []
  | _ => demo_driver n f a
  end.

Example refused_waits_pass :
  fst (render 5 closes_second (ready never_idle)) = Some (Ok tt) /\
  length (List.filter refused
            (trace (snd (render 5 closes_second (ready never_idle))))) = 4%nat.
Proof. split; vm_compute; reflexivity. Qed.



(** A refused [QueueWaitIdle] ends the construction: the first one is that
    of [flush_setup_buffer]. *)
Definition never_waits (n : nat) (f : Api) (a : list Val) : Reply :=
  match f with
  | QueueWaitIdle => mkReply ERROR_INITIALIZATION_FAILED []
  | _ => demo_driver n f a
  end.

Example refused_queue_wait_raises :
  fst (TriangleApplication_init (boot never_waits))
  = Raise (RuntimeError "Setup execution failed") /\
  option_map fn (last (trace (ready never_waits))) = Some QueueWaitIdle.
Proof. split; vm_compute; reflexivity. Qed.






Example render_two_frames :
  let w := ready demo_driver in
  let res := render 5 closes_second w in
  fst res = Some (Ok tt) /\
  omap frame_call (drop (length (trace w)) (trace (snd res)))
    = frame ++ frame /\
  attrs (snd res) self.rendering_done = VBool true.
Proof. repeat split; vm_compute; reflexivity. Qed.

(** [update_uniform_buffers] after the construction: no rotation, and the
    zoom of -2.5 that [__init__] sets. *)
Lemma update_uniform_buffers_writes_matrices_witness :
  let w := ready demo_driver in
  let zero := Lit 0 in
  attrs w self.rotation = VList [VNum zero; VNum zero; VNum zero] /\
  attrs w self.zoom = VNum (Lit (-2.5)) /\
  attrs w self.matrices = frame_matrices 640 480 zero zero zero (Lit (-2.5)) /\
  wp update_uniform_buffers (uniform_outcome w zero zero zero (Lit (-2.5))) w.
Proof.
  intros w zero.
  assert (Hrot : attrs w self.rotation
                 = VList [VNum zero; VNum zero; VNum zero])
    by (vm_compute; reflexivity).
  assert (Hzoom : attrs w self.zoom = VNum (Lit (-2.5)))
    by (vm_compute; reflexivity).
  assert (Hmat : attrs w self.matrices
                 = frame_matrices 640 480 zero zero zero (Lit (-2.5)))
    by (vm_compute; reflexivity).
  split; [exact Hrot |]. split; [exact Hzoom |]. split; [exact Hmat |].
  exact (update_uniform_buffers_writes_matrices w zero zero zero (Lit (-2.5))
           _ _ _ Hrot Hzoom Hmat).
Defined.

Example update_uniform_buffers_on_demo_driver :
  let w := ready demo_driver in
  let res := update_uniform_buffers w in
  fst res = Ok tt /\
  map fn (drop (length (trace w)) (trace (snd res)))
    = [Window_dimensions; MapMemory; memmove; UnmapMemory] /\
  attrs (snd res) self.matrices
    = frame_matrices 640 480 (Lit 0) (Lit 0) (Lit 0) (Lit (-2.5)).
Proof. repeat split; vm_compute; reflexivity. Qed.

(** [Swapchain.create] with a swapchain in place, as [resize_display] calls
    it: the driver accepts, the old views and the old swapchain are
    destroyed. *)
Lemma Swapchain_create_handle_from_driver_witness :
  let w := ready demo_driver in
  create_accepted w (fst (Swapchain_create w)) (snd (Swapchain_create w)).
Proof.
  intros w.
  destruct (Swapchain_create_handle_from_driver w) as [Hrefused | Haccepted].
  - destruct Hrefused as [Hraised _]. vm_compute in Hraised. discriminate.
  - exact Haccepted.
Defined.

Example Swapchain_create_on_demo_driver :
  let w := ready demo_driver in
  let res := Swapchain_create w in
  fst res = Ok tt /\
  attrs w self.swapchain_swapchain = VC 1022 /\
  attrs w self.swapchain_views = VList [VC 1026; VC 1028; VC 1030] /\
  attrs (snd res) self.swapchain_swapchain = VC 1157 /\
  omap (fun e => match fn e with
                 | CreateSwapchainKHR => Some (fn e, outs (reply e))
                 | DestroySwapchainKHR | DestroyImageView =>
                     Some (fn e, map as_int (take 1 (drop 1 (args e))))
                 | _ => None
                 end)
    (drop (length (trace w)) (trace (snd res)))
  = [ (CreateSwapchainKHR, [1157]); (DestroyImageView, [1026]);
      (DestroyImageView, [1028]); (DestroyImageView, [1030]);
      (DestroySwapchainKHR, [1022]) ].
Proof. repeat split; vm_compute; reflexivity. Qed.

(** A surface with the single format [FORMAT_UNDEFINED]. *)
Definition undefined_format (n : nat) (f : Api) (a : list Val) : Reply :=
  match f, a with
  | GetPhysicalDeviceSurfaceFormatsKHR, [_; _; VNone] => mkReply 0 [1]
  | GetPhysicalDeviceSurfaceFormatsKHR, _ => mkReply 0 [FORMAT_UNDEFINED; 0]
  | _, _ => demo_driver n f a
  end.

Lemma query_result (w : World) q :
  fst (Swapchain_create_query w) = Ok q ->
  Swapchain_create_query w = (Ok q, snd (Swapchain_create_query w)).
Proof. destruct (Swapchain_create_query w) as [r w1]. cbn. by intros ->. Qed.

(** On it, the selection is [FORMAT_UNDEFINED], not
    [FORMAT_B8G8R8A8_UNORM]. *)
Lemma Swapchain_create_selects_first_format_witness :
  let w := ready undefined_format in
  let w' := snd (Swapchain_create_query w) in
  let q := (3, FORMAT_UNDEFINED, 0, (640, 480), 1, PRESENT_MODE_MAILBOX_KHR) in
  Swapchain_create_query w = (Ok q, w') /\
  exists cap pc pf fc ff color_space rest,
    trace w' = trace w ++ query_events w cap pc pf fc ff /\
    attrs w' self.formats_color = VInt FORMAT_UNDEFINED /\
    surface_formats fc ff = (FORMAT_UNDEFINED, color_space) :: rest /\
    forall format space written,
      outs ff = format :: space :: written ->
      FORMAT_UNDEFINED = c_uint format.
Proof.
  intros w w' q.
  assert (E : Swapchain_create_query w = (Ok q, w')).
  { apply query_result. vm_compute. reflexivity. }
  split; [exact E |].
  destruct Swapchain_create_selects_first_format as [_ H].
  exact (H w q w' E).
Defined.

Ltac among := vm_compute; repeat constructor.

Ltac not_among :=
  vm_compute;
  let H := fresh in
  intros H;
  repeat (let H' := fresh in
          inversion_clear H as [| ? ? ? H']; rename H' into H).

(** The demo driver offers FIFO and MAILBOX, and between 2 and 3 images. *)
Lemma Swapchain_create_present_mode_and_image_count_witness :
  let w := ready demo_driver in
  let w' := snd (Swapchain_create_query w) in
  let q :=
    (3, FORMAT_B8G8R8A8_UNORM, 0, (640, 480), 1, PRESENT_MODE_MAILBOX_KHR) in
  Swapchain_create_query w = (Ok q, w') /\
  (exists cap pc pf fc ff,
     trace w' = trace w ++ query_events w cap pc pf fc ff /\
     3 = select_image_count (c_uint (out cap 2)) (c_uint (out cap 3)) /\
     PRESENT_MODE_MAILBOX_KHR = select_present_mode (present_modes pc pf)) /\
  select_present_mode [PRESENT_MODE_FIFO_KHR; PRESENT_MODE_MAILBOX_KHR]
    = PRESENT_MODE_MAILBOX_KHR /\
  select_present_mode [PRESENT_MODE_FIFO_KHR; PRESENT_MODE_IMMEDIATE_KHR]
    = PRESENT_MODE_IMMEDIATE_KHR /\
  select_present_mode [3] = PRESENT_MODE_FIFO_KHR /\
  select_image_count 2 2 = 2 /\
  select_image_count 2 0 = 3.
Proof.
  intros w w' q.
  assert (E : Swapchain_create_query w = (Ok q, w')).
  { apply query_result. vm_compute. reflexivity. }
  destruct Swapchain_create_present_mode_and_image_count
    as (Hmode & Hcount & Hquery).
  split; [exact E |]. split; [exact (Hquery w q w' E) |].
  split; [apply Hmode; among |].
  split; [apply Hmode; [not_among | among] |].
  split; [apply Hmode; not_among |].
  split; apply Hcount; lia.
Defined.

Example get_memory_type_on_two_types :
  get_memory_type [1; 3] 3 2 = (true, Some 1%nat) /\
  get_memory_type [1; 3] 2 1 = (true, Some 1%nat) /\
  get_memory_type [1; 3] 3 4 = (false, None) /\
  get_memory_type [1; 3] 4 1 = (false, None).
Proof. repeat split; vm_compute; reflexivity. Qed.

(** On the demonstration driver the construction returns with one pipeline
    made; making it again on that state loads the two shaders, makes the one
    call and stores the handle. *)
Lemma single_graphics_pipeline_witness :
  attrs (ready demo_driver) self.shaders_modules
  = VList [VC 1099; VC 1101] /\
  fst (TriangleApplication_init (boot demo_driver)) = Ok tt /\
  omap pipeline_count (trace (ready demo_driver)) = [VInt 1] /\
  fst (create_pipeline (ready demo_driver)) = Ok tt /\
  wp create_pipeline (fun res w' =>
    exists f1 m1 f2 m2,
      let loads := shader_loads (ready demo_driver) f1 m1 f2 m2 in
      if shaders_loaded f1 m1 f2 m2 then
        exists created,
          trace w' = trace (ready demo_driver) ++ loads ++
                     [pipeline_call (ready demo_driver) m1 m2 created] /\
          if rc created =? SUCCESS then
            res = Ok tt /\ attrs w' self.pipeline = VC (out created 0)
          else
            res = Raise (RuntimeError
                           "Failed to create the graphics pipeline") /\
            attrs w' self.pipeline = attrs (ready demo_driver) self.pipeline
      else
        raised res = true /\
        trace w' = trace (ready demo_driver) ++
                   take (loads_made f1 m1 f2 m2) loads /\
        attrs w' self.pipeline = attrs (ready demo_driver) self.pipeline)
    (ready demo_driver).
Proof.
  assert (attrs (ready demo_driver) self.shaders_modules
          = VList [VC 1099; VC 1101]) as Hm
    by (vm_compute; reflexivity).
  split; [exact Hm |].
  split; [vm_compute; reflexivity |].
  split; [vm_compute; reflexivity |].
  split; [vm_compute; reflexivity |].
  exact (proj1 single_graphics_pipeline (ready demo_driver) _ Hm).
Defined.

End Runs.

(** * Creations whose return code is not tested *)

Section Unchecked.

Context {vk : VkConst}.

(** [create_semaphores] (lines 889-904) always asks for two semaphores.  It
    raises only when neither call succeeded; when one of them did, both
    handles are stored, the one of the refused call too. *)
Theorem create_semaphores_raises_when_both_fail (w : World) :
  wp create_semaphores (fun res w' =>
    exists r1 r2,
      let device := attrs w self.device in
      trace w' = trace w ++ [mkEvent CreateSemaphore [device] r1;
                             mkEvent CreateSemaphore [device] r2] /\
      if (rc r1 =? SUCCESS) || (rc r2 =? SUCCESS) then
        res = Ok tt /\
        attrs w' self.render_semaphores_present = VC (out r1 0) /\
        attrs w' self.render_semaphores_render = VC (out r2 0)
      else
        res = Raise (RuntimeError "Failed to create the semaphores") /\
        attrs w' = attrs w) w.
Proof.
  unfold create_semaphores. repeat wp_step.
  all: exists r, r0; cbn zeta; rewrite <- app_assoc; split; [done |].
  all: rewrite ?negb_true_iff, ?negb_false_iff in Heqb.
  - apply bool_decide_eq_false in Heqb.
    destruct (rc r =? SUCCESS) eqn:H1.
    { apply Z.eqb_eq in H1. destruct Heqb. rewrite H1. apply list_elem_of_here. }
    destruct (rc r0 =? SUCCESS) eqn:H2; [| done].
    apply Z.eqb_eq in H2. destruct Heqb. rewrite H2.
    apply list_elem_of_further, list_elem_of_here.
  - apply bool_decide_eq_true in Heqb.
    apply elem_of_cons in Heqb as [H | H].
    { rewrite <- H, Z.eqb_refl. done. }
    apply elem_of_cons in H as [H | H]; [| by apply elem_of_nil in H].
    rewrite <- H, Z.eqb_refl, orb_true_r. done.
Qed.

(** [create_descriptor_pool] (lines 1295-1316) and the pipeline layout of
    [create_descriptor_set_layout] (lines 1137-1176): the return code is put
    in [result] and not looked at.  The handle is stored whatever the driver
    answered; [create_descriptor_pool] cannot raise, and
    [create_descriptor_set_layout] raises for the set layout only. *)
Theorem descriptor_pool_and_pipeline_layout_unchecked (w : World) :
  let device := attrs w self.device in
  wp create_descriptor_pool (fun res w' =>
    exists r,
      res = Ok tt /\
      trace w' = trace w ++
                 [mkEvent CreateDescriptorPool [device; VInt 1; VInt 1] r] /\
      attrs w' self.descriptor_pool = VC (out r 0)) w /\
  wp create_descriptor_set_layout (fun res w' =>
    exists r1,
      let e1 := mkEvent CreateDescriptorSetLayout
                  [device; VInt 1; VInt SHADER_STAGE_VERTEX_BIT] r1 in
      if rc r1 =? SUCCESS then
        exists r2,
          res = Ok tt /\
          trace w' = trace w ++
                     [e1; mkEvent CreatePipelineLayout
                            [device; VInt 1; VC (out r1 0); VInt 0] r2] /\
          attrs w' self.pipeline_layout = VC (out r2 0) /\
          attrs w' self.descriptor_set_layout = VC (out r1 0)
      else
        res = Raise (RuntimeError "Could not create descriptor set layout") /\
        trace w' = trace w ++ [e1] /\ attrs w' = attrs w) w.
Proof.
  cbn zeta. split.
  - unfold create_descriptor_pool. repeat wp_step. by exists r.
  - unfold create_descriptor_set_layout. repeat wp_step.
    + exists r. cbn zeta. rewrite Heqb. exists r0.
      by rewrite <- app_assoc.
    + exists r. cbn zeta. by rewrite Heqb.
Qed.

End Unchecked.

(** * More rules for [keeps] *)

Section KeepsSearches.

Context {vk : VkConst}.

Lemma keeps_find_queue_family a gpu surface l :
  forall supported index,
    keeps a (find_queue_family gpu surface supported index l).
Proof.
  induction l as [| q l IH]; intros supported index; cbn.
  - apply keeps_ret.
  - apply keeps_bind; [apply keeps_call |]. intros r.
    destruct (_ && _); [apply keeps_ret | apply IH].
Qed.

Lemma keeps_find_depth_format a gpu l :
  forall features, keeps a (find_depth_format gpu features l).
Proof.
  induction l as [| q l IH]; intros features; cbn.
  - apply keeps_ret.
  - apply keeps_bind; [apply keeps_call |]. intros r.
    destruct (negb _); [apply keeps_ret | apply IH].
Qed.

End KeepsSearches.

Ltac keeps_all :=
  repeat lazymatch goal with
         | |- keeps _ (find_queue_family _ _ _ _ _) =>
             apply keeps_find_queue_family
         | |- keeps _ (find_depth_format _ _ _) =>
             apply keeps_find_depth_format
         | |- _ => keeps_step
         end.


(** * [resize_display] before [run] *)

Section ResizeBeforeRun.

Context {vk : VkConst}.

Lemma bind_assoc {A B C} (m : M A) (k1 : A -> M B) (k2 : B -> M C) w :
  bind (bind m k1) k2 w = bind m (fun x => bind (k1 x) k2) w.
Proof. unfold bind. by destruct (m w) as [[a | e] w1]. Qed.

Lemma TriangleApplication_init_not_initialized w :
  attrs (snd (TriangleApplication_init w)) self.initialized = VBool false.
Proof.
  unfold TriangleApplication_init, Application_init.
  rewrite bind_assoc.
  match goal with
  | |- attrs (snd (bind (set ?a ?v) ?k w)) _ = _ =>
      change (bind (set a v) k w) with (k tt (snd (set a v w)));
      assert (Hk : keeps self.initialized (k tt)) by (cbv beta; keeps_all)
  end.
  rewrite Hk. reflexivity.
Qed.

(** [__init__] leaves [initialized] false, and [resize_display] (lines
    1488-1498 and 756-782) returns at once while it is: a resize that comes
    after the construction and before [run()] makes no call and changes
    nothing, however the construction ended.  After [run()] this is no longer
    so: the first thing a resize does is to allocate a setup buffer. *)
Theorem resize_display_before_run (w : World) (width height : Z) :
  let w1 := snd (TriangleApplication_init w) in
  TriangleApplication_resize_display width height w1 = (Ok tt, w1) /\
  Application_resize_display width height w1 = (Ok tt, w1) /\
  attrs (snd (run w1)) self.initialized = VBool true.
Proof.
  cbn zeta.
  pose proof (TriangleApplication_init_not_initialized w) as H.
  unfold TriangleApplication_resize_display, Application_resize_display,
    bind, get. cbn. rewrite H. done.
Qed.

End ResizeBeforeRun.

(** * More on runs *)

(** What is known of a computation from its syntax alone carries over to
    every run of it. *)
Lemma wp_of_emits {A} (P : Event -> Prop) (m : M A)
    (Q : Res A -> World -> Prop) w :
  emits P m ->
  (forall r w', (exists evs, trace w' = trace w ++ evs /\ Forall P evs) ->
                Q r w') ->
  wp m Q w.
Proof. intros He HQ. apply HQ. by apply emits_run. Qed.

Lemma wp_conj {A} (m : M A) (Q1 Q2 : Res A -> World -> Prop) w :
  wp m Q1 w -> wp m Q2 w -> wp m (fun r w' => Q1 r w' /\ Q2 r w') w.
Proof. unfold wp. auto. Qed.

(** * The create-info of the swapchain *)

Section SwapchainCreateInfo.

Context {vk : VkConst}.

(** Neither a swapchain creation nor a question to the window. *)
Definition plain (e : Event) : Prop :=
  fn e <> CreateSwapchainKHR /\ fn e <> Window_dimensions.

(** The create-info [Swapchain.create] builds (lines 150-161) from the
    answers [cap], [pc], [pf], [fc] and [ff] of the surface. *)
Definition create_info (w : World) (cap pc pf : Reply)
    (color_format color_space : Z) : list Val :=
  let old := attrs w self.swapchain_swapchain in
  [ attrs w self.device; attrs w self.swapchain_surface;
    VInt (c_uint (select_image_count (c_uint (out cap 2))
                    (c_uint (out cap 3))));
    VInt color_format; VInt color_space;
    VInt (c_uint (out cap 0)); VInt (c_uint (out cap 1));
    VInt (select_transform (c_uint (out cap 4)) (c_uint (out cap 5)));
    VInt (select_present_mode (present_modes pc pf));
    if truthy old then old else VC 0 ].

Lemma Swapchain_create_query_plain w :
  wp Swapchain_create_query (fun _ w' =>
    exists evs, trace w' = trace w ++ evs /\ Forall plain evs) w.
Proof.
  unfold Swapchain_create_query.
  repeat wp_step;
    try match goal with
        | H : eq_int (VInt (c_uint _)) (-1) = true |- _ =>
            by rewrite eq_int_c_uint_m1 in H
        end.
  all: eexists; (split; [rewrite <- ?app_assoc; reflexivity |]).
  all: repeat constructor; done.
Qed.

(** [Swapchain.create] (lines 84-172) never asks the window for its
    dimensions: the test [cap.current_extent.width == -1] is on an unsigned
    field.  When the driver is asked for a swapchain, it is asked once, after
    the five questions to the surface, and the create-info holds what the
    surface answered: the extent is the current extent of the capabilities
    as it is, the format and color space are those of the first surface
    format, and the old swapchain is the stored handle, or a null handle when
    none or a null one is stored. *)
Theorem Swapchain_create_info_from_surface (w : World) :
  wp Swapchain_create (fun res w' =>
    exists evs,
      trace w' = trace w ++ evs /\
      (Forall plain evs \/
       exists cap pc pf fc ff color_format color_space formats created rest,
         evs = query_events w cap pc pf fc ff ++
               mkEvent CreateSwapchainKHR
                 (create_info w cap pc pf color_format color_space) created
               :: rest /\
         surface_formats fc ff = (color_format, color_space) :: formats /\
         Forall plain rest)) w.
Proof.
  unfold Swapchain_create. apply wp_bind.
  eapply wp_mono.
  { apply (wp_conj _ _ _ _ (Swapchain_create_query_spec w)
             (Swapchain_create_query_plain w)). }
  intros [q | ex] w1 [H Hw].
  - clear Hw. destruct q as [[[[[image_count color_format] color_space] extent]
                      transform] present_mode].
    destruct H as (cap & pc & pf & fc & ff & formats & -> & _ & -> & -> & ->
                   & -> & Hf).
    do 3 (apply wp_bind; apply wp_get; wp_simpl).
    apply wp_bind. unfold call_checked. apply wp_bind. apply wp_call.
    intros created. wp_simpl.
    destruct (rc created =? SUCCESS).
    + apply wp_ret. wp_simpl. apply (wp_of_emits plain).
      { unfold plain. emits_auto. }
      wp_simpl. intros res w' (rest & -> & Hrest). eexists.
      rewrite <- !app_assoc. split; [reflexivity |]. right.
      exists cap, pc, pf, fc, ff, color_format, color_space, formats,
        created, rest.
      done.
    + apply wp_raise. wp_simpl. eexists.
      rewrite <- !app_assoc. split; [reflexivity |]. right.
      exists cap, pc, pf, fc, ff, color_format, color_space, formats,
        created, [].
      done.
  - destruct Hw as (evs & Ht & Hp). exists evs. split; [done | by left].
Qed.

End SwapchainCreateInfo.

(** * [draw] and the acquired image *)

Section Draw.

Context {vk : VkConst}.

Definition acquire (w : World) (a : Reply) : Event :=
  mkEvent AcquireNextImageKHR
    [attrs w self.device; attrs w self.swapchain_swapchain; VC (2 ^ 64 - 1);
     attrs w self.render_semaphores_present; VC 0] a.

(** The four calls of a frame after the image with index [cb] was acquired:
    the post-present buffer, the wait, the draw buffer, the presentation. *)
Definition frame_events (w : World) (cb : nat) (prebuf drawbuf : Val)
    (s1 wi s2 p : Reply) : list Event :=
  let queue := attrs w self.queue in
  let present := attrs w self.render_semaphores_present in
  let render := attrs w self.render_semaphores_render in
  [ mkEvent QueueSubmit [queue; VInt 1; VList [prebuf]; VC 0] s1;
    mkEvent QueueWaitIdle [queue] wi;
    mkEvent QueueSubmit
      [queue; VInt 1;
       VList [VInt PIPELINE_STAGE_BOTTOM_OF_PIPE_BIT; present; render;
              drawbuf];
       VC 0] s2;
    mkEvent QueuePresentKHR
      [queue;
       VList [attrs w self.swapchain_swapchain; VInt (Z.of_nat cb); render]]
      p ].

(** [draw] (lines 1507-1571) works on the image whose index the driver
    wrote: when it returns, it has submitted the post-present buffer and the
    draw buffer stored at that index and has presented the image of that
    index.  An index outside the buffers raises [IndexError]; for the
    post-present buffers that is right after the image was acquired, with
    nothing submitted.  No attribute is changed. *)
Theorem draw_uses_acquired_index (w : World) (post draws : list Val) :
  attrs w self.post_present_buffers = VList post ->
  attrs w self.draw_buffers = VList draws ->
  wp draw (fun res w' =>
    attrs w' = attrs w /\
    exists a evs,
      trace w' = trace w ++ acquire w a :: evs /\
      let cb := Z.to_nat (c_uint (out a 0)) in
      (rc a = SUCCESS -> nth_error post cb = None ->
       res = Raise IndexError /\ evs = []) /\
      match res with
      | Ok _ =>
          exists prebuf drawbuf s1 wi s2 p,
            nth_error post cb = Some prebuf /\
            nth_error draws cb = Some drawbuf /\
            evs = frame_events w cb prebuf drawbuf s1 wi s2 p
      | Raise IndexError =>
          nth_error post cb = None /\ evs = [] \/
          nth_error draws cb = None /\
          map fn evs = [QueueSubmit; QueueWaitIdle]
      | Raise _ => True
      end) w.
Proof.
  intros Hpost Hdraws. unfold draw.
  repeat first [ rewrite Hpost | rewrite Hdraws | wp_step ].
  all: split; [done |]; exists r; eexists; rewrite <- ?app_assoc;
    (split; [reflexivity |]); cbn zeta.
  all: repeat match goal with
              | H : (_ =? _) = true |- _ => apply Z.eqb_eq in H
              | H : (_ =? _) = false |- _ => apply Z.eqb_neq in H
              end.
  all: split; [intros; try congruence |]; try done.
  - eexists _, _, _, _, _, _. done.
  - by right.
  - by left.
Qed.

End Draw.

(** * The two searches: queue family and depth format *)

Section Searches.

Context {vk : VkConst}.

(** The value of the one [c_uint] (or structure field) that every call of a
    search writes into, after each of the calls answered by [rs]: a call that
    writes nothing leaves the value of the call before. *)
Fixpoint written (old : Z) (rs : list Reply) : list Z :=
  match rs with
  | [] => []
  | r :: rs' => let s := c_uint (out_or old r 0) in s :: written s rs'
  end.

(** A queue family to draw and present with (line 325). *)
Definition graphics_and_present (queue_flags supported : Z) : bool :=
  negb (Z.land queue_flags QUEUE_GRAPHICS_BIT =? 0) && (supported =? 1).

Fixpoint support_queries (gpu surface : Val) (index : nat) (rs : list Reply)
  : list Event :=
  match rs with
  | [] => []
  | r :: rs' =>
      mkEvent GetPhysicalDeviceSurfaceSupportKHR
        [gpu; VInt (Z.of_nat index); surface] r
      :: support_queries gpu surface (S index) rs'
  end.

(** The outcome of a search that stops at the first hit: [k] is the position
    of the first item that [hit] accepts together with the value written by
    the call made for it, and the calls made are those for the items up to
    [k]; or no item is accepted and a call was made for each. *)
Definition first_hit {A} (hit : A -> Z -> bool) (items : list A)
    (values : list Z) (found : option nat) : Prop :=
  (forall j x s, (match found with Some k => (j < k)%nat | None => True end) ->
                 items !! j = Some x -> values !! j = Some s ->
                 hit x s = false) /\
  match found with
  | Some k =>
      length values = S k /\
      exists x s, items !! k = Some x /\ values !! k = Some s /\
                  hit x s = true
  | None => length values = length items
  end.

Lemma first_hit_here {A} (hit : A -> Z -> bool) x items s values :
  hit x s = true -> values = [] ->
  first_hit hit (x :: items) (s :: values) (Some 0%nat).
Proof.
  intros H ->. split; [intros; lia |]. split; [done |]. by exists x, s.
Qed.

Lemma first_hit_later {A} (hit : A -> Z -> bool) x items s values found :
  hit x s = false ->
  first_hit hit items values found ->
  first_hit hit (x :: items) (s :: values) (S <$> found).
Proof.
  intros H [Hbefore Hfound]. split.
  - intros [| j] x' s' Hj; cbn.
    + by intros [= <-] [= <-].
    + apply Hbefore. destruct found; cbn in *; [lia | done].
  - destruct found as [k |]; cbn in *.
    + destruct Hfound as (Hlen & Hx). split; [by rewrite Hlen | done].
    + by rewrite Hfound.
Qed.

Lemma find_queue_family_spec gpu surface queue_families :
  forall supported index w,
    wp (find_queue_family gpu surface supported index queue_families)
      (fun res w' =>
         attrs w' = attrs w /\
         exists rs found,
           trace w' = trace w ++ support_queries gpu surface index rs /\
           res = Ok ((fun k => (index + k)%nat) <$> found) /\
           first_hit graphics_and_present queue_families
             (written supported rs) found) w.
Proof.
  induction queue_families as [| queue_flags rest IH];
    intros supported index w; cbn [find_queue_family].
  - apply wp_ret. split; [done |]. exists [], None. cbn.
    rewrite app_nil_r. repeat split; done.
  - apply wp_bind, wp_call. intros r. wp_simpl.
    destruct (_ && _) eqn:Hhit.
    + apply wp_ret. wp_simpl. split; [done |]. exists [r], (Some 0%nat).
      cbn. rewrite Nat.add_0_r. split; [done |]. split; [done |].
      by apply first_hit_here.
    + eapply wp_mono; [apply IH |]. wp_simpl.
      intros res w' (Ha & rs & found & Ht & -> & Hf). split; [done |].
      exists (r :: rs), (S <$> found). rewrite Ht, <- app_assoc. cbn.
      split; [done |]. split.
      * destruct found; cbn; [| done]. do 2 f_equal. lia.
      * by apply first_hit_later.
Qed.

(** [create_device], lines 322-327: the queue family chosen is the first one
    that has the graphics bit and for which the driver answered that the
    surface is supported; the driver is asked about the families up to that
    one and no further.  When there is none, every family was asked
    about. *)
Theorem find_queue_family_first_suitable gpu surface queue_families w :
  wp (find_queue_family gpu surface 0 0%nat queue_families)
    (fun res w' =>
       attrs w' = attrs w /\
       exists rs found,
         trace w' = trace w ++ support_queries gpu surface 0 rs /\
         res = Ok found /\
         first_hit graphics_and_present queue_families (written 0 rs) found)
    w.
Proof.
  eapply wp_mono; [apply find_queue_family_spec |]. cbn beta.
  intros res w' (Ha & rs & found & Ht & -> & Hf). split; [done |].
  exists rs, found. split; [done |]. split; [| done]. by destruct found.
Qed.

Ltac wp_upto_search :=
  repeat lazymatch goal with
         | |- wp (find_queue_family _ _ _ _ _) _ _ => fail
         | |- wp (find_depth_format _ _ _) _ _ => fail
         | |- _ => wp_step
         end.



(** A format that can be a depth and stencil attachment (line 481). *)
Definition depth_stencil_attachment (format features : Z) : bool :=
  negb (Z.land features FORMAT_FEATURE_DEPTH_STENCIL_ATTACHMENT_BIT =? 0).

Fixpoint format_queries (gpu : Val) (formats : list Z) (rs : list Reply)
    {struct rs} : list Event :=
  match rs, formats with
  | r :: rs', format :: formats' =>
      mkEvent GetPhysicalDeviceFormatProperties [gpu; VInt format] r
      :: format_queries gpu formats' rs'
  | _, _ => []
  end.

Lemma find_depth_format_spec gpu depth_formats :
  forall features w,
    wp (find_depth_format gpu features depth_formats)
      (fun res w' =>
         attrs w' = attrs w /\
         exists rs found,
           trace w' = trace w ++ format_queries gpu depth_formats rs /\
           res = Ok (found ≫= (depth_formats !!.)) /\
           first_hit depth_stencil_attachment depth_formats
             (written features rs) found) w.
Proof.
  induction depth_formats as [| format rest IH]; intros features w;
    cbn [find_depth_format].
  - apply wp_ret. split; [done |]. exists [], None. cbn.
    rewrite app_nil_r. repeat split; done.
  - apply wp_bind, wp_call. intros r. wp_simpl.
    destruct (negb _) eqn:Hhit.
    + apply wp_ret. wp_simpl. split; [done |]. exists [r], (Some 0%nat).
      cbn. split; [done |]. split; [done |]. by apply first_hit_here.
    + eapply wp_mono; [apply IH |]. wp_simpl.
      intros res w' (Ha & rs & found & Ht & -> & Hf). split; [done |].
      exists (r :: rs), (S <$> found). rewrite Ht, <- app_assoc. cbn.
      split; [done |]. split; [destruct found; reflexivity |].
      by apply first_hit_later.
Qed.

(** The depth formats in the order of preference (lines 470-476). *)
Definition depth_formats : list Z :=
  [FORMAT_D32_SFLOAT_S8_UINT; FORMAT_D32_SFLOAT; FORMAT_D24_UNORM_S8_UINT;
   FORMAT_D16_UNORM_S8_UINT; FORMAT_D16_UNORM].

(** [create_depth_stencil] (lines 465-547) takes the first of the five
    depth formats that the GPU reports as usable for a depth and stencil
    attachment with optimal tiling, asking about the formats in the order of
    preference and no further than the first usable one.  The image it asks
    for next has that format and the dimensions of the window.  When none of
    the five is usable it raises [RuntimeError] and asks for no image. *)
Theorem create_depth_stencil_first_usable_format (w : World) :
  wp create_depth_stencil (fun res w' =>
    exists d,
      let gpu := attrs w self.gpu in
      let dims := mkEvent Window_dimensions [] d in
      if negb (rc d =? 0) then
        res = Raise ExternalError /\ trace w' = trace w ++ [dims]
      else
        exists rs found,
          first_hit depth_stencil_attachment depth_formats (written 0 rs)
            found /\
          match found ≫= (depth_formats !!.) with
          | None =>
              res = Raise (RuntimeError "Could not find a valid depth format")
              /\ trace w' = trace w ++
                            dims :: format_queries gpu depth_formats rs
              /\ attrs w' = attrs w
          | Some depth_format =>
              exists image rest,
                trace w' =
                  trace w ++ dims :: format_queries gpu depth_formats rs ++
                  mkEvent CreateImage
                    [attrs w self.device; VInt depth_format;
                     VInt (c_uint (out d 0)); VInt (c_uint (out d 1)); VInt 1]
                    image
                  :: rest /\
                Forall (fun e => fn e <> CreateImage /\
                                 fn e <> GetPhysicalDeviceFormatProperties)
                  rest /\
                (res = Ok tt ->
                 attrs w' self.formats_depth = VInt depth_format /\
                 attrs w' self.depth_stencil_image = VC (out image 0))
          end) w.
Proof.
  unfold create_depth_stencil. wp_upto_search.
  2: { exists r. cbn zeta. by rewrite Heqb. }
  fold depth_formats.
  eapply wp_mono; [apply find_depth_format_spec |].
  wp_simpl. intros res w1 (Ha & rs & found & Ht & -> & Hf).
  destruct w1 as [a1 t1 k1 d1]. cbn in Ha, Ht. subst a1 t1.
  eapply wp_mono;
    [| intros res w' H; exists r; cbv zeta; rewrite Heqb; exact H ].
  destruct (found ≫= _) as [depth_format |] eqn:Hfound; wp_simpl.
  2: { apply wp_bind, wp_raise. wp_simpl. exists rs, found.
       rewrite Hfound, <- app_assoc. done. }
  repeat wp_step.
  all: exists rs, found; (split; [exact Hf |]); rewrite Hfound.
  all: rewrite <- !app_assoc; cbn [app]; eexists _, _;
    (split; [reflexivity |]).
  all: split; [repeat constructor; done |].
  all: try done.
Qed.

End Searches.

(** * [set_image_layout] and its table of source layouts *)

Section ImageLayout.

#[local] Existing Instance vulkan_1_0.

(** The access masks that are the values of [old_map]. *)
Definition old_map_values : list Z :=
  [ ACCESS_SHADER_READ_BIT; ACCESS_DEPTH_STENCIL_ATTACHMENT_WRITE_BIT;
    ACCESS_TRANSFER_READ_BIT;
    Z.lor ACCESS_HOST_WRITE_BIT ACCESS_TRANSFER_WRITE_BIT ].

(** The source and destination access masks as a function of the new layout
    alone. *)
Definition masks_of_new_layout (new_layout : Z) : Z * Z :=
  if new_layout =? IMAGE_LAYOUT_TRANSFER_DST_OPTIMAL then
    (0, ACCESS_TRANSFER_WRITE_BIT)
  else if new_layout =? IMAGE_LAYOUT_TRANSFER_SRC_OPTIMAL then
    (ACCESS_TRANSFER_READ_BIT, ACCESS_TRANSFER_READ_BIT)
  else if new_layout =? IMAGE_LAYOUT_COLOR_ATTACHMENT_OPTIMAL then
    (ACCESS_TRANSFER_READ_BIT, ACCESS_COLOR_ATTACHMENT_WRITE_BIT)
  else if new_layout =? IMAGE_LAYOUT_DEPTH_STENCIL_ATTACHMENT_OPTIMAL then
    (0, ACCESS_DEPTH_STENCIL_ATTACHMENT_WRITE_BIT)
  else if new_layout =? IMAGE_LAYOUT_SHADER_READ_ONLY_OPTIMAL then
    (Z.lor ACCESS_HOST_WRITE_BIT ACCESS_TRANSFER_WRITE_BIT,
     ACCESS_SHADER_READ_BIT)
  else (0, 0).

Definition layout_barrier (cmd image : Val)
    (aspect_mask old_layout new_layout : Z) (r : Reply) : Event :=
  mkEvent CmdPipelineBarrier
    [cmd; VInt PIPELINE_STAGE_TOP_OF_PIPE_BIT;
     VInt PIPELINE_STAGE_TOP_OF_PIPE_BIT; VInt 0; VInt 0; NULL; VInt 0; NULL;
     VInt 1;
     VList [VInt (fst (masks_of_new_layout new_layout));
            VInt (snd (masks_of_new_layout new_layout)); VInt old_layout;
            VInt new_layout; image; VInt aspect_mask]] r.

Lemma old_map_values_eq : (map_to_list old_map).*2 = old_map_values.
Proof. vm_compute. reflexivity. Qed.

Lemma old_map_lookup_value old_layout :
  old_layout ∈ old_map_values -> old_map !! old_layout = None.
Proof.
  unfold old_map_values. intros H.
  repeat (apply elem_of_cons in H as [-> | H]; [vm_compute; reflexivity |]).
  by apply elem_of_nil in H.
Qed.

(** [set_image_layout] (lines 661-716), with the constants of the Vulkan 1.0
    headers.  The table of source layouts is searched by its values, the
    access masks, and then indexed by the layout: no layout of the table is
    among the masks, so the table never gives a source mask.  An old layout
    whose number is one of the four masks raises [KeyError] and records
    nothing; every other old layout, those of the table too, records one
    barrier whose two masks depend on the new layout only. *)
Theorem set_image_layout_table_never_used
    (cmd image : Val) (aspect_mask old_layout new_layout : Z) (w : World) :
  wp (set_image_layout cmd image aspect_mask old_layout new_layout)
    (fun res w' =>
       if bool_decide (old_layout ∈ old_map_values) then
         res = Raise KeyError /\ w' = w
       else
         exists r,
           res = Ok tt /\
           w' = mkWorld (attrs w)
                  (trace w ++ [layout_barrier cmd image aspect_mask
                                 old_layout new_layout r])
                  (S (tick w)) (driver w)) w.
Proof.
  unfold set_image_layout. rewrite old_map_values_eq.
  apply wp_bind. case_bool_decide as Hin.
  - rewrite (old_map_lookup_value _ Hin). apply wp_raise. by destruct w.
  - apply wp_ret. repeat wp_step. exists r. unfold layout_barrier.
    assert (masks_of_new_layout new_layout = (z, z0)) as -> by exact Heqp.
    done.
Qed.

End ImageLayout.

(** * The images and views of the swapchain *)

Section SwapchainImages.

Context {vk : VkConst}.

(** The view a [CreateImageView] call wrote, with the image it is of. *)
Definition view_created (e : Event) : option (Val * Val) :=
  match fn e, args e with
  | CreateImageView, [_; image; _] => Some (image, VC (out (reply e) 0))
  | _, _ => None
  end.

Definition image_queries (w : World) (count images : Reply) : list Event :=
  let device := attrs w self.device in
  let swapchain := attrs w self.swapchain_swapchain in
  [ mkEvent GetSwapchainImagesKHR [device; swapchain; NULL] count;
    mkEvent GetSwapchainImagesKHR
      [device; swapchain; VInt (c_uint (out count 0))] images ].

Lemma insert_next (created : list Val) (v x : Val) (zeros : list Val) :
  <[length created := v]> (created ++ x :: zeros) = created ++ v :: zeros.
Proof.
  rewrite <- (Nat.add_0_r (length created)). by rewrite insert_app_r.
Qed.

Lemma view_created_step evs barrier device image format r :
  fn barrier = CmdPipelineBarrier ->
  omap view_created
    (evs ++ [barrier; mkEvent CreateImageView [device; image; format] r])
  = omap view_created evs ++ [(image, VC (out r 0))].
Proof.
  intros Hb. rewrite omap_app. cbn. unfold view_created at 2.
  by rewrite Hb.
Qed.

Lemma filled_length n written : length (filled n written) = n.
Proof.
  unfold filled. rewrite length_firstn, length_app, repeat_length. lia.
Qed.

(** The outcome of [Swapchain.create_images], by what the driver answered
    to the count query [count] and to the query for the images [written],
    with the events [evs] that follow the two queries. *)
Definition images_outcome (req_image_count : Z) (w : World)
    (res : Res unit) (w' : World) : Prop :=
  exists count,
    let image_count := c_uint (out count 0) in
    if negb (rc count =? SUCCESS) && negb (req_image_count =? image_count)
    then
      res = Raise (RuntimeError "Failed to get the swapchain images") /\
      trace w' = trace w ++
                 [mkEvent GetSwapchainImagesKHR
                    [attrs w self.device; attrs w self.swapchain_swapchain;
                     NULL] count] /\
      attrs w' = attrs w
    else
      exists written evs,
        let images := filled (Z.to_nat image_count) (outs written) in
        trace w' = trace w ++ image_queries w count written ++ evs /\
        attrs w' self.swapchain_images = ints images /\
        if rc written =? SUCCESS then
          match res with
          | Ok _ =>
              omap view_created evs
              = zip (map VInt images) (omap view_created evs).*2 /\
              attrs w' self.swapchain_views
              = VList (omap view_created evs).*2 /\
              length (omap view_created evs) = length images
          | Raise e =>
              e = KeyError \/
              e = RuntimeError "Failed to create an image view." /\
              exists before refused,
                evs = before ++ [refused] /\
                fn refused = CreateImageView /\
                rc (reply refused) <> SUCCESS
          end
        else res = Raise AssertionError /\ evs = [].

Lemma Swapchain_create_images_outcome
    (req_image_count color_format : Z) (w : World) :
  wp (Swapchain_create_images req_image_count color_format)
    (images_outcome req_image_count w) w.
Proof.
  unfold Swapchain_create_images, images_outcome.
  repeat first [ progress unfold ints | wp_step ].
  1: { exists r. cbn zeta. rewrite Heqb. done. }
  2: { exists r. cbn zeta. rewrite Heqb. exists r0, [].
       rewrite app_nil_r, <- app_assoc, Heqb0. done. }
  set (images := filled (Z.to_nat (c_uint (out r 0))) (outs r0)).
  set (base := (trace w ++ _) ++ _).
  apply (wp_for_each _
    (fun i rest w1 =>
       exists evs,
         let created := omap view_created evs in
         trace w1 = base ++ evs /\
         created.*1 ++ rest = map VInt images /\
         length created = i /\
         attrs w1 self.swapchain_views
         = VList (created.*2 ++ repeat (VInt 0) (length rest)) /\
         attrs w1 self.swapchain_images = VList (map VInt images))).
  - intros i image rest w1 (evs & Ht & Hseen & Hlen & Hviews & Himages).
    cbn zeta in *.
    assert (forall e, fn e = CmdPipelineBarrier ->
                      omap view_created (evs ++ [e]) = omap view_created evs)
      as Hbarrier.
    { intros e He. rewrite omap_app. cbn. unfold view_created at 2.
      rewrite He. by rewrite app_nil_r. }
    repeat first [ rewrite Hviews | wp_step ].
    all: try (exists r; cbn zeta; rewrite Heqb; cbn [negb andb]).
    (* the three ways the body raises *)
    all: try (exists r0; cbn zeta; rewrite Heqb0).
    all: lazymatch goal with
         | |- exists _, _ /\ _ /\ (IndexError = _ \/ _) =>
             exfalso;
             match goal with
             | H : (_ <? _)%nat = false |- _ =>
                 apply Nat.ltb_ge in H;
                 rewrite length_app, length_fmap, Hlen in H;
                 cbn [length repeat] in H; lia
             end
         | |- exists _, _ /\ _ /\ (KeyError = _ \/ _) =>
             exists evs; subst base; rewrite Ht, <- !app_assoc;
             split; [reflexivity |]; split; [exact Himages |]; by left
         | |- exists _, (_ ++ [?b]) ++ [?c] = _ /\ _ /\ (_ = _ \/ _) =>
             exists (evs ++ [b; c]); subst base; rewrite Ht, <- !app_assoc;
             split; [reflexivity |]; split; [exact Himages |]; right;
             split; [reflexivity |]; exists (evs ++ [b]), c;
             rewrite <- app_assoc; split; [reflexivity |];
             split; [reflexivity |]; cbn [reply];
             match goal with
             | H : (rc _ =? SUCCESS) = false |- _ => by apply Z.eqb_neq
             end
         | |- _ => idtac
         end.
    all: match goal with
         | |- exists _, (_ ++ [?b]) ++ [?c] = _ /\ _ => exists (evs ++ [b; c])
         end; rewrite Ht; subst base.
    all: (split; [by rewrite <- !app_assoc |]).
    all: rewrite view_created_step by done.
    all: rewrite !fmap_app, <- !app_assoc; cbn [fmap list_fmap app fst snd].
    all: (split; [done |]); rewrite length_app, Hlen.
    all: (split; [cbn; lia |]); (split; [| done]).
    all: rewrite <- Hlen, <- (length_fmap snd); cbn [length repeat].
    all: by rewrite insert_next.
  - intros i w1 (evs & Ht & Hseen & Hlen & Hviews & Himages).
    cbn zeta in *. rewrite app_nil_r in Hseen, Hviews. subst images.
    exists r. cbn zeta. rewrite Heqb. exists r0, evs. rewrite Heqb0.
    subst base. rewrite Ht, <- !app_assoc.
    split; [done |]. split; [done |].
    split; [| split; [done |]].
    + by rewrite <- Hseen, zip_fst_snd.
    + by rewrite <- (length_fmap fst), Hseen, length_map.
  - exists []. cbn. rewrite app_nil_r. repeat split; try done.
    subst images. by rewrite length_map, filled_length, map_repeat.
Qed.

(** What is used of it below: the arrays after a [create_images] that
    returned. *)
Lemma Swapchain_create_images_spec
    (req_image_count color_format : Z) (w : World) :
  wp (Swapchain_create_images req_image_count color_format) (fun res w' =>
    exists count,
      let image_count := c_uint (out count 0) in
      if negb (rc count =? SUCCESS) && negb (req_image_count =? image_count)
      then
        res = Raise (RuntimeError "Failed to get the swapchain images") /\
        trace w' = trace w ++
                   [mkEvent GetSwapchainImagesKHR
                      [attrs w self.device; attrs w self.swapchain_swapchain;
                       NULL] count] /\
        attrs w' = attrs w
      else
        exists written evs,
          let images := filled (Z.to_nat image_count) (outs written) in
          trace w' = trace w ++ image_queries w count written ++ evs /\
          attrs w' self.swapchain_images = ints images /\
          (res = Ok tt ->
           omap view_created evs
           = zip (map VInt images) (omap view_created evs).*2 /\
           attrs w' self.swapchain_views
           = VList (omap view_created evs).*2 /\
           length (omap view_created evs) = length images)) w.
Proof.
  eapply wp_mono; [apply Swapchain_create_images_outcome |]. cbn beta.
  intros res w' (count & H). exists count. cbn zeta in *.
  destruct (negb _ && negb _); [done |].
  destruct H as (written & evs & Ht & Hi & H). exists written, evs.
  split; [done |]. split; [done |]. intros ->.
  destruct (rc written =? SUCCESS); [done | by destruct H as ([=] & _)].
Qed.

(** [Swapchain.create_images] (lines 174-216), by the answers of the
    driver.  The count query is always made.  When it is refused and the
    count written differs from the count asked for, [RuntimeError] is raised
    with nothing else called and no attribute changed; a refused query with
    the count asked for passes, and so does any accepted one, whatever the
    count.  Then the images are asked for, [images] holds as many entries
    as were counted, as the driver wrote them, and a refusal of that query
    raises [AssertionError] with nothing more called.  After that, when
    [create_images] returns, [views] holds one view for each image, in the
    same order: the handle written by the [CreateImageView] call made for
    that image.  When it raises, its last call was a refused
    [CreateImageView], or the layout table of [set_image_layout] raised
    [KeyError]. *)
Theorem create_images_one_view_per_image
    (req_image_count color_format : Z) (w : World) :
  wp (Swapchain_create_images req_image_count color_format) (fun res w' =>
    exists count,
      let image_count := c_uint (out count 0) in
      if negb (rc count =? SUCCESS) && negb (req_image_count =? image_count)
      then
        res = Raise (RuntimeError "Failed to get the swapchain images") /\
        trace w' = trace w ++
                   [mkEvent GetSwapchainImagesKHR
                      [attrs w self.device; attrs w self.swapchain_swapchain;
                       NULL] count] /\
        attrs w' = attrs w
      else
        exists written evs,
          let images := filled (Z.to_nat image_count) (outs written) in
          trace w' = trace w ++ image_queries w count written ++ evs /\
          attrs w' self.swapchain_images = ints images /\
          if rc written =? SUCCESS then
            match res with
            | Ok _ =>
                omap view_created evs
                = zip (map VInt images) (omap view_created evs).*2 /\
                attrs w' self.swapchain_views
                = VList (omap view_created evs).*2 /\
                length (omap view_created evs) = length images
            | Raise e =>
                e = KeyError \/
                e = RuntimeError "Failed to create an image view." /\
                exists before refused,
                  evs = before ++ [refused] /\
                  fn refused = CreateImageView /\
                  rc (reply refused) <> SUCCESS
            end
          else res = Raise AssertionError /\ evs = []) w.
Proof.
  eapply wp_mono; [apply Swapchain_create_images_outcome |].
  unfold images_outcome. intros res w' (count & H). by exists count.
Qed.

End SwapchainImages.

(** * The arrays with one entry per image *)





Section Arrays.

Context {vk : VkConst}.

Definition array_length (v : Val) : option nat :=
  match v with VList l => Some (length l) | _ => None end.


(** The five arrays that are made with one entry per image of the swapchain
    (lines 182-183, 441-442 and 627). *)
Definition per_image : list self.Attr :=
  [ self.swapchain_images; self.swapchain_views; self.framebuffers;
    self.draw_buffers; self.post_present_buffers ].







Lemma agree_array la w n a :
  Forall (fun a => array_length (attrs w a) = Some n) la -> a ∈ la ->
  exists l, attrs w a = VList l /\ length l = n.
Proof.
  intros Hn Ha. rewrite Forall_forall in Hn. specialize (Hn a Ha).
  destruct (attrs w a); try done. eexists. split; [done |].
  by injection Hn.
Qed.





End Arrays.

Ltac among_list :=
  repeat first [ apply list_elem_of_here | apply list_elem_of_further ].




Section ArraysAgree.

Context {vk : VkConst}.






End ArraysAgree.

(** * The recorded command buffers *)

Section CommandBuffers.

Context {vk : VkConst}.

(** What [init_command_buffers] records into a post-present buffer and
    into a draw buffer. *)
Definition post_present_commands : list Api :=
  [BeginCommandBuffer; CmdPipelineBarrier; EndCommandBuffer].

Definition draw_commands : list Api :=
  [ BeginCommandBuffer; CmdBeginRenderPass; CmdSetViewport; CmdSetScissor;
    CmdBindDescriptorSets; CmdBindPipeline; CmdBindVertexBuffers;
    CmdBindIndexBuffer; CmdDrawIndexed; CmdEndRenderPass; CmdPipelineBarrier;
    EndCommandBuffer ].

(** [k] times the list [l]. *)
Definition times {X} (k : nat) (l : list X) : list X :=
  concat (replicate k l).

Lemma times_S {X} k (l : list X) : times (S k) l = times k l ++ l.
Proof.
  unfold times. induction k as [| k IH].
  - cbn. by rewrite app_nil_r.
  - change (l ++ concat (replicate (S k) l)
            = (l ++ concat (replicate k l)) ++ l).
    by rewrite IH, app_assoc.
Qed.

(** [init_command_buffers] (lines 1347-1465), when the arrays with one
    entry per image have the same length [n]: the images and framebuffers
    are indexed within bounds, so [IndexError] is not raised.  [TypeError]
    is raised in one case only, [byref(self.descriptor_set)] at line 1418
    with no descriptor set stored: that is in the first draw buffer, after
    the [n] post-present buffers were recorded and the render pass, the
    viewport and the scissor were recorded into the draw buffer.  When
    [init_command_buffers] returns it has recorded, after asking the window
    for its dimensions, the three commands of a post-present buffer [n]
    times and then the twelve commands of a draw buffer [n] times, the draw
    being inside its render pass and after the pipeline, the vertex and the
    index buffer are bound; a descriptor set was stored then, unless there
    is no image.  No attribute is changed. *)
Theorem init_command_buffers_in_bounds (w : World) (n : nat) :
  Forall (fun a => array_length (attrs w a) = Some n) per_image ->
  wp init_command_buffers (fun res w' =>
    res <> Raise IndexError /\
    attrs w' = attrs w /\
    (res = Raise TypeError ->
     is_none (attrs w self.descriptor_set) = true /\
     exists evs,
       trace w' = trace w ++ evs /\
       map fn evs = Window_dimensions :: times n post_present_commands ++
                    [BeginCommandBuffer; CmdBeginRenderPass; CmdSetViewport;
                     CmdSetScissor]) /\
    (res = Ok tt ->
     (is_none (attrs w self.descriptor_set) = true -> n = 0%nat) /\
     exists evs,
       trace w' = trace w ++ evs /\
       map fn evs = Window_dimensions :: times n post_present_commands ++
                    times n draw_commands)) w.
Proof.
  intros Hn.
  destruct (agree_array per_image w n self.swapchain_images Hn)
    as (images & Hi & Hli); [among_list |].
  destruct (agree_array per_image w n self.framebuffers Hn)
    as (fbs & Hf & Hlf); [among_list |].
  destruct (agree_array per_image w n self.draw_buffers Hn)
    as (draws & Hd & Hld); [among_list |].
  destruct (agree_array per_image w n self.post_present_buffers Hn)
    as (posts & Hp & Hlp); [among_list |].
  unfold init_command_buffers.
  repeat first [ rewrite Hp | wp_step ]; try done.
  set (dims := mkEvent Window_dimensions [] r).
  apply (wp_for_each _
    (fun i rest w1 =>
       attrs w1 = attrs w /\ (i + length rest = n)%nat /\
       exists evs,
         trace w1 = trace w ++ dims :: evs /\
         map fn evs = times i post_present_commands)).
  - intros i cmdbuf rest w1 (Ha & Hir & evs & Ht & Hfn).
    cbn [length] in Hir.
    repeat first [ rewrite Ha | rewrite Hi | wp_step ]; try done.
    + split; [done |]. split; [lia |]. eexists (evs ++ [_; _; _]).
      rewrite Ht, <- !app_assoc. split; [done |].
      by rewrite map_app, Hfn, times_S.
    + apply nth_error_None in Heqo. lia.
  - intros i w1 (Ha & Hir & evs & Ht & Hfn). cbn [length] in Hir.
    rewrite Nat.add_0_r in Hir. subst i.
    repeat first [ rewrite Ha | rewrite Hd | wp_step ].
    apply (wp_for_each _
      (fun i rest w2 =>
         attrs w2 = attrs w /\ (i + length rest = n)%nat /\
         (i <> 0%nat -> is_none (attrs w self.descriptor_set) = false) /\
         exists evs',
           trace w2 = trace w ++ dims :: evs ++ evs' /\
           map fn evs' = times i draw_commands)).
    + intros i cmdbuf rest w2 (Ha2 & Hir & Hset & evs' & Ht2 & Hfn').
      cbn [length] in Hir.
      repeat first [ rewrite Ha2 | rewrite Hi | rewrite Hf
                   | progress unfold byref | wp_step ];
        try done.
      * split; [done |]. split; [done |]. split; [| done]. intros _.
        split; [done |].
        destruct i as [| i]; [| specialize (Hset ltac:(lia)); congruence].
        destruct evs'; [| done].
        eexists. rewrite Ht2, <- !app_assoc. cbn [app].
        rewrite <- !app_assoc. split; [reflexivity |].
        cbn [map app fn]. by rewrite map_app, Hfn.
      * split; [done |]. split; [lia |]. split; [done |].
        eexists (evs' ++ [_; _; _; _; _; _; _; _; _; _; _; _]).
        rewrite Ht2, <- !app_assoc. cbn [app]. rewrite <- !app_assoc.
        split; [done |]. by rewrite map_app, Hfn', times_S.
      * apply nth_error_None in Heqo0. lia.
      * apply nth_error_None in Heqo. lia.
    + intros i w2 (Ha2 & Hir & Hset & evs' & Ht2 & Hfn').
      cbn [length] in Hir.
      rewrite Nat.add_0_r in Hir. subst i.
      split; [done |]. split; [done |]. split; [done |]. intros _.
      split.
      { intros Hnone. destruct n; [done |].
        specialize (Hset ltac:(lia)). congruence. }
      exists (dims :: evs ++ evs').
      split; [done |]. cbn. by rewrite map_app, Hfn, Hfn'.
    + split; [done |]. split; [lia |]. split; [done |]. exists [].
      by rewrite app_nil_r.
  - split; [done |]. split; [lia |]. by exists [].
Qed.

End CommandBuffers.

(** * The setup buffer *)

Section SetupBuffer.

Context {vk : VkConst}.

Definition frees_setup_buffer (w : World) (buffer : Val) (r : Reply)
  : Event :=
  mkEvent FreeCommandBuffers
    [attrs w self.device; attrs w self.cmd_pool; VInt 1; buffer] r.

(** [create_setup_buffer] (lines 408-432) and [flush_setup_buffer] (lines
    638-659).  A setup buffer that is still stored is freed before the new
    one is allocated.  When [create_setup_buffer] returns, the buffer stored
    is the one the driver wrote and recording was begun on it; when the
    allocation is refused no buffer is stored any more.
    [flush_setup_buffer] ends, submits and frees the stored buffer, waiting
    for the queue in between, and stores [None]; when it raises, nothing was
    freed and the buffer stays stored. *)
Theorem setup_buffer_freed_once (w : World) :
  let old := attrs w self.setup_buffer in
  let queue := attrs w self.queue in
  wp create_setup_buffer (fun res w' =>
    exists freed alloc,
      let frees := if is_none old then []
                   else [frees_setup_buffer w old freed] in
      let allocate :=
        mkEvent AllocateCommandBuffers
          [attrs w self.device; attrs w self.cmd_pool; VInt 1] alloc in
      if rc alloc =? SUCCESS then
        exists begun,
          trace w' = trace w ++ frees ++
                     [allocate;
                      mkEvent BeginCommandBuffer [VC (out alloc 0)] begun] /\
          attrs w' self.setup_buffer = VC (out alloc 0) /\
          res = if rc begun =? SUCCESS then Ok tt
                else Raise (RuntimeError
                       "Failed to start recording in the setup buffer")
      else
        trace w' = trace w ++ frees ++ [allocate] /\
        attrs w' self.setup_buffer = VNone /\
        res = Raise (RuntimeError "Failed to create setup buffer")) w /\
  wp flush_setup_buffer (fun res w' =>
    match res with
    | Ok _ =>
        exists ended submitted idle freed,
          trace w' = trace w ++
                     [ mkEvent EndCommandBuffer [old] ended;
                       mkEvent QueueSubmit [queue; VInt 1; old; VInt 0]
                         submitted;
                       mkEvent QueueWaitIdle [queue] idle;
                       frees_setup_buffer w old freed ] /\
          attrs w' self.setup_buffer = VNone
    | Raise _ =>
        attrs w' = attrs w /\
        exists evs,
          trace w' = trace w ++ evs /\
          Forall (fun e => fn e <> FreeCommandBuffers) evs
    end) w.
Proof.
  cbn zeta. split.
  - unfold create_setup_buffer, frees_setup_buffer. repeat wp_step.
    all: rewrite ?negb_true_iff, ?negb_false_iff in Heqb; rewrite Heqb.
    all: first [ exists r, r0; cbn zeta; rewrite Heqb0; exists r1
               | exists r, r0; cbn zeta; rewrite Heqb0
               | exists r, r; cbn zeta; rewrite Heqb0; exists r0
               | exists r, r; cbn zeta; rewrite Heqb0 ].
    all: rewrite <- ?app_assoc, ?Heqb1; cbn [app]; try done.
    all: repeat split; try done.
    all: by destruct (attrs w self.setup_buffer).
  - unfold flush_setup_buffer, frees_setup_buffer. repeat wp_step.
    all: rewrite <- ?app_assoc.
    all: try (split; [done |]; eexists;
              split; [reflexivity |]; repeat constructor; done).
    by exists r, r0, r1, r2.
Qed.

End SetupBuffer.

(** * The order of destruction *)

(** A call by its name and arguments. *)
Definition key (e : Event) : Api * list Val := (fn e, args e).

(** [m] makes calls that satisfy [P] and then, when it returns, the calls
    [L] and nothing after them. *)
Definition ends_with {A} (P : Event -> Prop) (L : list (Api * list Val))
    (m : M A) : Prop :=
  traces (fun evs => exists before last,
                       evs = before ++ last /\ Forall P before /\
                       map key last = L)
         (Forall P) m.

Lemma ends_with_bind {A B} P L (m : M A) (k : A -> M B) :
  emits P m -> (forall a, ends_with P L (k a)) -> ends_with P L (bind m k).
Proof.
  intros Hm Hk. eapply traces_bind; [exact Hm | exact Hk | ..]; cbn.
  - done.
  - intros e1 e2 H1 (before & last & -> & Hb & Hl).
    exists (e1 ++ before), last. rewrite app_assoc.
    split; [done |]. split; [by apply Forall_app | done].
  - intros e1 e2 H1 H2. by apply Forall_app.
Qed.

Lemma ends_with_call P f a :
  ends_with P [(f, a)] (call f a ;; ret tt).
Proof.
  intros w. eexists. cbn. split; [reflexivity |]. eexists [], [_].
  cbn. by repeat split.
Qed.

(** What is known of a computation from its syntax carries over to a run. *)
Lemma wp_of_traces {A} (Qok Qex : list Event -> Prop) (m : M A)
    (Q : Res A -> World -> Prop) w :
  traces Qok Qex m -> (forall a, keeps a m) ->
  (forall r w' evs,
      (forall a, attrs w' a = attrs w a) -> trace w' = trace w ++ evs ->
      (if raised r then Qex evs else Qok evs) -> Q r w') ->
  wp m Q w.
Proof.
  intros Ht Hk HQ. destruct (Ht w) as (evs & He & H).
  apply (HQ _ _ evs); [intros a; apply Hk | done | done].
Qed.

Lemma wp_of_emits_keeps {A} (P : Event -> Prop) (m : M A)
    (Q : Res A -> World -> Prop) w :
  emits P m -> (forall a, keeps a m) ->
  (forall r w' evs,
      (forall a, attrs w' a = attrs w a) -> trace w' = trace w ++ evs ->
      Forall P evs -> Q r w') ->
  wp m Q w.
Proof.
  intros He Hk HQ. apply (wp_of_traces _ _ _ _ _ He Hk).
  intros r w' evs Ha Ht H. apply (HQ r w' evs Ha Ht).
  by destruct (raised r).
Qed.

Lemma wp_of_ends_with {A} (P : Event -> Prop) L (m : M A)
    (Q : Res A -> World -> Prop) w :
  ends_with P L m -> (forall a, keeps a m) ->
  (forall r w' evs,
      (forall a, attrs w' a = attrs w a) -> trace w' = trace w ++ evs ->
      (if raised r then Forall P evs
       else exists before last,
              evs = before ++ last /\ Forall P before /\
              map key last = L) ->
      Q r w') ->
  wp m Q w.
Proof. apply wp_of_traces. Qed.

Section Destruction.

Context {vk : VkConst}.

(** Neither the device nor the instance is destroyed by this call. *)
Definition of_a_child (e : Event) : Prop :=
  fn e <> DestroyDevice /\ fn e <> DestroyInstance.

(** The calls that end a destruction: the device, when there is one, and
    then the instance. *)
Definition closing (w : World) : list (Api * list Val) :=
  let device := attrs w self.device in
  let instance := attrs w self.instance in
  if is_none instance then []
  else (if is_none device then [] else [(DestroyDevice, [device; NULL])])
       ++ [(DestroyInstance, [instance; NULL])].

Ltac ends_with_auto :=
  repeat lazymatch goal with
         | |- ends_with _ _ (bind (call DestroyDevice _) _) =>
             apply ends_with_call
         | |- ends_with _ _ (bind _ _) =>
             apply ends_with_bind;
             [unfold of_a_child; emits_auto | intros ?]
         end.

(** [TriangleApplication.__del__] with [Application.__del__] (lines
    1645-1667 and 833-882).  Whatever is stored, the device is destroyed
    after everything else that is destroyed and the instance after that,
    each one only when it is stored: when [__del__] returns, its last calls
    are [DestroyDevice] on the stored device and [DestroyInstance] on the
    stored instance.  With no device stored nothing else is destroyed, and
    with no instance stored neither the device nor the instance is.  When
    [__del__] raises, neither was destroyed.  No attribute is cleared. *)
Theorem del_destroys_device_then_instance (w : World) :
  wp TriangleApplication_del (fun res w' =>
    (forall a, attrs w' a = attrs w a) /\
    exists children last,
      trace w' = trace w ++ children ++ last /\
      Forall of_a_child children /\
      (is_none (attrs w self.device) = true -> children = []) /\
      map key last = if raised res then [] else closing w) w.
Proof.
  unfold TriangleApplication_del, closing. apply wp_bind, wp_get. wp_simpl.
  destruct (is_none (attrs w self.device)) eqn:Hdev; cbn [negb when].
  - apply wp_bind, wp_ret. unfold Application_del.
    apply wp_bind, wp_get.
    destruct (is_none (attrs w self.instance)) eqn:Hinst.
    { apply wp_ret. split; [done |]. exists [], []. by rewrite app_nil_r. }
    apply wp_bind, wp_get. rewrite Hdev. cbn [negb when].
    unfold ENABLE_VALIDATION, when. repeat wp_step.
    split; [done |]. eexists [], [_]. cbn. by repeat split.
  - apply wp_bind.
    apply (wp_of_emits_keeps of_a_child).
    { unfold of_a_child. emits_auto. }
    { intros a. keeps_all. }
    intros res w1 evs Ha Ht Hch.
    destruct res as [[] | e]; cbv beta iota.
    2: { split; [done |]. exists evs, []. rewrite app_nil_r. done. }
    unfold Application_del. apply wp_bind, wp_get. rewrite Ha.
    destruct (is_none (attrs w self.instance)) eqn:Hinst.
    { apply wp_ret. split; [done |]. exists evs, [].
      rewrite app_nil_r. done. }
    apply wp_bind, wp_get. rewrite Ha, Hdev. cbn [negb when].
    apply wp_bind.
    apply (wp_of_ends_with of_a_child
             [(DestroyDevice, [attrs w self.device; NULL])]).
    { ends_with_auto. }
    { intros a. keeps_all. }
    intros res w2 evs2 Ha2 Ht2 H2.
    destruct res as [[] | e]; cbn [raised] in H2; cbv beta iota.
    2: { split; [by intros a; rewrite Ha2 |]. exists (evs ++ evs2), [].
         rewrite Ht2, Ht, app_nil_r, <- app_assoc.
         repeat split; try done. by apply Forall_app. }
    destruct H2 as (before & last & -> & Hb & Hl).
    unfold ENABLE_VALIDATION, when. repeat wp_step.
    split; [by intros a; rewrite Ha2 |].
    rewrite Ht2, Ht, <- !app_assoc.
    match goal with
    | |- context [mkEvent DestroyInstance ?a ?r] =>
        exists (evs ++ before), (last ++ [mkEvent DestroyInstance a r])
    end.
    split; [by rewrite <- !app_assoc |].
    split; [by apply Forall_app |]. split; [done |].
    by rewrite map_app, Hl.
Qed.

End Destruction.

(** * What is obtained and what is released *)

(** The kinds of objects that the program obtains from the driver and gives
    back. *)
Inductive Kind : Type :=
| a_buffer | a_memory | a_command_buffer | a_shader_module.

Section Resources.

Context {vk : VkConst}.

(** The handle a successful call obtained. *)
Definition obtained (e : Event) : option (Kind * Z) :=
  if rc (reply e) =? SUCCESS then
    match fn e with
    | CreateBuffer => Some (a_buffer, out (reply e) 0)
    | AllocateMemory => Some (a_memory, out (reply e) 0)
    | AllocateCommandBuffers => Some (a_command_buffer, out (reply e) 0)
    | CreateShaderModule => Some (a_shader_module, out (reply e) 0)
    | _ => None
    end
  else None.

(** The handle a call released. *)
Definition released (e : Event) : option (Kind * Z) :=
  match fn e, args e with
  | DestroyBuffer, [_; VC h; _] => Some (a_buffer, h)
  | FreeMemory, [_; VC h; _] => Some (a_memory, h)
  | FreeCommandBuffers, [_; _; _; VC h] => Some (a_command_buffer, h)
  | DestroyShaderModule, [_; VC h; _] => Some (a_shader_module, h)
  | _, _ => None
  end.

Definition modules_of (l : list (Kind * Z)) : list Val :=
  omap (fun x => match x with
                 | (a_shader_module, h) => Some (VC h)
                 | _ => None
                 end) l.

(** [create_pipeline] with [load_shader] (lines 1178-1293 and 727-754).
    Every shader module that was created is put at the end of
    [shaders_modules], the list that [__del__] destroys, as soon as it is
    created: at every exit of [create_pipeline], also when a shader or the
    pipeline is refused, the list has grown by the modules created during
    the call, in the order of creation.  When [create_pipeline] returns,
    these are two, the vertex and the fragment shader. *)
Theorem create_pipeline_registers_modules (w : World) (modules : list Val) :
  attrs w self.shaders_modules = VList modules ->
  wp create_pipeline (fun res w' =>
    exists evs,
      trace w' = trace w ++ evs /\
      attrs w' self.shaders_modules
      = VList (modules ++ modules_of (omap obtained evs)) /\
      omap released evs = [] /\
      (res = Ok tt -> length (modules_of (omap obtained evs)) = 2%nat)) w.
Proof.
  intros Hm. unfold create_pipeline.
  repeat first [ rewrite Hm | wp_step ].
  all: rewrite <- ?app_assoc; cbn [app].
  all: eexists; (split; [reflexivity |]).
  all: unfold modules_of, obtained; cbn [omap list_omap fn reply args
                                           released].
  all: rewrite ?Heqb0, ?Heqb2, ?Heqb3, ?Heqb4, ?Heqb5; cbn.
  all: repeat match goal with
              | |- context [if ?b then _ else _] => destruct b
              end; cbn.
  all: rewrite ?app_nil_r, <- ?app_assoc; try done.
Qed.

Lemma omap_obtained_skip (e : Event) (l : list Event) :
  obtained e = None -> omap obtained (e :: l) = omap obtained l.
Proof. intros H. cbn [omap list_omap]. by rewrite H. Qed.

Lemma omap_obtained_take (e : Event) (l : list Event) (x : Kind * Z) :
  obtained e = Some x -> omap obtained (e :: l) = x :: omap obtained l.
Proof. intros H. cbn [omap list_omap]. by rewrite H. Qed.

Lemma obtained_unchecked (f : Api) (a : list Val) (r : Reply) :
  match f with
  | CreateBuffer | AllocateMemory | AllocateCommandBuffers
  | CreateShaderModule => False
  | _ => True
  end ->
  obtained (mkEvent f a r) = None.
Proof. unfold obtained. cbn [fn reply]. by destruct f, (rc r =? SUCCESS). Qed.

Lemma obtained_checked (f : Api) (a : list Val) (r : Reply) (k : Kind) :
  (rc r =? SUCCESS) = true ->
  match f with
  | CreateBuffer => Some a_buffer
  | AllocateMemory => Some a_memory
  | AllocateCommandBuffers => Some a_command_buffer
  | CreateShaderModule => Some a_shader_module
  | _ => None
  end = Some k ->
  obtained (mkEvent f a r) = Some (k, out r 0).
Proof.
  unfold obtained. cbn [fn reply]. intros ->.
  destruct f; intros [=]; by subst.
Qed.

(** [create_triangle] (lines 933-1097) makes four buffers with their
    memory, the first and the third for staging, and one command buffer for
    the copy.  When it returns, it has given back the command buffer and the
    two staging buffers with their memory, and nothing else: the second and
    the fourth buffer stay.  When it raises, at whatever step, it has given
    back nothing: what was obtained up to there stays allocated. *)
Theorem create_triangle_releases_staging (w : World) :
  wp create_triangle (fun res w' =>
    exists evs,
      trace w' = trace w ++ evs /\
      match res with
      | Ok _ =>
          exists b1 m1 b2 m2 b3 m3 b4 m4 c,
            omap obtained evs
            = [ (a_buffer, b1); (a_memory, m1); (a_buffer, b2);
                (a_memory, m2); (a_buffer, b3); (a_memory, m3);
                (a_buffer, b4); (a_memory, m4); (a_command_buffer, c) ] /\
            omap released evs
            = [ (a_command_buffer, c); (a_buffer, b1); (a_memory, m1);
                (a_buffer, b3); (a_memory, m3) ]
      | Raise _ => omap released evs = []
      end) w.
Proof.
  unfold create_triangle.
  repeat first [ progress unfold buffer_memory_requirements,
                   memory_type_index, py_memmove, describe_bindings
               | wp_step ].
  all: rewrite <- ?app_assoc; cbn [app].
  all: eexists; (split; [reflexivity |]).
  all: cbv beta iota.
  all: lazymatch goal with
       | |- omap released _ = [] => reflexivity
       | |- _ => idtac
       end.
  eexists _, _, _, _, _, _, _, _, _.
  split; [| reflexivity].
  repeat first
    [ rewrite omap_obtained_skip by (by apply obtained_unchecked)
    | erewrite omap_obtained_take
        by (apply obtained_checked; [eassumption | reflexivity]) ].
  reflexivity.
Qed.

End Resources.

(** * Creating the views and destroying them *)

Section SwapchainRoundTrip.

Context {vk : VkConst}.

(** The call that destroys the view [view]. *)
Definition destroy_view (w : World) (view : Val) : Api * list Val :=
  (DestroyImageView, [attrs w self.device; view; NULL]).

Lemma destroys_view_keys w views ds :
  Forall2 (destroys_view w) views ds ->
  map key ds = map (destroy_view w) views.
Proof.
  induction 1 as [| view e views ds [Hf Ha] _ IH]; [done |].
  cbn. rewrite IH. unfold key, destroy_view. by rewrite Hf, Ha.
Qed.

(** [Swapchain.create_images] followed by [Swapchain.destroy_swapchain]
    (lines 174-216 and 218-222).  After a [create_images] that returned,
    [destroy_swapchain] returns too, and what it destroys is what was made:
    one [DestroyImageView] for each view that a [CreateImageView] call of
    [create_images] wrote, in the order of creation, and then one
    [DestroySwapchainKHR] on the stored swapchain.  It makes no other call
    and changes no attribute: the views and the handle stay stored. *)
Theorem destroy_swapchain_destroys_created_views
    (req_image_count color_format : Z) (w : World) :
  let w1 := snd (Swapchain_create_images req_image_count color_format w) in
  fst (Swapchain_create_images req_image_count color_format w) = Ok tt ->
  exists made,
    trace w1 = trace w ++ made /\
    wp Swapchain_destroy_swapchain (fun res w2 =>
      res = Ok tt /\ attrs w2 = attrs w1 /\
      exists gone,
        trace w2 = trace w1 ++ gone /\
        map key gone
        = map (destroy_view w) (omap view_created made).*2 ++
          [(DestroySwapchainKHR,
            [attrs w self.device; attrs w self.swapchain_swapchain; NULL])])
      w1.
Proof.
  cbn zeta. intros Hok.
  assert (keeps self.device
            (Swapchain_create_images req_image_count color_format)) as Hdev
    by keeps_auto.
  pose proof (Swapchain_create_images_keeps req_image_count color_format)
    as Hswap.
  specialize (Hdev w). specialize (Hswap w).
  destruct (Swapchain_create_images_spec req_image_count color_format w)
    as (count & H).
  cbn zeta in H. rewrite Hok in H.
  destruct (negb _ && negb _); [by destruct H as ([=] & _) |].
  destruct H as (written & evs & Ht & _ & H).
  destruct (H eq_refl) as (_ & Hviews & _). clear H.
  exists (image_queries w count written ++ evs). split; [exact Ht |].
  eapply wp_mono; [apply Swapchain_destroy_swapchain_spec |]. cbn beta.
  intros res w2 (Ha & H). rewrite Hviews in H. cbn [sequence] in H.
  destruct H as (-> & ds & d & Ht2 & Hds & Hf & Hargs).
  split; [done |]. split; [done |].
  exists (ds ++ [d]). split; [done |].
  rewrite map_app, (destroys_view_keys _ _ _ Hds).
  rewrite omap_app. cbn [image_queries omap list_omap view_created fn args app].
  unfold destroy_view, key. cbn [map]. rewrite Hf, Hargs, Hdev, Hswap.
  done.
Qed.

End SwapchainRoundTrip.

(** * The operations on the state that the demonstration driver leaves *)

Section ReadyRuns.

#[local] Existing Instance vulkan_1_0.

(** After the construction on the demonstration driver there are three
    post-present and three draw buffers; [draw] returns and changes no
    attribute. *)
Lemma draw_uses_acquired_index_witness :
  attrs (ready demo_driver) self.post_present_buffers
  = VList [VInt 201; VInt 202; VInt 203] /\
  attrs (ready demo_driver) self.draw_buffers
  = VList [VInt 201; VInt 202; VInt 203] /\
  fst (draw (ready demo_driver)) = Ok tt /\
  attrs (snd (draw (ready demo_driver))) = attrs (ready demo_driver).
Proof.
  assert (attrs (ready demo_driver) self.post_present_buffers
          = VList [VInt 201; VInt 202; VInt 203]) as Hpost
    by (vm_compute; reflexivity).
  assert (attrs (ready demo_driver) self.draw_buffers
          = VList [VInt 201; VInt 202; VInt 203]) as Hdraws
    by (vm_compute; reflexivity).
  split; [exact Hpost |]. split; [exact Hdraws |].
  split; [vm_compute; reflexivity |].
  exact (proj1 (draw_uses_acquired_index (ready demo_driver) _ _
                  Hpost Hdraws)).
Defined.

(** The five arrays have three entries each, and recording the command
    buffers again returns after 1 + 3 * 3 + 3 * 12 calls. *)
Lemma init_command_buffers_in_bounds_witness :
  Forall (fun a => array_length (attrs (ready demo_driver) a) = Some 3%nat)
    per_image /\
  fst (init_command_buffers (ready demo_driver)) = Ok tt /\
  fst (init_command_buffers (ready demo_driver)) <> Raise IndexError /\
  attrs (snd (init_command_buffers (ready demo_driver)))
  = attrs (ready demo_driver).
Proof.
  assert (Forall
            (fun a => array_length (attrs (ready demo_driver) a)
                      = Some 3%nat) per_image) as Hn
    by (repeat constructor; vm_compute; reflexivity).
  split; [exact Hn |]. split; [vm_compute; reflexivity |].
  destruct (init_command_buffers_in_bounds (ready demo_driver) 3 Hn)
    as (Hi & Ha & _).
  split; [exact Hi | exact Ha].
Defined.

(** Building the pipeline once more on the same state: the two modules made
    by the call come after the two that were there. *)
Lemma create_pipeline_registers_modules_witness :
  attrs (ready demo_driver) self.shaders_modules = VList [VC 1099; VC 1101] /\
  attrs (snd (create_pipeline (ready demo_driver))) self.shaders_modules
  = VList [VC 1099; VC 1101; VC 1153; VC 1155] /\
  wp create_pipeline (fun res w' =>
    exists evs,
      trace w' = trace (ready demo_driver) ++ evs /\
      attrs w' self.shaders_modules
      = VList ([VC 1099; VC 1101] ++ modules_of (omap obtained evs)) /\
      omap released evs = [] /\
      (res = Ok tt -> length (modules_of (omap obtained evs)) = 2%nat))
    (ready demo_driver).
Proof.
  assert (attrs (ready demo_driver) self.shaders_modules
          = VList [VC 1099; VC 1101]) as Hm
    by (vm_compute; reflexivity).
  split; [exact Hm |]. split; [vm_compute; reflexivity |].
  exact (create_pipeline_registers_modules (ready demo_driver) _ Hm).
Defined.


(** Making the three views again on the same state and destroying them. *)
Lemma destroy_swapchain_destroys_created_views_witness :
  let w := ready demo_driver in
  let w1 := snd (Swapchain_create_images 3 44 w) in
  fst (Swapchain_create_images 3 44 w) = Ok tt /\
  attrs w1 self.swapchain_views = VList [VC 1155; VC 1157; VC 1159] /\
  exists made,
    trace w1 = trace w ++ made /\
    wp Swapchain_destroy_swapchain (fun res w2 =>
      res = Ok tt /\ attrs w2 = attrs w1 /\
      exists gone,
        trace w2 = trace w1 ++ gone /\
        map key gone
        = map (destroy_view w) (omap view_created made).*2 ++
          [(DestroySwapchainKHR,
            [attrs w self.device; attrs w self.swapchain_swapchain; NULL])])
      w1.
Proof.
  cbv zeta.
  assert (fst (Swapchain_create_images 3 44 (ready demo_driver)) = Ok tt)
    as Hok by (vm_compute; reflexivity).
  split; [exact Hok |]. split; [vm_compute; reflexivity |].
  exact (destroy_swapchain_destroys_created_views 3 44 (ready demo_driver)
           Hok).
Defined.

End ReadyRuns.
